(** * Agent memory: sessions, working contexts and the processor pipeline

    A shallow embedding of [packages/agents/src/memory]:
    - [events.ts]          the event taxonomy (module [Events]);
    - [session.ts]         the [Session] class (module [Session]);
    - [working-context.ts] the [WorkingContext] class (module [WorkingContext]);
    - [processors.ts]      the built-in processors (module [Processors]).

    Objects mutated in place by the TypeScript code are records threaded
    through functions here: a method [o.m(a)] that mutates [o] and returns
    [this] is a function [m a o] returning the updated record.  The clock
    ([Date.now()]) and the random suffix of generated ids are explicit
    arguments.

    Numbers.  Timestamps, counters, lengths and token counts are integers
    in the code and are [Z] here.  The quantities the code divides
    ([averageResponseTimeMs], the character budget [length / 4]) and the
    window configuration are exact rationals [Q].

    Stored sessions.  [serialize] produces the JSON text of the session
    and [deserialize] reads one: [JS.JSON_stringify] renders values as
    [JSON.stringify] does, numbers in the notation of [Number::toString],
    and [JS.JSON_parse] is a parser of the JSON grammar. *)

From Stdlib Require Import ZArith QArith Qround String Ascii List Lia Lqa.
From stdpp Require Import base option list strings gmap.

Import ListNotations.
Set Warnings "-register-all".
Local Open Scope string_scope.
Local Open Scope list_scope.
Local Open Scope Z_scope.

(* ===================================================================== *)
(** * JavaScript built-ins used by the code *)
(* ===================================================================== *)

Module JS.

(** The values carried by fields typed [unknown], [object] or
    [Record<string, unknown>].  A property whose value is [undefined] is
    an absent property.  [JNum] is a number with an integer value and
    [JFrac] a number with a fractional part; [JNaN] and [JInfinity] are
    the numbers that are not finite, and [JDate] is a valid [Date]
    object, given by the string its [toISOString()] returns.  The first
    seven are the values a JSON text can denote.  [undefined] as an
    element of an array, functions and symbols, which [JSON.stringify]
    renders as [null] or leaves out, and [BigInt] values and cyclic
    objects, on which it throws, are not represented.  An integer is
    rendered in plain digits whatever its size. *)
Inductive JSON : Type :=
| JNull
| JBool (b : bool)
| JNum (n : Z)
| JStr (s : string)
| JArr (items : list JSON)
| JObj (fields : list (string * JSON))
| JFrac (q : Q)
| JNaN
| JInfinity (negative : bool)
| JDate (isoString : string).

(** [Record<string, unknown>] *)
Definition Record := list (string * JSON).

Definition chr (n : nat) : string := String (ascii_of_nat n) EmptyString.

(** [a.join(sep)] on an array of strings *)
Definition join (sep : string) (a : list string) : string := String.concat sep a.

(** [s.length] *)
Definition strlen (s : string) : Z := Z.of_nat (String.length s).

(** Decimal rendering of an integer, as [String(n)] and template
    literals do. *)
Definition string_of_digit (d : Z) : string := chr (48 + Z.to_nat d).

Fixpoint string_of_pos_fuel (fuel : nat) (n : Z) (acc : string) : string :=
  match fuel with
  | O => acc
  | S fuel' =>
      let acc' := string_of_digit (n mod 10) +:+ acc in
      if n / 10 =? 0 then acc' else string_of_pos_fuel fuel' (n / 10) acc'
  end.

Definition string_of_Z (n : Z) : string :=
  if n <? 0
  then "-" +:+ string_of_pos_fuel (S (Z.to_nat (Z.log2 (- n)))) (- n) EmptyString
  else string_of_pos_fuel (S (Z.to_nat (Z.log2 n))) n EmptyString.

(** The decimal digits of a natural number, most significant first, and
    the text of a run of digits. *)
Definition digitChar (d : Z) : ascii := ascii_of_nat (48 + Z.to_nat d).

Fixpoint digitString (ds : list Z) : string :=
  match ds with
  | [] => EmptyString
  | d :: rest => String (digitChar d) (digitString rest)
  end.

Fixpoint digits_fuel (fuel : nat) (n : Z) (acc : list Z) : list Z :=
  match fuel with
  | O => acc
  | S fuel' =>
      let acc' := n mod 10 :: acc in
      if n / 10 =? 0 then acc' else digits_fuel fuel' (n / 10) acc'
  end.

Definition digitsOf (n : Z) : list Z :=
  digits_fuel (S (Z.to_nat (Z.log2 n))) n [].

(** [m * 10^e] as a rational. *)
Definition scale10 (m e : Z) : Q :=
  if 0 <=? e then inject_Z (m * 10 ^ e) else m # Z.to_pos (10 ^ (- e)).

(** The least [k] with [b] dividing [10^k], when [b] has no prime
    factor other than 2 and 5. *)
Fixpoint placesFrom (fuel k : nat) (b : Z) : option nat :=
  match fuel with
  | O => None
  | S fuel' =>
      if (10 ^ Z.of_nat k) mod b =? 0 then Some k else placesFrom fuel' (S k) b
  end.

Definition decimalPlaces (b : positive) : option nat :=
  placesFrom (S (Pos.to_nat (Pos.size b))) 0 (Z.pos b).

(** A rational without a finite decimal expansion is no value of a
    JavaScript number; it is rendered to the 17 significant digits a
    double carries at most.  [significant17 a b] is [(m, e)] with
    [m * 10^e] the 17-digit decimal nearest to [a / b]. *)
Definition significant17 (a : Z) (b : positive) : Z * Z :=
  let n0 := Z.of_nat (length (digitsOf a)) - Z.of_nat (length (digitsOf (Z.pos b))) in
  let reaches :=
    if 0 <=? n0 then Z.pos b * 10 ^ n0 <=? a else Z.pos b <=? a * 10 ^ (- n0) in
  let n := if reaches then n0 + 1 else n0 in
  let e := n - 17 in
  let m :=
    if 0 <=? e
    then (2 * a + Z.pos b * 10 ^ e) / (2 * Z.pos b * 10 ^ e)
    else (2 * a * 10 ^ (- e) + Z.pos b) / (2 * Z.pos b) in
  (m, e).

(** [(m, e)] with [m * 10^e] the absolute value of the reduced rational
    [r], or its 17-digit rendering. *)
Definition decimalOf (r : Q) : Z * Z :=
  let a := Z.abs (Qnum r) in
  match decimalPlaces (Qden r) with
  | Some k => (a * (10 ^ Z.of_nat k / Z.pos (Qden r)), - Z.of_nat k)
  | None => significant17 a (Qden r)
  end.

(** Trailing zeros of the digits move into the exponent. *)
Fixpoint stripZeros (fuel : nat) (m e : Z) : Z * Z :=
  match fuel with
  | O => (m, e)
  | S fuel' =>
      if m =? 0 then (0, 0)
      else if m mod 10 =? 0 then stripZeros fuel' (m / 10) (e + 1)
      else (m, e)
  end.

Fixpoint zeros (k : nat) : list Z :=
  match k with
  | O => []
  | S k' => 0 :: zeros k'
  end.

(** Steps 6 to 10 of [Number::toString] for the digits [ds] and the
    position [n] of the decimal point: the value is [0.ds * 10^n]. *)
Definition layout (ds : list Z) (n : Z) : string :=
  let k := Z.of_nat (length ds) in
  if (k <=? n) && (n <=? 21)
  then digitString (ds ++ zeros (Z.to_nat (n - k)))
  else if (0 <? n) && (n <=? 21)
  then digitString (take (Z.to_nat n) ds) +:+ "." +:+ digitString (drop (Z.to_nat n) ds)
  else if (-6 <? n) && (n <=? 0)
  then "0." +:+ digitString (zeros (Z.to_nat (- n)) ++ ds)
  else
    let e := n - 1 in
    let sign := if e <? 0 then "-" else "+" in
    match ds with
    | [] => EmptyString
    | d :: more =>
        digitString [d] +:+
        (match more with
         | [] => EmptyString
         | _ => "." +:+ digitString more
         end) +:+
        "e" +:+ sign +:+ digitString (digitsOf (Z.abs e))
    end.

(** [Number::toString] of a finite number. *)
Definition Number_toString (q : Q) : string :=
  let r := Qred q in
  let (m0, e0) := decimalOf r in
  let (m, e) := stripZeros (S (Z.to_nat (Z.log2 m0))) m0 e0 in
  let ds := digitsOf m in
  (if Qnum r <? 0 then "-" else EmptyString) +:+ layout ds (Z.of_nat (length ds) + e).

(** [QuoteJSONString]: the escapes [JSON.stringify] applies inside a
    string literal. *)
Definition hex_digit (n : nat) : string :=
  if (n <? 10)%nat then chr (48 + n) else chr (87 + n).

Definition json_escape_char (c : ascii) : string :=
  let n := nat_of_ascii c in
  if (n =? 8)%nat then chr 92 +:+ "b"
  else if (n =? 9)%nat then chr 92 +:+ "t"
  else if (n =? 10)%nat then chr 92 +:+ "n"
  else if (n =? 12)%nat then chr 92 +:+ "f"
  else if (n =? 13)%nat then chr 92 +:+ "r"
  else if (n =? 34)%nat then chr 92 +:+ chr 34
  else if (n =? 92)%nat then chr 92 +:+ chr 92
  else if (n <? 32)%nat
       then chr 92 +:+ "u00" +:+ hex_digit (n / 16) +:+ hex_digit (n mod 16)
  else String c EmptyString.

Fixpoint json_escape (s : string) : string :=
  match s with
  | EmptyString => EmptyString
  | String c rest => json_escape_char c +:+ json_escape rest
  end.

Definition json_quote (s : string) : string :=
  chr 34 +:+ json_escape s +:+ chr 34.

(** [JSON.stringify(v)] without indentation. *)
Fixpoint JSON_stringify (v : JSON) : string :=
  match v with
  | JNull => "null"
  | JBool true => "true"
  | JBool false => "false"
  | JNum n => string_of_Z n
  | JStr s => json_quote s
  | JArr items => "[" +:+ join "," (List.map JSON_stringify items) +:+ "]"
  | JObj fields =>
      "{" +:+
      join "," (List.map (fun kv => json_quote (fst kv) +:+ ":" +:+ JSON_stringify (snd kv))
                         fields) +:+
      "}"
  | JFrac q => Number_toString q
  | JNaN => "null"
  | JInfinity _ => "null"
  | JDate isoString => json_quote isoString
  end.

(** Truthiness of the values the code tests with [if (x)] or [x && ...]
    or [x || d]. *)
Definition truthy_string (s : string) : bool :=
  match s with EmptyString => false | _ => true end.

Definition truthy_opt_string (s : option string) : bool :=
  match s with Some s => truthy_string s | None => false end.

Definition truthy_Z (n : Z) : bool := negb (n =? 0).

(** [a.slice(start)] for an integer [start]: a negative [start] counts
    from the end of the array, and the result is clamped to the array. *)
Definition slice {A : Type} (start : Z) (a : list A) : list A :=
  let len := Z.of_nat (List.length a) in
  let k := if start <? 0 then Z.max (len + start) 0 else Z.min start len in
  drop (Z.to_nat k) a.

(** Lookup of a property in a [Record]. *)
Fixpoint get (k : string) (o : Record) : option JSON :=
  match o with
  | [] => None
  | (k', v) :: rest => if String.eqb k k' then Some v else get k rest
  end.

(** The property an optional field contributes to an object: none when
    the field is absent. *)
Definition optional {A : Type} (k : string) (enc : A -> JSON) (v : option A) : Record :=
  match v with
  | Some x => [(k, enc x)]
  | None => []
  end.

(** Reading a value at a declared type.  TypeScript erases the types: a
    parsed value of another kind is kept by the code as it is, but the
    object holding it is then no value of the declared type. *)
Definition asString (v : JSON) : option string :=
  match v with JStr s => Some s | _ => None end.

Definition asInteger (v : JSON) : option Z :=
  match v with JNum n => Some n | _ => None end.

Definition asNumber (v : JSON) : option Q :=
  match v with
  | JNum n => Some (inject_Z n)
  | JFrac q => Some q
  | _ => None
  end.

Definition asBoolean (v : JSON) : option bool :=
  match v with JBool b => Some b | _ => None end.

Definition asRecord (v : JSON) : option Record :=
  match v with JObj o => Some o | _ => None end.

Fixpoint asStrings_items (items : list JSON) : option (list string) :=
  match items with
  | [] => Some []
  | v :: rest =>
      match asString v, asStrings_items rest with
      | Some s, Some ss => Some (s :: ss)
      | _, _ => None
      end
  end.

Definition asStrings (v : JSON) : option (list string) :=
  match v with JArr items => asStrings_items items | _ => None end.

(** A required property and an optional one. *)
Definition required {A : Type} (dec : JSON -> option A) (k : string) (o : Record)
    : option A :=
  match get k o with
  | Some v => dec v
  | None => None
  end.

Definition optionalField {A : Type} (dec : JSON -> option A) (k : string) (o : Record)
    : option (option A) :=
  match get k o with
  | Some v => match dec v with Some x => Some (Some x) | None => None end
  | None => Some None
  end.

(** [Object.assign(target, source)] seen from one property of the
    target: overwritten when the source has it, kept otherwise. *)
Definition assigned {A : Type} (dec : JSON -> option A) (k : string) (source : Record)
    (current : A) : option A :=
  match get k source with
  | Some v => dec v
  | None => Some current
  end.

(** The declared properties [Object.assign] can copy from a source: none
    from [undefined], [null] or a primitive. *)
Definition sourceProps (source : option JSON) : Record :=
  match source with
  | Some (JObj o) => o
  | _ => []
  end.

(** [v.k] for a parsed value [v] and a name [k] that no array and no
    primitive has: [None] is the [TypeError] of reading a property of
    [null], [Some None] is [undefined]. *)
Definition member (k : string) (v : JSON) : option (option JSON) :=
  match v with
  | JNull => None
  | JObj o => Some (get k o)
  | _ => Some None
  end.

Fixpoint characters (s : string) : list JSON :=
  match s with
  | EmptyString => []
  | String c rest => JStr (String c EmptyString) :: characters rest
  end.

(** The elements [...v] spreads, for [v] the result of reading a
    property: those of an array, the characters of a string; [None] is
    the [TypeError] of spreading what is not iterable. *)
Definition spread (v : option (option JSON)) : option (list JSON) :=
  match v with
  | Some (Some (JArr items)) => Some items
  | Some (Some (JStr s)) => Some (characters s)
  | _ => None
  end.

(** ** [JSON.parse]

    A recursive-descent reading of the JSON grammar.  [None] is the
    [SyntaxError] the built-in throws.  An escape of four hexadecimal
    digits above 00ff denotes a character that is no character of the
    strings of this development; a text holding one is refused as
    well. *)

Definition isWhitespace (c : ascii) : bool :=
  let n := nat_of_ascii c in
  (n =? 32)%nat || (n =? 9)%nat || (n =? 10)%nat || (n =? 13)%nat.

Fixpoint skipWhitespace (s : string) : string :=
  match s with
  | String c rest => if isWhitespace c then skipWhitespace rest else s
  | EmptyString => s
  end.

Definition digitValue (c : ascii) : option Z :=
  let n := nat_of_ascii c in
  if (48 <=? n)%nat && (n <=? 57)%nat then Some (Z.of_nat (n - 48)) else None.

(** The longest run of digits at the start of a text, and what follows. *)
Fixpoint spanDigits (s : string) : list Z * string :=
  match s with
  | String c rest =>
      match digitValue c with
      | Some d => let (ds, rest') := spanDigits rest in (d :: ds, rest')
      | None => ([], s)
      end
  | EmptyString => ([], s)
  end.

Definition valueOf (ds : list Z) : Z :=
  fold_left (fun acc d => acc * 10 + d) ds 0.

Definition hexValue (c : ascii) : option nat :=
  let n := nat_of_ascii c in
  if (48 <=? n)%nat && (n <=? 57)%nat then Some (n - 48)%nat
  else if (97 <=? n)%nat && (n <=? 102)%nat then Some (n - 87)%nat
  else if (65 <=? n)%nat && (n <=? 70)%nat then Some (n - 55)%nat
  else None.

(** The character a two-character escape denotes. *)
Definition unescape (c : ascii) : option ascii :=
  let n := nat_of_ascii c in
  if (n =? 34)%nat then Some (ascii_of_nat 34)
  else if (n =? 92)%nat then Some (ascii_of_nat 92)
  else if (n =? 47)%nat then Some (ascii_of_nat 47)
  else if (n =? 98)%nat then Some (ascii_of_nat 8)
  else if (n =? 102)%nat then Some (ascii_of_nat 12)
  else if (n =? 110)%nat then Some (ascii_of_nat 10)
  else if (n =? 114)%nat then Some (ascii_of_nat 13)
  else if (n =? 116)%nat then Some (ascii_of_nat 9)
  else None.

Definition consChar (c : ascii) (r : option (string * string)) : option (string * string) :=
  match r with
  | Some (str, rest) => Some (String c str, rest)
  | None => None
  end.

(** The characters of a string literal after its opening quote, up to
    and including the closing quote. *)
Fixpoint parseStringBody (s : string) : option (string * string) :=
  match s with
  | EmptyString => None
  | String c rest =>
      if (nat_of_ascii c =? 34)%nat then Some (EmptyString, rest)
      else if (nat_of_ascii c =? 92)%nat then
        match rest with
        | EmptyString => None
        | String e rest1 =>
            match unescape e with
            | Some ch => consChar ch (parseStringBody rest1)
            | None =>
                if (nat_of_ascii e =? 117)%nat then
                  match rest1 with
                  | String h1 (String h2 (String h3 (String h4 rest2))) =>
                      match hexValue h1, hexValue h2, hexValue h3, hexValue h4 with
                      | Some a, Some b, Some c', Some d =>
                          if ((a =? 0) && (b =? 0))%nat
                          then consChar (ascii_of_nat (16 * c' + d)) (parseStringBody rest2)
                          else None
                      | _, _, _, _ => None
                      end
                  | _ => None
                  end
                else None
            end
        end
      else if (nat_of_ascii c <? 32)%nat then None
      else consChar c (parseStringBody rest)
  end.

(** The optional fraction and exponent of a number. *)
Definition parseFraction (s : string) : option (list Z * string) :=
  match s with
  | String c rest =>
      if (nat_of_ascii c =? 46)%nat then
        match spanDigits rest with
        | ([], _) => None
        | (ds, rest') => Some (ds, rest')
        end
      else Some ([], s)
  | EmptyString => Some ([], s)
  end.

Definition parseSign (s : string) : bool * string :=
  match s with
  | String c rest =>
      if (nat_of_ascii c =? 45)%nat then (true, rest)
      else if (nat_of_ascii c =? 43)%nat then (false, rest)
      else (false, s)
  | EmptyString => (false, s)
  end.

Definition parseExponent (s : string) : option (Z * string) :=
  match s with
  | String c rest =>
      if (nat_of_ascii c =? 101)%nat || (nat_of_ascii c =? 69)%nat then
        let (negative, rest1) := parseSign rest in
        match spanDigits rest1 with
        | ([], _) => None
        | (ds, rest2) => Some (if negative then - valueOf ds else valueOf ds, rest2)
        end
      else Some (0, s)
  | EmptyString => Some (0, s)
  end.

(** A number: an optional minus, an integer part without a leading
    zero, an optional fraction and an optional exponent. *)
Definition parseNumber (s : string) : option (Q * string) :=
  let (negative, s1) :=
    match s with
    | String c rest => if (nat_of_ascii c =? 45)%nat then (true, rest) else (false, s)
    | EmptyString => (false, s)
    end in
  let (int, s2) := spanDigits s1 in
  match int with
  | [] => None
  | d :: more =>
      if (d =? 0) && (0 <? length more)%nat then None
      else
        match parseFraction s2 with
        | None => None
        | Some (frac, s3) =>
            match parseExponent s3 with
            | None => None
            | Some (e, s4) =>
                let q := scale10 (valueOf (int ++ frac)) (e - Z.of_nat (length frac)) in
                Some (if negative then (- q)%Q else q, s4)
            end
        end
  end.

(** The number value of a rational. *)
Definition ofQ (q : Q) : JSON :=
  if Qnum q mod Z.pos (Qden q) =? 0
  then JNum (Qnum q / Z.pos (Qden q))
  else JFrac (Qred q).

(** The rest of a literal whose first character has been read. *)
Fixpoint expect (literal s : string) : option string :=
  match literal with
  | EmptyString => Some s
  | String c literal' =>
      match s with
      | String c' rest => if Ascii.eqb c c' then expect literal' rest else None
      | EmptyString => None
      end
  end.

(** [CreateDataProperty]: a name that occurs again overwrites the value
    it had and keeps its place.  The properties are listed in the order
    of the text; JavaScript enumerates names that are array indices
    first, which no lookup by name observes. *)
Fixpoint setProp (k : string) (v : JSON) (o : Record) : Record :=
  match o with
  | [] => [(k, v)]
  | (k', v') :: rest =>
      if String.eqb k k' then (k', v) :: rest else (k', v') :: setProp k v rest
  end.

Definition mergeMembers (members : list (string * JSON)) : Record :=
  fold_left (fun o kv => setProp (fst kv) (snd kv) o) members [].

(** Values, the elements of an array after its first bracket and the
    members of an object after its first brace.  Every call reads at
    least one character before the next one, so the length of the text
    bounds the depth of the calls. *)
Fixpoint parseValue (fuel : nat) (s : string) : option (JSON * string) :=
  match fuel with
  | O => None
  | S fuel' =>
      match skipWhitespace s with
      | EmptyString => None
      | String c rest =>
          let n := nat_of_ascii c in
          if (n =? 110)%nat then
            match expect "ull" rest with
            | Some rest' => Some (JNull, rest')
            | None => None
            end
          else if (n =? 116)%nat then
            match expect "rue" rest with
            | Some rest' => Some (JBool true, rest')
            | None => None
            end
          else if (n =? 102)%nat then
            match expect "alse" rest with
            | Some rest' => Some (JBool false, rest')
            | None => None
            end
          else if (n =? 34)%nat then
            match parseStringBody rest with
            | Some (str, rest') => Some (JStr str, rest')
            | None => None
            end
          else if (n =? 91)%nat then
            match skipWhitespace rest with
            | String c' rest' =>
                if (nat_of_ascii c' =? 93)%nat then Some (JArr [], rest')
                else
                  match parseElements fuel' (String c' rest') with
                  | Some (items, rest'') => Some (JArr items, rest'')
                  | None => None
                  end
            | EmptyString => None
            end
          else if (n =? 123)%nat then
            match skipWhitespace rest with
            | String c' rest' =>
                if (nat_of_ascii c' =? 125)%nat then Some (JObj [], rest')
                else
                  match parseMembers fuel' (String c' rest') with
                  | Some (members, rest'') => Some (JObj (mergeMembers members), rest'')
                  | None => None
                  end
            | EmptyString => None
            end
          else
            match parseNumber (String c rest) with
            | Some (q, rest') => Some (ofQ q, rest')
            | None => None
            end
      end
  end
with parseElements (fuel : nat) (s : string) : option (list JSON * string) :=
  match fuel with
  | O => None
  | S fuel' =>
      match parseValue fuel' s with
      | None => None
      | Some (v, s1) =>
          match skipWhitespace s1 with
          | String c rest =>
              if (nat_of_ascii c =? 44)%nat then
                match parseElements fuel' rest with
                | Some (vs, rest') => Some (v :: vs, rest')
                | None => None
                end
              else if (nat_of_ascii c =? 93)%nat then Some ([v], rest)
              else None
          | EmptyString => None
          end
      end
  end
with parseMembers (fuel : nat) (s : string) : option (list (string * JSON) * string) :=
  match fuel with
  | O => None
  | S fuel' =>
      match skipWhitespace s with
      | String q s0 =>
          if (nat_of_ascii q =? 34)%nat then
            match parseStringBody s0 with
            | None => None
            | Some (k, s1) =>
                match skipWhitespace s1 with
                | String colon s2 =>
                    if (nat_of_ascii colon =? 58)%nat then
                      match parseValue fuel' s2 with
                      | None => None
                      | Some (v, s3) =>
                          match skipWhitespace s3 with
                          | String c rest =>
                              if (nat_of_ascii c =? 44)%nat then
                                match parseMembers fuel' rest with
                                | Some (kvs, rest') => Some ((k, v) :: kvs, rest')
                                | None => None
                                end
                              else if (nat_of_ascii c =? 125)%nat then Some ([(k, v)], rest)
                              else None
                          | EmptyString => None
                          end
                      end
                    else None
                | EmptyString => None
                end
            end
          else None
      | EmptyString => None
      end
  end.

(** [JSON.parse(text)] *)
Definition JSON_parse (text : string) : option JSON :=
  match parseValue (S (String.length text)) text with
  | Some (v, rest) =>
      match skipWhitespace rest with
      | EmptyString => Some v
      | String _ _ => None
      end
  | None => None
  end.

End JS.


(* ===================================================================== *)
(** * events.ts: the event taxonomy *)
(* ===================================================================== *)

Module Events.

Inductive EventAction : Type :=
| USER_MESSAGE
| AGENT_MESSAGE
| TOOL_CALL
| TOOL_RESULT
| ERROR
| CONTROL_SIGNAL
| COMPACTION
| AGENT_TRANSFER
| SYSTEM_INSTRUCTION.

#[export] Instance EventAction_eq_dec : EqDecision EventAction.
Proof. solve_decision. Defined.

(** The string value of each enum member. *)
Definition EventAction_value (a : EventAction) : string :=
  match a with
  | USER_MESSAGE => "user_message"
  | AGENT_MESSAGE => "agent_message"
  | TOOL_CALL => "tool_call"
  | TOOL_RESULT => "tool_result"
  | ERROR => "error"
  | CONTROL_SIGNAL => "control_signal"
  | COMPACTION => "compaction"
  | AGENT_TRANSFER => "agent_transfer"
  | SYSTEM_INSTRUCTION => "system_instruction"
  end.

(** ["sliding_window" | "semantic" | "time_based"] *)
Inductive CompactionStrategy : Type := sliding_window | semantic | time_based.

(** ["reset" | "handoff" | "pause" | "resume"] *)
Inductive SignalType : Type := reset | handoff | pause | resume.

(** [BaseEvent] without its discriminant: the [action] of an event is
    the constructor of [Event] that carries it. *)
Module BaseEvent.
Record t : Type := mk {
  id : string;
  timestamp : Z;
  metadata : option JS.Record
}.
End BaseEvent.

Module UserMessageEvent.
Record t : Type := mk {
  base : BaseEvent.t;
  content : string;
  customParams : option JS.Record
}.
End UserMessageEvent.

Module AgentMessageEvent.
Record t : Type := mk {
  base : BaseEvent.t;
  content : string;
  agentId : string;
  modelUsed : option string;
  tokensUsed : option Z;
  gatewayLogId : option string;
  customParams : option JS.Record
}.
End AgentMessageEvent.

Module ToolCallEvent.
Record t : Type := mk {
  base : BaseEvent.t;
  toolName : string;
  arguments : JS.Record;
  toolCallId : string;
  serverId : option string;
  customParams : option JS.Record
}.
End ToolCallEvent.

(** [result: string | object] *)
Inductive ToolResult : Type :=
| ResultString (s : string)
| ResultObject (o : JS.JSON).

Module ToolResultEvent.
Record t : Type := mk {
  base : BaseEvent.t;
  toolCallId : string;
  toolName : string;
  result : ToolResult;
  isSuccess : bool;
  executionTimeMs : option Z;
  customParams : option JS.Record
}.
End ToolResultEvent.

Module ErrorEvent.
Record t : Type := mk {
  base : BaseEvent.t;
  errorType : string;
  errorMessage : string;
  errorStack : option string;
  recoverable : bool
}.
End ErrorEvent.

Module ControlSignalEvent.
Record t : Type := mk {
  base : BaseEvent.t;
  signalType : SignalType;
  payload : option JS.Record
}.
End ControlSignalEvent.

Module CompactionEvent.
Record t : Type := mk {
  base : BaseEvent.t;
  summary : string;
  compactedEventIds : list string;
  compactionStrategy : CompactionStrategy;
  originalTokenCount : option Z;
  compactedTokenCount : option Z;
  customParams : option JS.Record
}.
End CompactionEvent.

Module AgentTransferEvent.
Record t : Type := mk {
  base : BaseEvent.t;
  fromAgent : string;
  toAgent : string;
  transferReason : string;
  scopedContext : option (list string)
}.
End AgentTransferEvent.

Module SystemInstructionEvent.
Record t : Type := mk {
  base : BaseEvent.t;
  instruction : string;
  isStatic : bool;
  customParams : option JS.Record
}.
End SystemInstructionEvent.

(** The union type [Event]. *)
Inductive Event : Type :=
| UserMessage (e : UserMessageEvent.t)
| AgentMessage (e : AgentMessageEvent.t)
| ToolCall (e : ToolCallEvent.t)
| ToolResultEv (e : ToolResultEvent.t)
| Error (e : ErrorEvent.t)
| ControlSignal (e : ControlSignalEvent.t)
| Compaction (e : CompactionEvent.t)
| AgentTransfer (e : AgentTransferEvent.t)
| SystemInstruction (e : SystemInstructionEvent.t).

(** [event.action] *)
Definition action (ev : Event) : EventAction :=
  match ev with
  | UserMessage _ => USER_MESSAGE
  | AgentMessage _ => AGENT_MESSAGE
  | ToolCall _ => TOOL_CALL
  | ToolResultEv _ => TOOL_RESULT
  | Error _ => ERROR
  | ControlSignal _ => CONTROL_SIGNAL
  | Compaction _ => COMPACTION
  | AgentTransfer _ => AGENT_TRANSFER
  | SystemInstruction _ => SYSTEM_INSTRUCTION
  end.

Definition base (ev : Event) : BaseEvent.t :=
  match ev with
  | UserMessage e => UserMessageEvent.base e
  | AgentMessage e => AgentMessageEvent.base e
  | ToolCall e => ToolCallEvent.base e
  | ToolResultEv e => ToolResultEvent.base e
  | Error e => ErrorEvent.base e
  | ControlSignal e => ControlSignalEvent.base e
  | Compaction e => CompactionEvent.base e
  | AgentTransfer e => AgentTransferEvent.base e
  | SystemInstruction e => SystemInstructionEvent.base e
  end.

(** [event.id] and [event.timestamp] *)
Definition id (ev : Event) : string := BaseEvent.id (base ev).
Definition timestamp (ev : Event) : Z := BaseEvent.timestamp (base ev).

(** The string values of the two literal unions. *)
Definition CompactionStrategy_value (s : CompactionStrategy) : string :=
  match s with
  | sliding_window => "sliding_window"
  | semantic => "semantic"
  | time_based => "time_based"
  end.

Definition asCompactionStrategy (v : JS.JSON) : option CompactionStrategy :=
  match v with
  | JS.JStr s =>
      if String.eqb s "sliding_window" then Some sliding_window
      else if String.eqb s "semantic" then Some semantic
      else if String.eqb s "time_based" then Some time_based
      else None
  | _ => None
  end.

Definition SignalType_value (s : SignalType) : string :=
  match s with
  | reset => "reset"
  | handoff => "handoff"
  | pause => "pause"
  | resume => "resume"
  end.

Definition asSignalType (v : JS.JSON) : option SignalType :=
  match v with
  | JS.JStr s =>
      if String.eqb s "reset" then Some reset
      else if String.eqb s "handoff" then Some handoff
      else if String.eqb s "pause" then Some pause
      else if String.eqb s "resume" then Some resume
      else None
  | _ => None
  end.

(** [typeof result === "string"] tells the two kinds of result apart. *)
Definition ToolResult_value (r : ToolResult) : JS.JSON :=
  match r with
  | ResultString s => JS.JStr s
  | ResultObject o => o
  end.

Definition asToolResult (v : JS.JSON) : option ToolResult :=
  match v with
  | JS.JStr s => Some (ResultString s)
  | _ => Some (ResultObject v)
  end.

(** An event as the object [JSON.stringify] walks: its own properties,
    those of [BaseEvent] first.  The order of the properties of an event
    is that of its construction, which this module does not fix; an
    event is read back by the names of its properties, so the order
    plays no part in what [deserialize] returns. *)
Definition ownProperties (ev : Event) : JS.Record :=
  match ev with
  | UserMessage e =>
      [("content", JS.JStr (UserMessageEvent.content e))]
      ++ JS.optional "customParams" JS.JObj (UserMessageEvent.customParams e)
  | AgentMessage e =>
      [("content", JS.JStr (AgentMessageEvent.content e));
       ("agentId", JS.JStr (AgentMessageEvent.agentId e))]
      ++ JS.optional "modelUsed" JS.JStr (AgentMessageEvent.modelUsed e)
      ++ JS.optional "tokensUsed" JS.JNum (AgentMessageEvent.tokensUsed e)
      ++ JS.optional "gatewayLogId" JS.JStr (AgentMessageEvent.gatewayLogId e)
      ++ JS.optional "customParams" JS.JObj (AgentMessageEvent.customParams e)
  | ToolCall e =>
      [("toolName", JS.JStr (ToolCallEvent.toolName e));
       ("arguments", JS.JObj (ToolCallEvent.arguments e));
       ("toolCallId", JS.JStr (ToolCallEvent.toolCallId e))]
      ++ JS.optional "serverId" JS.JStr (ToolCallEvent.serverId e)
      ++ JS.optional "customParams" JS.JObj (ToolCallEvent.customParams e)
  | ToolResultEv e =>
      [("toolCallId", JS.JStr (ToolResultEvent.toolCallId e));
       ("toolName", JS.JStr (ToolResultEvent.toolName e));
       ("result", ToolResult_value (ToolResultEvent.result e));
       ("isSuccess", JS.JBool (ToolResultEvent.isSuccess e))]
      ++ JS.optional "executionTimeMs" JS.JNum (ToolResultEvent.executionTimeMs e)
      ++ JS.optional "customParams" JS.JObj (ToolResultEvent.customParams e)
  | Error e =>
      [("errorType", JS.JStr (ErrorEvent.errorType e));
       ("errorMessage", JS.JStr (ErrorEvent.errorMessage e))]
      ++ JS.optional "errorStack" JS.JStr (ErrorEvent.errorStack e)
      ++ [("recoverable", JS.JBool (ErrorEvent.recoverable e))]
  | ControlSignal e =>
      [("signalType", JS.JStr (SignalType_value (ControlSignalEvent.signalType e)))]
      ++ JS.optional "payload" JS.JObj (ControlSignalEvent.payload e)
  | Compaction e =>
      [("summary", JS.JStr (CompactionEvent.summary e));
       ("compactedEventIds",
        JS.JArr (List.map JS.JStr (CompactionEvent.compactedEventIds e)));
       ("compactionStrategy",
        JS.JStr (CompactionStrategy_value (CompactionEvent.compactionStrategy e)))]
      ++ JS.optional "originalTokenCount" JS.JNum (CompactionEvent.originalTokenCount e)
      ++ JS.optional "compactedTokenCount" JS.JNum (CompactionEvent.compactedTokenCount e)
      ++ JS.optional "customParams" JS.JObj (CompactionEvent.customParams e)
  | AgentTransfer e =>
      [("fromAgent", JS.JStr (AgentTransferEvent.fromAgent e));
       ("toAgent", JS.JStr (AgentTransferEvent.toAgent e));
       ("transferReason", JS.JStr (AgentTransferEvent.transferReason e))]
      ++ JS.optional "scopedContext" (fun l => JS.JArr (List.map JS.JStr l))
                     (AgentTransferEvent.scopedContext e)
  | SystemInstruction e =>
      [("instruction", JS.JStr (SystemInstructionEvent.instruction e));
       ("isStatic", JS.JBool (SystemInstructionEvent.isStatic e))]
      ++ JS.optional "customParams" JS.JObj (SystemInstructionEvent.customParams e)
  end.

Definition toJSON (ev : Event) : JS.JSON :=
  JS.JObj
    ([("id", JS.JStr (id ev));
      ("action", JS.JStr (EventAction_value (action ev)));
      ("timestamp", JS.JNum (timestamp ev))]
     ++ JS.optional "metadata" JS.JObj (BaseEvent.metadata (base ev))
     ++ ownProperties ev).

(** The event a parsed value is: the member of the union its [action]
    names, read at the declared types.  A property that is not declared
    is not carried over. *)
Definition baseOfJSON (o : JS.Record) : option BaseEvent.t :=
  i ← JS.required JS.asString "id" o;
  t ← JS.required JS.asInteger "timestamp" o;
  m ← JS.optionalField JS.asRecord "metadata" o;
  Some (BaseEvent.mk i t m).

Definition ofJSON (v : JS.JSON) : option Event :=
  match v with
  | JS.JObj o =>
      b ← baseOfJSON o;
      a ← JS.required JS.asString "action" o;
      if String.eqb a "user_message" then
        content ← JS.required JS.asString "content" o;
        customParams ← JS.optionalField JS.asRecord "customParams" o;
        Some (UserMessage (UserMessageEvent.mk b content customParams))
      else if String.eqb a "agent_message" then
        content ← JS.required JS.asString "content" o;
        agentId ← JS.required JS.asString "agentId" o;
        modelUsed ← JS.optionalField JS.asString "modelUsed" o;
        tokensUsed ← JS.optionalField JS.asInteger "tokensUsed" o;
        gatewayLogId ← JS.optionalField JS.asString "gatewayLogId" o;
        customParams ← JS.optionalField JS.asRecord "customParams" o;
        Some (AgentMessage (AgentMessageEvent.mk b content agentId modelUsed tokensUsed
                                                 gatewayLogId customParams))
      else if String.eqb a "tool_call" then
        toolName ← JS.required JS.asString "toolName" o;
        arguments ← JS.required JS.asRecord "arguments" o;
        toolCallId ← JS.required JS.asString "toolCallId" o;
        serverId ← JS.optionalField JS.asString "serverId" o;
        customParams ← JS.optionalField JS.asRecord "customParams" o;
        Some (ToolCall (ToolCallEvent.mk b toolName arguments toolCallId serverId
                                         customParams))
      else if String.eqb a "tool_result" then
        toolCallId ← JS.required JS.asString "toolCallId" o;
        toolName ← JS.required JS.asString "toolName" o;
        result ← JS.required asToolResult "result" o;
        isSuccess ← JS.required JS.asBoolean "isSuccess" o;
        executionTimeMs ← JS.optionalField JS.asInteger "executionTimeMs" o;
        customParams ← JS.optionalField JS.asRecord "customParams" o;
        Some (ToolResultEv (ToolResultEvent.mk b toolCallId toolName result isSuccess
                                               executionTimeMs customParams))
      else if String.eqb a "error" then
        errorType ← JS.required JS.asString "errorType" o;
        errorMessage ← JS.required JS.asString "errorMessage" o;
        errorStack ← JS.optionalField JS.asString "errorStack" o;
        recoverable ← JS.required JS.asBoolean "recoverable" o;
        Some (Error (ErrorEvent.mk b errorType errorMessage errorStack recoverable))
      else if String.eqb a "control_signal" then
        signalType ← JS.required asSignalType "signalType" o;
        payload ← JS.optionalField JS.asRecord "payload" o;
        Some (ControlSignal (ControlSignalEvent.mk b signalType payload))
      else if String.eqb a "compaction" then
        summary ← JS.required JS.asString "summary" o;
        compactedEventIds ← JS.required JS.asStrings "compactedEventIds" o;
        compactionStrategy ← JS.required asCompactionStrategy "compactionStrategy" o;
        originalTokenCount ← JS.optionalField JS.asInteger "originalTokenCount" o;
        compactedTokenCount ← JS.optionalField JS.asInteger "compactedTokenCount" o;
        customParams ← JS.optionalField JS.asRecord "customParams" o;
        Some (Compaction (CompactionEvent.mk b summary compactedEventIds
                                             compactionStrategy originalTokenCount
                                             compactedTokenCount customParams))
      else if String.eqb a "agent_transfer" then
        fromAgent ← JS.required JS.asString "fromAgent" o;
        toAgent ← JS.required JS.asString "toAgent" o;
        transferReason ← JS.required JS.asString "transferReason" o;
        scopedContext ← JS.optionalField JS.asStrings "scopedContext" o;
        Some (AgentTransfer (AgentTransferEvent.mk b fromAgent toAgent transferReason
                                                   scopedContext))
      else if String.eqb a "system_instruction" then
        instruction ← JS.required JS.asString "instruction" o;
        isStatic ← JS.required JS.asBoolean "isStatic" o;
        customParams ← JS.optionalField JS.asRecord "customParams" o;
        Some (SystemInstruction (SystemInstructionEvent.mk b instruction isStatic
                                                           customParams))
      else None
  | _ => None
  end.

Fixpoint allOfJSON (items : list JS.JSON) : option (list Event) :=
  match items with
  | [] => Some []
  | v :: rest =>
      match ofJSON v, allOfJSON rest with
      | Some e, Some es => Some (e :: es)
      | _, _ => None
      end
  end.

(** [generateEventId()]; [now] is [Date.now()] and [suffix] is
    [Math.random().toString(36).substr(2, 9)]. *)
Definition generateEventId (now : Z) (suffix : string) : string :=
  "event_" +:+ JS.string_of_Z now +:+ "_" +:+ suffix.

End Events.

(* ===================================================================== *)
(** * session.ts: the Session class *)
(* ===================================================================== *)

Module Session.
Import Events.

Module SessionMetadata.
Record t : Type := mk {
  sessionId : string;
  createdAt : Z;
  updatedAt : Z;
  agentId : string
}.
End SessionMetadata.

Module SessionStatistics.
Record t : Type := mk {
  totalEvents : Z;
  totalUserMessages : Z;
  totalAgentMessages : Z;
  totalToolCalls : Z;
  totalErrors : Z;
  totalCompactions : Z;
  averageResponseTimeMs : Q;
  totalTokensUsed : Z
}.

(** Field updates [statistics.f = g(statistics.f)]. *)
Definition upd_totalEvents (g : Z -> Z) (st : t) : t :=
  mk (g (totalEvents st)) (totalUserMessages st) (totalAgentMessages st)
     (totalToolCalls st) (totalErrors st) (totalCompactions st)
     (averageResponseTimeMs st) (totalTokensUsed st).
Definition upd_totalUserMessages (g : Z -> Z) (st : t) : t :=
  mk (totalEvents st) (g (totalUserMessages st)) (totalAgentMessages st)
     (totalToolCalls st) (totalErrors st) (totalCompactions st)
     (averageResponseTimeMs st) (totalTokensUsed st).
Definition upd_totalAgentMessages (g : Z -> Z) (st : t) : t :=
  mk (totalEvents st) (totalUserMessages st) (g (totalAgentMessages st))
     (totalToolCalls st) (totalErrors st) (totalCompactions st)
     (averageResponseTimeMs st) (totalTokensUsed st).
Definition upd_totalToolCalls (g : Z -> Z) (st : t) : t :=
  mk (totalEvents st) (totalUserMessages st) (totalAgentMessages st)
     (g (totalToolCalls st)) (totalErrors st) (totalCompactions st)
     (averageResponseTimeMs st) (totalTokensUsed st).
Definition upd_totalErrors (g : Z -> Z) (st : t) : t :=
  mk (totalEvents st) (totalUserMessages st) (totalAgentMessages st)
     (totalToolCalls st) (g (totalErrors st)) (totalCompactions st)
     (averageResponseTimeMs st) (totalTokensUsed st).
Definition upd_totalCompactions (g : Z -> Z) (st : t) : t :=
  mk (totalEvents st) (totalUserMessages st) (totalAgentMessages st)
     (totalToolCalls st) (totalErrors st) (g (totalCompactions st))
     (averageResponseTimeMs st) (totalTokensUsed st).
Definition set_averageResponseTimeMs (q : Q) (st : t) : t :=
  mk (totalEvents st) (totalUserMessages st) (totalAgentMessages st)
     (totalToolCalls st) (totalErrors st) (totalCompactions st)
     q (totalTokensUsed st).
Definition upd_totalTokensUsed (g : Z -> Z) (st : t) : t :=
  mk (totalEvents st) (totalUserMessages st) (totalAgentMessages st)
     (totalToolCalls st) (totalErrors st) (totalCompactions st)
     (averageResponseTimeMs st) (g (totalTokensUsed st)).
End SessionStatistics.

Module CompactionConfig.
Record t : Type := mk {
  enabled : bool;
  triggerThreshold : Z;
  windowSize : Z;
  overlapSize : Z;
  strategy : CompactionStrategy
}.

(** [Partial<CompactionConfig>] *)
Record partial : Type := mkPartial {
  p_enabled : option bool;
  p_triggerThreshold : option Z;
  p_windowSize : option Z;
  p_overlapSize : option Z;
  p_strategy : option CompactionStrategy
}.
End CompactionConfig.

(** [ToolCallEvent | ToolResultEvent] *)
Inductive ToolEvent : Type :=
| ToolCallOf (e : ToolCallEvent.t)
| ToolResultOf (e : ToolResultEvent.t).

(** [ConversationTurn]; [getConversationTurns] is the only producer and
    always sets [tools]. *)
Module ConversationTurn.
Record t : Type := mk {
  user : UserMessageEvent.t;
  agent : option AgentMessageEvent.t;
  tools : list ToolEvent
}.
End ConversationTurn.

Record t : Type := mk {
  metadata : SessionMetadata.t;
  events : list Event;
  statistics : SessionStatistics.t;
  compactionConfig : CompactionConfig.t
}.

(** [new Session(agentId)]; [now] is [Date.now()] and [suffix] is
    [Math.random().toString(36).substr(2, 9)]. *)
Definition new (agentId : string) (now : Z) (suffix : string) : t :=
  {| metadata :=
       {| SessionMetadata.sessionId :=
            "session_" +:+ JS.string_of_Z now +:+ "_" +:+ suffix;
          SessionMetadata.createdAt := now;
          SessionMetadata.updatedAt := now;
          SessionMetadata.agentId := agentId |};
     events := [];
     statistics :=
       {| SessionStatistics.totalEvents := 0;
          SessionStatistics.totalUserMessages := 0;
          SessionStatistics.totalAgentMessages := 0;
          SessionStatistics.totalToolCalls := 0;
          SessionStatistics.totalErrors := 0;
          SessionStatistics.totalCompactions := 0;
          SessionStatistics.averageResponseTimeMs := 0%Q;
          SessionStatistics.totalTokensUsed := 0 |};
     compactionConfig :=
       {| CompactionConfig.enabled := true;
          CompactionConfig.triggerThreshold := 50;
          CompactionConfig.windowSize := 10;
          CompactionConfig.overlapSize := 2;
          CompactionConfig.strategy := sliding_window |} |}.

(** The [switch (event.action)] of [addEvent]. *)
Definition countEvent (event : Event) (st : SessionStatistics.t) : SessionStatistics.t :=
  match event with
  | UserMessage _ => SessionStatistics.upd_totalUserMessages Z.succ st
  | AgentMessage e =>
      let st' := SessionStatistics.upd_totalAgentMessages Z.succ st in
      match AgentMessageEvent.tokensUsed e with
      | Some n =>
          if JS.truthy_Z n
          then SessionStatistics.upd_totalTokensUsed (fun total => total + n) st'
          else st'
      | None => st'
      end
  | ToolCall _ => SessionStatistics.upd_totalToolCalls Z.succ st
  | Error _ => SessionStatistics.upd_totalErrors Z.succ st
  | Compaction _ => SessionStatistics.upd_totalCompactions Z.succ st
  | _ => st
  end.

(** [addEvent(event)]; [now] is the [Date.now()] read by the call. *)
Definition addEvent (event : Event) (now : Z) (s : t) : t :=
  {| metadata :=
       {| SessionMetadata.sessionId := SessionMetadata.sessionId (metadata s);
          SessionMetadata.createdAt := SessionMetadata.createdAt (metadata s);
          SessionMetadata.updatedAt := now;
          SessionMetadata.agentId := SessionMetadata.agentId (metadata s) |};
     events := events s ++ [event];
     statistics :=
       countEvent event (SessionStatistics.upd_totalEvents Z.succ (statistics s));
     compactionConfig := compactionConfig s |}.

(** A run of [addEvent] calls, each given with the clock value it reads. *)
Definition addEvents (calls : list (Event * Z)) (s : t) : t :=
  fold_left (fun acc call => addEvent (fst call) (snd call) acc) calls s.

Definition isCompaction (e : Event) : bool :=
  bool_decide (action e = COMPACTION).

(** [needsCompaction()] *)
Definition needsCompaction (s : t) : bool :=
  if negb (CompactionConfig.enabled (compactionConfig s)) then false
  else
    let uncompactedEvents := List.filter (fun e => negb (isCompaction e)) (events s) in
    CompactionConfig.triggerThreshold (compactionConfig s)
      <=? Z.of_nat (length uncompactedEvents).

(** [getEventsByTimeRange(startTime, endTime)] *)
Definition getEventsByTimeRange (startTime endTime : Z) (s : t) : list Event :=
  List.filter (fun e => (startTime <=? timestamp e) && (timestamp e <=? endTime)) (events s).

(** [getEventsByAction(action)] *)
Definition getEventsByAction (a : EventAction) (s : t) : list Event :=
  List.filter (fun e => bool_decide (action e = a)) (events s).

(** [getLastNEvents(n)] *)
Definition getLastNEvents (n : Z) (s : t) : list Event :=
  JS.slice (- n) (events s).

(** The body of the [for] loop of [getConversationTurns]: the state is
    [turns] and [currentTurn]. *)
Definition turnStep (st : list ConversationTurn.t * option ConversationTurn.t)
    (event : Event) : list ConversationTurn.t * option ConversationTurn.t :=
  let (turns, currentTurn) := st in
  match event with
  | UserMessage u =>
      (match currentTurn with
       | Some cur => turns ++ [cur]
       | None => turns
       end,
       Some (ConversationTurn.mk u None []))
  | _ =>
      match currentTurn with
      | Some cur =>
          match event with
          | AgentMessage a =>
              (turns,
               Some (ConversationTurn.mk (ConversationTurn.user cur) (Some a)
                                         (ConversationTurn.tools cur)))
          | ToolCall c =>
              (turns,
               Some (ConversationTurn.mk (ConversationTurn.user cur)
                                         (ConversationTurn.agent cur)
                                         (ConversationTurn.tools cur ++ [ToolCallOf c])))
          | ToolResultEv r =>
              (turns,
               Some (ConversationTurn.mk (ConversationTurn.user cur)
                                         (ConversationTurn.agent cur)
                                         (ConversationTurn.tools cur ++ [ToolResultOf r])))
          | _ => (turns, Some cur)
          end
      | None => (turns, None)
      end
  end.

(** The [if (currentTurn) turns.push(currentTurn)] after the loop. *)
Definition flushTurn (st : list ConversationTurn.t * option ConversationTurn.t)
    : list ConversationTurn.t :=
  match snd st with
  | Some cur => fst st ++ [cur]
  | None => fst st
  end.

Definition turnsOf (evs : list Event) : list ConversationTurn.t :=
  flushTurn (fold_left turnStep evs ([], None)).

(** [getConversationTurns()] *)
Definition getConversationTurns (s : t) : list ConversationTurn.t :=
  turnsOf (events s).

(** [Object.assign(config, updates)] *)
Definition assignCompactionConfig (c : CompactionConfig.t)
    (updates : CompactionConfig.partial) : CompactionConfig.t :=
  {| CompactionConfig.enabled :=
       default (CompactionConfig.enabled c) (CompactionConfig.p_enabled updates);
     CompactionConfig.triggerThreshold :=
       default (CompactionConfig.triggerThreshold c)
               (CompactionConfig.p_triggerThreshold updates);
     CompactionConfig.windowSize :=
       default (CompactionConfig.windowSize c) (CompactionConfig.p_windowSize updates);
     CompactionConfig.overlapSize :=
       default (CompactionConfig.overlapSize c) (CompactionConfig.p_overlapSize updates);
     CompactionConfig.strategy :=
       default (CompactionConfig.strategy c) (CompactionConfig.p_strategy updates) |}.

(** [updateCompactionConfig(updates)] *)
Definition updateCompactionConfig (updates : CompactionConfig.partial) (s : t) : t :=
  mk (metadata s) (events s) (statistics s)
     (assignCompactionConfig (compactionConfig s) updates).

(** The object [{metadata, events, statistics, compactionConfig}] that
    [toObject] returns and [fromObject] takes. *)
Module Snapshot.
Record t : Type := mk {
  metadata : SessionMetadata.t;
  events : list Event;
  statistics : SessionStatistics.t;
  compactionConfig : CompactionConfig.t
}.
End Snapshot.

(** The three parts of a session other than its log, as the objects
    [JSON.stringify] walks. *)
Definition metadataToJSON (m : SessionMetadata.t) : JS.JSON :=
  JS.JObj [("sessionId", JS.JStr (SessionMetadata.sessionId m));
           ("createdAt", JS.JNum (SessionMetadata.createdAt m));
           ("updatedAt", JS.JNum (SessionMetadata.updatedAt m));
           ("agentId", JS.JStr (SessionMetadata.agentId m))].

Definition statisticsToJSON (st : SessionStatistics.t) : JS.JSON :=
  JS.JObj [("totalEvents", JS.JNum (SessionStatistics.totalEvents st));
           ("totalUserMessages", JS.JNum (SessionStatistics.totalUserMessages st));
           ("totalAgentMessages", JS.JNum (SessionStatistics.totalAgentMessages st));
           ("totalToolCalls", JS.JNum (SessionStatistics.totalToolCalls st));
           ("totalErrors", JS.JNum (SessionStatistics.totalErrors st));
           ("totalCompactions", JS.JNum (SessionStatistics.totalCompactions st));
           ("averageResponseTimeMs", JS.ofQ (SessionStatistics.averageResponseTimeMs st));
           ("totalTokensUsed", JS.JNum (SessionStatistics.totalTokensUsed st))].

Definition compactionConfigToJSON (c : CompactionConfig.t) : JS.JSON :=
  JS.JObj [("enabled", JS.JBool (CompactionConfig.enabled c));
           ("triggerThreshold", JS.JNum (CompactionConfig.triggerThreshold c));
           ("windowSize", JS.JNum (CompactionConfig.windowSize c));
           ("overlapSize", JS.JNum (CompactionConfig.overlapSize c));
           ("strategy", JS.JStr (CompactionStrategy_value (CompactionConfig.strategy c)))].

(** [serialize()] *)
Definition serialize (s : t) : string :=
  JS.JSON_stringify
    (JS.JObj [("metadata", metadataToJSON (metadata s));
              ("events", JS.JArr (List.map Events.toJSON (events s)));
              ("statistics", statisticsToJSON (statistics s));
              ("compactionConfig", compactionConfigToJSON (compactionConfig s))]).

(** [Object.assign(target, source)] on the three parts, for a parsed
    [source]: a property the source lacks keeps the value the
    constructor gave it. *)
Definition assignParsedMetadata (target : SessionMetadata.t) (source : JS.Record)
    : option SessionMetadata.t :=
  sessionId ← JS.assigned JS.asString "sessionId" source (SessionMetadata.sessionId target);
  createdAt ← JS.assigned JS.asInteger "createdAt" source (SessionMetadata.createdAt target);
  updatedAt ← JS.assigned JS.asInteger "updatedAt" source (SessionMetadata.updatedAt target);
  agentId ← JS.assigned JS.asString "agentId" source (SessionMetadata.agentId target);
  Some (SessionMetadata.mk sessionId createdAt updatedAt agentId).

Definition assignParsedStatistics (target : SessionStatistics.t) (source : JS.Record)
    : option SessionStatistics.t :=
  totalEvents ←
    JS.assigned JS.asInteger "totalEvents" source (SessionStatistics.totalEvents target);
  totalUserMessages ←
    JS.assigned JS.asInteger "totalUserMessages" source
                (SessionStatistics.totalUserMessages target);
  totalAgentMessages ←
    JS.assigned JS.asInteger "totalAgentMessages" source
                (SessionStatistics.totalAgentMessages target);
  totalToolCalls ←
    JS.assigned JS.asInteger "totalToolCalls" source
                (SessionStatistics.totalToolCalls target);
  totalErrors ←
    JS.assigned JS.asInteger "totalErrors" source (SessionStatistics.totalErrors target);
  totalCompactions ←
    JS.assigned JS.asInteger "totalCompactions" source
                (SessionStatistics.totalCompactions target);
  averageResponseTimeMs ←
    JS.assigned JS.asNumber "averageResponseTimeMs" source
                (SessionStatistics.averageResponseTimeMs target);
  totalTokensUsed ←
    JS.assigned JS.asInteger "totalTokensUsed" source
                (SessionStatistics.totalTokensUsed target);
  Some (SessionStatistics.mk totalEvents totalUserMessages totalAgentMessages
                             totalToolCalls totalErrors totalCompactions
                             averageResponseTimeMs totalTokensUsed).

Definition assignParsedConfig (target : CompactionConfig.t) (source : JS.Record)
    : option CompactionConfig.t :=
  enabled ← JS.assigned JS.asBoolean "enabled" source (CompactionConfig.enabled target);
  triggerThreshold ←
    JS.assigned JS.asInteger "triggerThreshold" source
                (CompactionConfig.triggerThreshold target);
  windowSize ←
    JS.assigned JS.asInteger "windowSize" source (CompactionConfig.windowSize target);
  overlapSize ←
    JS.assigned JS.asInteger "overlapSize" source (CompactionConfig.overlapSize target);
  strategy ←
    JS.assigned asCompactionStrategy "strategy" source (CompactionConfig.strategy target);
  Some (CompactionConfig.mk enabled triggerThreshold windowSize overlapSize strategy).

(** What a call of [Session.deserialize] does: it returns a session, it
    throws, or it returns an object whose declared properties do not all
    have their declared types, which TypeScript calls a [Session] and
    which is none. *)
Inductive Outcome : Type :=
| Returned (session : t)
| Threw
| Untyped.

(** The session [deserialize] builds once nothing can throw any more:
    the constructor call, the three [Object.assign] and the [push] of
    the spread events.  [None] when a declared property ends up with a
    value that is not of its type. *)
Definition load (now : Z) (suffix : string) (agentId : option JS.JSON)
    (parsedMetadata : JS.JSON) (parsedStatistics parsedConfig : option JS.JSON)
    (parsedEvents : list JS.JSON) : option t :=
  agentId' ← agentId ≫= JS.asString;
  let session := new agentId' now suffix in
  metadata' ←
    assignParsedMetadata (metadata session) (JS.sourceProps (Some parsedMetadata));
  statistics' ←
    assignParsedStatistics (statistics session) (JS.sourceProps parsedStatistics);
  compactionConfig' ←
    assignParsedConfig (compactionConfig session) (JS.sourceProps parsedConfig);
  events' ← Events.allOfJSON parsedEvents;
  Some {| metadata := metadata';
          events := events session ++ events';
          statistics := statistics';
          compactionConfig := compactionConfig' |}.

(** [Session.deserialize(data)]; [now] and [suffix] feed the constructor
    call it makes.  It throws when [JSON.parse] does, when
    [parsed.metadata.agentId] reads a property of [null] or [undefined],
    and when [parsed.events] cannot be spread. *)
Definition deserialize (now : Z) (suffix : string) (data : string) : Outcome :=
  match JS.JSON_parse data with
  | None => Threw
  | Some parsed =>
      match JS.member "metadata" parsed with
      | Some (Some parsedMetadata) =>
          match JS.member "agentId" parsedMetadata,
                JS.spread (JS.member "events" parsed) with
          | Some agentId, Some parsedEvents =>
              match load now suffix agentId parsedMetadata
                         (mjoin (JS.member "statistics" parsed))
                         (mjoin (JS.member "compactionConfig" parsed))
                         parsedEvents with
              | Some session => Returned session
              | None => Untyped
              end
          | _, _ => Threw
          end
      | _ => Threw
      end
  end.

(** [Object.assign(target, source)] where [source] holds every property
    of the record: each property of [target] is overwritten. *)
Definition assignMetadata (target source : SessionMetadata.t) : SessionMetadata.t :=
  {| SessionMetadata.sessionId := SessionMetadata.sessionId source;
     SessionMetadata.createdAt := SessionMetadata.createdAt source;
     SessionMetadata.updatedAt := SessionMetadata.updatedAt source;
     SessionMetadata.agentId := SessionMetadata.agentId source |}.

Definition assignStatistics (target source : SessionStatistics.t) : SessionStatistics.t :=
  {| SessionStatistics.totalEvents := SessionStatistics.totalEvents source;
     SessionStatistics.totalUserMessages := SessionStatistics.totalUserMessages source;
     SessionStatistics.totalAgentMessages := SessionStatistics.totalAgentMessages source;
     SessionStatistics.totalToolCalls := SessionStatistics.totalToolCalls source;
     SessionStatistics.totalErrors := SessionStatistics.totalErrors source;
     SessionStatistics.totalCompactions := SessionStatistics.totalCompactions source;
     SessionStatistics.averageResponseTimeMs :=
       SessionStatistics.averageResponseTimeMs source;
     SessionStatistics.totalTokensUsed := SessionStatistics.totalTokensUsed source |}.

Definition assignConfig (target source : CompactionConfig.t) : CompactionConfig.t :=
  {| CompactionConfig.enabled := CompactionConfig.enabled source;
     CompactionConfig.triggerThreshold := CompactionConfig.triggerThreshold source;
     CompactionConfig.windowSize := CompactionConfig.windowSize source;
     CompactionConfig.overlapSize := CompactionConfig.overlapSize source;
     CompactionConfig.strategy := CompactionConfig.strategy source |}.

(** [Session.fromObject(obj)] *)
Definition fromObject (now : Z) (suffix : string) (obj : Snapshot.t) : t :=
  let session := new (SessionMetadata.agentId (Snapshot.metadata obj)) now suffix in
  {| metadata := assignMetadata (metadata session) (Snapshot.metadata obj);
     statistics := assignStatistics (statistics session) (Snapshot.statistics obj);
     compactionConfig :=
       assignConfig (compactionConfig session) (Snapshot.compactionConfig obj);
     events := events session ++ Snapshot.events obj |}.

(** [toObject()] *)
Definition toObject (s : t) : Snapshot.t :=
  {| Snapshot.metadata := metadata s;
     Snapshot.events := events s;
     Snapshot.statistics := statistics s;
     Snapshot.compactionConfig := compactionConfig s |}.

End Session.

(* ===================================================================== *)
(** * working-context.ts: the WorkingContext class *)
(* ===================================================================== *)

Module WorkingContext.

(** ["system" | "user" | "assistant" | "tool"] *)
Inductive ContentRole : Type := system | user | assistant | tool.

#[export] Instance ContentRole_eq_dec : EqDecision ContentRole.
Proof. solve_decision. Defined.

Definition ContentRole_value (r : ContentRole) : string :=
  match r with
  | system => "system"
  | user => "user"
  | assistant => "assistant"
  | tool => "tool"
  end.

Module Content.
Record t : Type := mk {
  role : ContentRole;
  content : string;
  name : option string;
  tool_call_id : option string;
  metadata : option JS.Record
}.
End Content.

Module AgentIdentity.
Record t : Type := mk {
  name : string;
  role : string;
  capabilities : list string
}.

(** The object as [JSON.stringify] sees it. *)
Definition toJSON (i : t) : JS.JSON :=
  JS.JObj [("name", JS.JStr (name i));
           ("role", JS.JStr (role i));
           ("capabilities", JS.JArr (List.map JS.JStr (capabilities i)))].
End AgentIdentity.

Module ArtifactReference.
Record t : Type := mk {
  id : string;
  name : string;
  type : string;
  summary : string
}.

Definition toJSON (a : t) : JS.JSON :=
  JS.JObj [("id", JS.JStr (id a));
           ("name", JS.JStr (name a));
           ("type", JS.JStr (type a));
           ("summary", JS.JStr (summary a))].
End ArtifactReference.

Module WorkingContextMetadata.
Record t : Type := mk {
  sessionId : string;
  totalEvents : Z;
  compactedEvents : Z;
  windowSize : Z;
  createdAt : Z
}.

Definition set_windowSize (n : Z) (m : t) : t :=
  mk (sessionId m) (totalEvents m) (compactedEvents m) n (createdAt m).
Definition set_compactedEvents (n : Z) (m : t) : t :=
  mk (sessionId m) (totalEvents m) n (windowSize m) (createdAt m).
End WorkingContextMetadata.

Module ContextWindowConfig.
Record t : Type := mk {
  maxTokens : Q;
  reservedForResponse : Q;
  reservedForTools : Q;
  availableForHistory : Q
}.
End ContextWindowConfig.

Module WorkersAIInput.
Record t : Type := mk {
  type : option string;
  call_id : option string;
  output : option string;
  role : option string;
  content : option string;
  name : option string
}.
End WorkersAIInput.

Module WorkersAIMessage.
Record t : Type := mk {
  role : string;
  content : string;
  name : option string;
  tool_call_id : option string
}.
End WorkersAIMessage.

Module Reasoning.
Record t : Type := mk {
  effort : string;
  summary : string
}.
End Reasoning.

(** The two shapes of [WorkersAIFormat]. *)
Inductive WorkersAIFormat : Type :=
| ResponsesShape (instructions : string) (input : list WorkersAIInput.t)
                 (reasoning : Reasoning.t)
| MessagesShape (messages : list WorkersAIMessage.t).

(** [options] of [toModelFormat] *)
Module FormatOptions.
Record t : Type := mk {
  format : option string;
  model : option string
}.
End FormatOptions.

Record t : Type := mk {
  systemInstructions : list string;
  agentIdentity : option AgentIdentity.t;
  contents : list Content.t;
  memoryResults : list string;
  artifactReferences : list ArtifactReference.t;
  metadata : WorkingContextMetadata.t
}.

(** [new WorkingContext(sessionId)]; [now] is [Date.now()]. *)
Definition new (sessionId : string) (now : Z) : t :=
  {| systemInstructions := [];
     agentIdentity := None;
     contents := [];
     memoryResults := [];
     artifactReferences := [];
     metadata := WorkingContextMetadata.mk sessionId 0 0 0 now |}.

Definition set_contents (cs : list Content.t) (c : t) : t :=
  mk (systemInstructions c) (agentIdentity c) cs (memoryResults c)
     (artifactReferences c) (metadata c).

Definition set_metadata (m : WorkingContextMetadata.t) (c : t) : t :=
  mk (systemInstructions c) (agentIdentity c) (contents c) (memoryResults c)
     (artifactReferences c) m.

Definition addSystemInstruction (instruction : string) (c : t) : t :=
  mk (systemInstructions c ++ [instruction]) (agentIdentity c) (contents c)
     (memoryResults c) (artifactReferences c) (metadata c).

Definition setAgentIdentity (identity : AgentIdentity.t) (c : t) : t :=
  mk (systemInstructions c) (Some identity) (contents c) (memoryResults c)
     (artifactReferences c) (metadata c).

Definition addContent (content : Content.t) (c : t) : t :=
  set_contents (contents c ++ [content]) c.

Definition addContents (cs : list Content.t) (c : t) : t :=
  set_contents (contents c ++ cs) c.

Definition addMemoryResults (results : list string) (c : t) : t :=
  mk (systemInstructions c) (agentIdentity c) (contents c)
     (memoryResults c ++ results) (artifactReferences c) (metadata c).

Definition addArtifactReference (reference : ArtifactReference.t) (c : t) : t :=
  mk (systemInstructions c) (agentIdentity c) (contents c) (memoryResults c)
     (artifactReferences c ++ [reference]) (metadata c).

Definition nl : string := JS.chr 10.

(** [this.systemInstructions.join("\n").length] *)
Definition instructionChars (c : t) : Z :=
  JS.strlen (JS.join nl (systemInstructions c)).

(** [JSON.stringify(this.agentIdentity).length] when the identity is set *)
Definition identityChars (c : t) : Z :=
  match agentIdentity c with
  | Some i => JS.strlen (JS.JSON_stringify (AgentIdentity.toJSON i))
  | None => 0
  end.

(** [Math.ceil(chars / 4)] *)
Definition ceilQuarter (chars : Z) : Z := Qceiling (inject_Z chars / 4).

(** [estimateTokenCount()] *)
Definition estimateTokenCount (c : t) : Z :=
  let totalChars := instructionChars c in
  let totalChars := totalChars + identityChars c in
  let totalChars :=
    fold_left (fun acc content => acc + JS.strlen (Content.content content))
              (contents c) totalChars in
  let totalChars :=
    if (0 <? length (memoryResults c))%nat
    then totalChars + JS.strlen (JS.join nl (memoryResults c))
    else totalChars in
  let totalChars :=
    if (0 <? length (artifactReferences c))%nat
    then totalChars +
         JS.strlen (JS.JSON_stringify
                      (JS.JArr (List.map ArtifactReference.toJSON (artifactReferences c))))
    else totalChars in
  ceilQuarter totalChars.

(** [fitsWithinLimit(config)] *)
Definition fitsWithinLimit (config : ContextWindowConfig.t) (c : t) : bool :=
  Qle_bool (inject_Z (estimateTokenCount c)) (ContextWindowConfig.availableForHistory config).

(** [systemTokens] of [truncateToFit]: quarters of characters, not
    rounded. *)
Definition systemTokens (c : t) : Q :=
  inject_Z (instructionChars c) / 4 +
  (match agentIdentity c with
   | Some i => inject_Z (JS.strlen (JS.JSON_stringify (AgentIdentity.toJSON i))) / 4
   | None => 0
   end).

(** [Math.ceil(content.content.length / 4)] *)
Definition contentTokens (content : Content.t) : Z :=
  ceilQuarter (JS.strlen (Content.content content)).

(** The [for] loop of [truncateToFit]: [pending] holds
    [contents[i], contents[i-1], ..., contents[0]], the elements still to
    visit, most recent first. *)
Fixpoint keepLoop (availableForContents : Q) (pending : list Content.t)
    (currentContentTokens : Z) (contentsToKeep : list Content.t) : list Content.t :=
  match pending with
  | [] => contentsToKeep
  | content :: older =>
      if Qle_bool (inject_Z (currentContentTokens + contentTokens content))
                  availableForContents
      then keepLoop availableForContents older
                    (currentContentTokens + contentTokens content)
                    (content :: contentsToKeep)
      else contentsToKeep
  end.

(** [truncateToFit(config)] *)
Definition truncateToFit (config : ContextWindowConfig.t) (c : t) : t :=
  let currentTokens := estimateTokenCount c in
  if Qle_bool (inject_Z currentTokens) (ContextWindowConfig.availableForHistory config)
  then c
  else
    let availableForContents :=
      (ContextWindowConfig.availableForHistory config - systemTokens c)%Q in
    let contentsToKeep := keepLoop availableForContents (rev (contents c)) 0 [] in
    set_metadata
      (WorkingContextMetadata.set_windowSize (Z.of_nat (length contentsToKeep)) (metadata c))
      (set_contents contentsToKeep c).

Definition MODELS_USING_ASSISTANT_ROLE : gset string :=
  {[ "@cf/mistralai/mistral-small-3.1-24b-instruct" ]}.

(** The synthesized system text of [_toWorkersAIFormat]. *)
Definition systemContent (c : t) : string :=
  let s := JS.join (nl +:+ nl) (systemInstructions c) in
  let s :=
    match agentIdentity c with
    | Some i =>
        s +:+ nl +:+ nl +:+ "Agent Identity:" +:+ nl +:+
        "Name: " +:+ AgentIdentity.name i +:+ nl +:+
        "Role: " +:+ AgentIdentity.role i +:+ nl +:+
        "Capabilities: " +:+ JS.join ", " (AgentIdentity.capabilities i)
    | None => s
    end in
  let s :=
    if (0 <? length (memoryResults c))%nat
    then s +:+ nl +:+ nl +:+ "Relevant Memory:" +:+ nl +:+
         JS.join (nl +:+ nl) (memoryResults c)
    else s in
  if (0 <? length (artifactReferences c))%nat
  then s +:+ nl +:+ nl +:+ "Available Artifacts:" +:+ nl +:+
       JS.join nl
         (List.map (fun a => "- " +:+ ArtifactReference.name a +:+ " (" +:+
                             ArtifactReference.type a +:+ "): " +:+
                             ArtifactReference.summary a)
                   (artifactReferences c))
  else s.

(** [...(x && { k: x })]: the property is present when [x] is a
    non-empty string. *)
Definition spreadIfTruthy (x : option string) : option string :=
  if JS.truthy_opt_string x then x else None.

(** One entry of [input] in the ["responses"] branch. *)
Definition toInput (content : Content.t) : WorkersAIInput.t :=
  if bool_decide (Content.role content = tool)
  then WorkersAIInput.mk (Some "function_call_output") (Content.tool_call_id content)
                         (Some (Content.content content)) None None None
  else WorkersAIInput.mk None None None
                         (Some (ContentRole_value (Content.role content)))
                         (Some (Content.content content))
                         (spreadIfTruthy (Content.name content)).

(** One entry of [messages] in the other branch. *)
Definition toMessage (usesAssistantRole : bool) (content : Content.t) : WorkersAIMessage.t :=
  if bool_decide (Content.role content = tool)
  then
    if usesAssistantRole
    then WorkersAIMessage.mk "assistant" (Content.content content) None None
    else WorkersAIMessage.mk "tool" (Content.content content) None
                             (spreadIfTruthy (Content.tool_call_id content))
  else WorkersAIMessage.mk (ContentRole_value (Content.role content))
                           (Content.content content)
                           (spreadIfTruthy (Content.name content))
                           (spreadIfTruthy (Content.tool_call_id content)).

(** [_toWorkersAIFormat(format, model)] *)
Definition _toWorkersAIFormat (format : string) (model : option string) (c : t)
    : WorkersAIFormat :=
  let usesAssistantRole :=
    match model with
    | Some m => if JS.truthy_string m
                then bool_decide (m ∈ MODELS_USING_ASSISTANT_ROLE)
                else false
    | None => false
    end in
  let systemContent := systemContent c in
  if String.eqb format "responses"
  then ResponsesShape systemContent (List.map toInput (contents c))
                      (Reasoning.mk "medium" "concise")
  else MessagesShape
         (WorkersAIMessage.mk "system" systemContent None None
          :: List.map (toMessage usesAssistantRole) (contents c)).

(** A thrown [Error], with its message. *)
Inductive Thrown : Type := ThrowError (message : string).

(** [a || d] on an optional string *)
Definition orElse (a : option string) (d : string) : string :=
  match a with
  | Some s => if JS.truthy_string s then s else d
  | None => d
  end.

(** [toModelFormat(modelType, options)]: [modelType] is the run-time
    string, [None] for an argument left out (the default applies). *)
Definition toModelFormat (modelType : option string) (options : option FormatOptions.t)
    (c : t) : Thrown + WorkersAIFormat :=
  let modelType := default "workers-ai" modelType in
  if String.eqb modelType "workers-ai"
  then inr (_toWorkersAIFormat
              (orElse (options ≫= FormatOptions.format) "chat_completions")
              (options ≫= FormatOptions.model)
              c)
  else inl (ThrowError ("Unsupported model type: " +:+ modelType)).

End WorkingContext.

(* ===================================================================== *)
(** * processors.ts: the built-in processors *)
(* ===================================================================== *)

Module Processors.
Import Events.

Module ContentsProcessorConfig.
Record t : Type := mk {
  windowSize : option Z;
  includeToolCalls : option bool;
  filterActions : option (list EventAction)
}.
End ContentsProcessorConfig.

Module SlidingWindowProcessorConfig.
Record t : Type := mk {
  turns : option Z
}.
End SlidingWindowProcessorConfig.

Module CompactionFilterProcessorConfig.
Record t : Type := mk {
  keepCompactionSummaries : option bool
}.
End CompactionFilterProcessorConfig.

Module InstructionsProcessorConfig.
Record t : Type := mk {
  instructions : option (list string)
}.
End InstructionsProcessorConfig.

(** The part of the response [statisticsResponseProcessor] reads:
    [{ metadata?: { responseTimeMs?: number } }]. *)
Module ResponseMetadata.
Record t : Type := mk {
  responseTimeMs : option Q
}.
End ResponseMetadata.

Module Response.
Record t : Type := mk {
  metadata : option ResponseMetadata.t
}.
End Response.

(** [{ ...session, events }] *)
Definition withEvents (session : Session.t) (evs : list Event) : Session.t :=
  Session.mk (Session.metadata session) evs (Session.statistics session)
             (Session.compactionConfig session).

(** [basicRequestProcessor] *)
Definition basicRequestProcessor (session : Session.t) (context : WorkingContext.t)
    : WorkingContext.t :=
  let m := WorkingContext.metadata context in
  WorkingContext.set_metadata
    (WorkingContext.WorkingContextMetadata.mk
       (Session.SessionMetadata.sessionId (Session.metadata session))
       (Z.of_nat (length (Session.events session)))
       (WorkingContext.WorkingContextMetadata.compactedEvents m)
       (WorkingContext.WorkingContextMetadata.windowSize m)
       (WorkingContext.WorkingContextMetadata.createdAt m))
    context.

Definition staticInstruction (e : Event) : option string :=
  match e with
  | SystemInstruction i =>
      if SystemInstructionEvent.isStatic i
      then Some (SystemInstructionEvent.instruction i)
      else None
  | _ => None
  end.

(** [instructionsRequestProcessor] *)
Definition instructionsRequestProcessor (session : Session.t) (context : WorkingContext.t)
    (config : option InstructionsProcessorConfig.t) : WorkingContext.t :=
  let context :=
    match config ≫= InstructionsProcessorConfig.instructions with
    | Some instructions =>
        fold_left (fun ctx i => WorkingContext.addSystemInstruction i ctx)
                  instructions context
    | None => context
    end in
  fold_left (fun ctx i => WorkingContext.addSystemInstruction i ctx)
            (omap staticInstruction (Session.events session)) context.

(** [identityRequestProcessor] *)
Definition identityRequestProcessor (session : Session.t) (context : WorkingContext.t)
    (config : option WorkingContext.AgentIdentity.t) : WorkingContext.t :=
  match config with
  | Some identity => WorkingContext.setAgentIdentity identity context
  | None => context
  end.

(** A property [k: v] of an object literal where [v] may be
    [undefined]. *)
Definition optProp (k : string) (v : option string) : JS.Record :=
  match v with
  | Some s => [(k, JS.JStr s)]
  | None => []
  end.

(** The [eventId] and [timestamp] every projected content carries. *)
Definition originProps (event : Event) : JS.Record :=
  [("eventId", JS.JStr (id event)); ("timestamp", JS.JNum (timestamp event))].

(** The [switch (event.action)] of [contentsRequestProcessor]: the
    content pushed for one event, if any. *)
Definition eventToContent (includeToolCalls : bool) (event : Event)
    : option WorkingContext.Content.t :=
  match event with
  | UserMessage userEvent =>
      Some (WorkingContext.Content.mk
              WorkingContext.user
              (UserMessageEvent.content userEvent)
              None None
              (Some (originProps event)))
  | AgentMessage agentEvent =>
      Some (WorkingContext.Content.mk
              WorkingContext.assistant
              (AgentMessageEvent.content agentEvent)
              None None
              (Some (originProps event ++
                     optProp "modelUsed" (AgentMessageEvent.modelUsed agentEvent) ++
                     optProp "gatewayLogId" (AgentMessageEvent.gatewayLogId agentEvent))))
  | ToolCall toolCallEvent =>
      if includeToolCalls
      then Some (WorkingContext.Content.mk
                   WorkingContext.assistant
                   ("Tool call: " +:+ ToolCallEvent.toolName toolCallEvent +:+
                    " with arguments: " +:+
                    JS.JSON_stringify (JS.JObj (ToolCallEvent.arguments toolCallEvent)))
                   None None
                   (Some (originProps event ++
                          [("toolCallId", JS.JStr (ToolCallEvent.toolCallId toolCallEvent));
                           ("toolName", JS.JStr (ToolCallEvent.toolName toolCallEvent))])))
      else None
  | ToolResultEv toolResultEvent =>
      if includeToolCalls
      then
        let resultContent :=
          match ToolResultEvent.result toolResultEvent with
          | ResultString s => s
          | ResultObject o => JS.JSON_stringify o
          end in
        Some (WorkingContext.Content.mk
                WorkingContext.tool
                resultContent
                (Some (ToolResultEvent.toolName toolResultEvent))
                (Some (ToolResultEvent.toolCallId toolResultEvent))
                (Some (originProps event ++
                       [("isSuccess", JS.JBool (ToolResultEvent.isSuccess toolResultEvent))])))
      else None
  | Compaction compactionEvent =>
      Some (WorkingContext.Content.mk
              WorkingContext.system
              ("[Conversation Summary]: " +:+ CompactionEvent.summary compactionEvent)
              None None
              (Some (originProps event ++
                     [("compactedEventIds",
                       JS.JArr (List.map JS.JStr
                                  (CompactionEvent.compactedEventIds compactionEvent)))])))
  | _ => None
  end.

(** One iteration of the projection loop. *)
Definition projectStep (includeToolCalls : bool) (context : WorkingContext.t)
    (event : Event) : WorkingContext.t :=
  match eventToContent includeToolCalls event with
  | Some content => WorkingContext.addContent content context
  | None => context
  end.

(** [contentsRequestProcessor] *)
Definition contentsRequestProcessor (session : Session.t) (context : WorkingContext.t)
    (config : option ContentsProcessorConfig.t) : WorkingContext.t :=
  let windowSize := config ≫= ContentsProcessorConfig.windowSize in
  let includeToolCalls := default true (config ≫= ContentsProcessorConfig.includeToolCalls) in
  let filterActions := default [] (config ≫= ContentsProcessorConfig.filterActions) in
  let eventsToProcess := Session.events session in
  let eventsToProcess :=
    match windowSize with
    | Some w => if JS.truthy_Z w && (0 <? w)
                then JS.slice (- w) eventsToProcess
                else eventsToProcess
    | None => eventsToProcess
    end in
  let eventsToProcess :=
    if (0 <? length filterActions)%nat
    then List.filter (fun e => negb (bool_decide (action e ∈ filterActions))) eventsToProcess
    else eventsToProcess in
  let context := fold_left (projectStep includeToolCalls) eventsToProcess context in
  WorkingContext.set_metadata
    (WorkingContext.WorkingContextMetadata.set_windowSize
       (Z.of_nat (length (WorkingContext.contents context)))
       (WorkingContext.metadata context))
    context.

(** [slidingWindowRequestProcessor] *)
Definition slidingWindowRequestProcessor (session : Session.t) (context : WorkingContext.t)
    (config : option SlidingWindowProcessorConfig.t) : WorkingContext.t :=
  let turns :=
    match config ≫= SlidingWindowProcessorConfig.turns with
    | Some n => if JS.truthy_Z n then n else 3
    | None => 3
    end in
  let userMessages :=
    List.filter (fun e => bool_decide (action e = USER_MESSAGE)) (Session.events session) in
  let recentUserMessages := JS.slice (- turns) userMessages in
  match recentUserMessages with
  | [] => context
  | oldest :: _ =>
      let windowStartTime := timestamp oldest in
      let filteredEvents :=
        List.filter (fun e => (windowStartTime <=? timestamp e)
                              || bool_decide (action e = COMPACTION))
                    (Session.events session) in
      let tempSession := withEvents session filteredEvents in
      contentsRequestProcessor tempSession context
        (Some (ContentsProcessorConfig.mk None (Some true) None))
  end.

(** The cast [as CompactionEvent] after filtering on the action. *)
Definition asCompaction (e : Event) : option CompactionEvent.t :=
  match e with
  | Compaction c => Some c
  | _ => None
  end.

(** The two nested loops filling [compactedEventIds]. *)
Definition collectCompactedIds (compactionEvents : list CompactionEvent.t) : gset string :=
  fold_left
    (fun acc compaction =>
       fold_left (fun acc id => acc ∪ {[ id ]})
                 (CompactionEvent.compactedEventIds compaction) acc)
    compactionEvents ∅.

(** [compactionFilterRequestProcessor] *)
Definition compactionFilterRequestProcessor (session : Session.t)
    (context : WorkingContext.t) (config : option CompactionFilterProcessorConfig.t)
    : WorkingContext.t :=
  let keepSummaries :=
    default true (config ≫= CompactionFilterProcessorConfig.keepCompactionSummaries) in
  let compactionEvents :=
    omap asCompaction
         (List.filter (fun e => bool_decide (action e = COMPACTION))
                      (Session.events session)) in
  let compactedEventIds := collectCompactedIds compactionEvents in
  let filteredEvents :=
    List.filter
      (fun e => negb (bool_decide (id e ∈ compactedEventIds))
                || (keepSummaries && bool_decide (action e = COMPACTION)))
      (Session.events session) in
  let tempSession := withEvents session filteredEvents in
  let context :=
    WorkingContext.set_metadata
      (WorkingContext.WorkingContextMetadata.set_compactedEvents
         (Z.of_nat (size compactedEventIds))
         (WorkingContext.metadata context))
      context in
  contentsRequestProcessor tempSession context None.

(** [tokenLimitRequestProcessor] *)
Definition tokenLimitRequestProcessor (session : Session.t) (context : WorkingContext.t)
    (config : option WorkingContext.ContextWindowConfig.t) : WorkingContext.t :=
  match config with
  | Some config => WorkingContext.truncateToFit config context
  | None => context
  end.

(** Truthiness of a number. *)
Definition truthy_Q (q : Q) : bool := negb (Qeq_bool q 0).

(** [statisticsResponseProcessor] *)
Definition statisticsResponseProcessor (session : Session.t) (response : Response.t)
    (context : WorkingContext.t) : Session.t :=
  match Response.metadata response ≫= ResponseMetadata.responseTimeMs with
  | Some responseTimeMs =>
      if truthy_Q responseTimeMs
      then
        let currentAvg :=
          Session.SessionStatistics.averageResponseTimeMs (Session.statistics session) in
        let totalResponses :=
          Session.SessionStatistics.totalAgentMessages (Session.statistics session) in
        let newAvg :=
          ((currentAvg * inject_Z totalResponses + responseTimeMs)
           / (inject_Z totalResponses + 1))%Q in
        Session.mk (Session.metadata session) (Session.events session)
                   (Session.SessionStatistics.set_averageResponseTimeMs
                      newAvg (Session.statistics session))
                   (Session.compactionConfig session)
      else session
  | None => session
  end.

End Processors.

(* ===================================================================== *)
(** * processors.ts: the pipeline class, the cache processor, the factory *)
(* ===================================================================== *)

Module Pipeline.
Import Events.

Module ContextCacheProcessorConfig.
Record t : Type := mk {
  enableCaching : option bool
}.
End ContextCacheProcessorConfig.

(** The two properties [contextCacheRequestProcessor] adds to
    [context.metadata] beyond those [WorkingContextMetadata] declares. *)
Module CacheMarks.
Record t : Type := mk {
  cacheEnabled : option bool;
  cacheablePrefix : option Z
}.
End CacheMarks.

(** The working context object a pipeline threads: its declared fields
    and the properties added to its metadata. *)
Module Context.
Record t : Type := mk {
  declared : WorkingContext.t;
  marks : CacheMarks.t
}.
End Context.

(** [RequestProcessor<TConfig>] and [ResponseProcessor<TConfig>]; a
    processor that returns a promise is awaited before the next one
    runs, so a pipeline is a sequence of calls. *)
Definition RequestProcessor (TConfig : Type) : Type :=
  Session.t -> Context.t -> option TConfig -> Context.t.

Definition ResponseProcessor (TConfig : Type) : Type :=
  Session.t -> Processors.Response.t -> Context.t -> option TConfig -> Session.t.

(** A built-in that reads and writes declared fields only. *)
Definition onDeclared (f : WorkingContext.t -> WorkingContext.t) (context : Context.t)
    : Context.t :=
  Context.mk (f (Context.declared context)) (Context.marks context).

(** The built-in processors as pipeline entries call them. *)
Definition basicRequestProcessor : RequestProcessor unit :=
  fun session context _ =>
    onDeclared (Processors.basicRequestProcessor session) context.

Definition instructionsRequestProcessor
    : RequestProcessor Processors.InstructionsProcessorConfig.t :=
  fun session context config =>
    onDeclared (fun c => Processors.instructionsRequestProcessor session c config) context.

Definition identityRequestProcessor : RequestProcessor WorkingContext.AgentIdentity.t :=
  fun session context config =>
    onDeclared (fun c => Processors.identityRequestProcessor session c config) context.

Definition contentsRequestProcessor
    : RequestProcessor Processors.ContentsProcessorConfig.t :=
  fun session context config =>
    onDeclared (fun c => Processors.contentsRequestProcessor session c config) context.

Definition slidingWindowRequestProcessor
    : RequestProcessor Processors.SlidingWindowProcessorConfig.t :=
  fun session context config =>
    onDeclared (fun c => Processors.slidingWindowRequestProcessor session c config) context.

Definition compactionFilterRequestProcessor
    : RequestProcessor Processors.CompactionFilterProcessorConfig.t :=
  fun session context config =>
    onDeclared (fun c => Processors.compactionFilterRequestProcessor session c config) context.

Definition tokenLimitRequestProcessor
    : RequestProcessor WorkingContext.ContextWindowConfig.t :=
  fun session context config =>
    onDeclared (fun c => Processors.tokenLimitRequestProcessor session c config) context.

Definition statisticsResponseProcessor : ResponseProcessor unit :=
  fun session response context _ =>
    Processors.statisticsResponseProcessor session response (Context.declared context).

(** [contextCacheRequestProcessor] *)
Definition contextCacheRequestProcessor : RequestProcessor ContextCacheProcessorConfig.t :=
  fun session context config =>
    match config ≫= ContextCacheProcessorConfig.enableCaching with
    | Some true =>
        Context.mk
          (Context.declared context)
          (CacheMarks.mk
             (Some true)
             (Some (Z.of_nat (length (WorkingContext.systemInstructions
                                        (Context.declared context))))))
    | _ => context
    end.

(** [ProcessorEntry<RequestProcessor, TConfig>]: the configuration type
    is known to the entry alone. *)
Module RequestEntry.
Record t : Type := mk {
  TConfig : Type;
  name : string;
  processor : RequestProcessor TConfig;
  config : option TConfig;
  enabled : option bool
}.

(** [processor(session, context, config)] *)
Definition call (e : t) (session : Session.t) (context : Context.t) : Context.t :=
  processor e session context (config e).
End RequestEntry.

Module ResponseEntry.
Record t : Type := mk {
  TConfig : Type;
  name : string;
  processor : ResponseProcessor TConfig;
  config : option TConfig;
  enabled : option bool
}.

Definition call (e : t) (session : Session.t) (response : Processors.Response.t)
    (context : Context.t) : Session.t :=
  processor e session response context (config e).
End ResponseEntry.

(** [enabled === false] *)
Definition isDisabled (enabled : option bool) : bool :=
  match enabled with
  | Some false => true
  | _ => false
  end.

(** [a.splice(index, 0, item)] for an integer [index]: a negative index
    counts from the end, and the position is clamped to the array. *)
Definition spliceInsert {A : Type} (index : Z) (item : A) (a : list A) : list A :=
  let len := Z.of_nat (length a) in
  let k := if index <? 0 then Z.max (len + index) 0 else Z.min index len in
  take (Z.to_nat k) a ++ item :: drop (Z.to_nat k) a.

(** [ProcessorPipelineConfig] and the [ProcessorPipeline] class, whose
    state is the same two lists. *)
Record t : Type := mk {
  requestProcessors : list RequestEntry.t;
  responseProcessors : list ResponseEntry.t
}.

(** [new ProcessorPipeline(config)] *)
Definition new (config : option t) : t :=
  match config with
  | Some config => mk (requestProcessors config) (responseProcessors config)
  | None => mk [] []
  end.

(** [addRequestProcessor(name, processor, config)] *)
Definition addRequestProcessor {TConfig : Type} (name : string)
    (processor : RequestProcessor TConfig) (config : option TConfig) (p : t) : t :=
  mk (requestProcessors p ++ [RequestEntry.mk TConfig name processor config None])
     (responseProcessors p).

(** [addResponseProcessor(name, processor, config)] *)
Definition addResponseProcessor {TConfig : Type} (name : string)
    (processor : ResponseProcessor TConfig) (config : option TConfig) (p : t) : t :=
  mk (requestProcessors p)
     (responseProcessors p ++ [ResponseEntry.mk TConfig name processor config None]).

(** [insertRequestProcessor(index, name, processor, config)] *)
Definition insertRequestProcessor {TConfig : Type} (index : Z) (name : string)
    (processor : RequestProcessor TConfig) (config : option TConfig) (p : t) : t :=
  mk (spliceInsert index (RequestEntry.mk TConfig name processor config None)
                   (requestProcessors p))
     (responseProcessors p).

(** [removeRequestProcessor(name)] *)
Definition removeRequestProcessor (name : string) (p : t) : t :=
  mk (List.filter (fun e => negb (String.eqb (RequestEntry.name e) name))
                  (requestProcessors p))
     (responseProcessors p).

(** One iteration of the loop of [executeRequestPipeline]. *)
Definition requestStep (session : Session.t) (context : Context.t) (e : RequestEntry.t)
    : Context.t :=
  if isDisabled (RequestEntry.enabled e) then context
  else RequestEntry.call e session context.

(** [executeRequestPipeline(session)]; [now] is the [Date.now()] read by
    the [WorkingContext] constructor. *)
Definition executeRequestPipeline (session : Session.t) (now : Z) (p : t) : Context.t :=
  let context :=
    Context.mk
      (WorkingContext.new (Session.SessionMetadata.sessionId (Session.metadata session)) now)
      (CacheMarks.mk None None) in
  fold_left (requestStep session) (requestProcessors p) context.

(** One iteration of the loop of [executeResponsePipeline]. *)
Definition responseStep (response : Processors.Response.t) (context : Context.t)
    (updatedSession : Session.t) (e : ResponseEntry.t) : Session.t :=
  if isDisabled (ResponseEntry.enabled e) then updatedSession
  else ResponseEntry.call e updatedSession response context.

(** [executeResponsePipeline(session, response, context)] *)
Definition executeResponsePipeline (session : Session.t) (response : Processors.Response.t)
    (context : Context.t) (p : t) : Session.t :=
  fold_left (responseStep response context) (responseProcessors p) session.

(** [getConfig()] *)
Definition getConfig (p : t) : t :=
  mk (requestProcessors p) (responseProcessors p).

Module DefaultPipelineOptions.
Record t : Type := mk {
  systemInstructions : option (list string);
  agentIdentity : option WorkingContext.AgentIdentity.t;
  windowSize : option Z;
  contextWindowConfig : option WorkingContext.ContextWindowConfig.t;
  enableCaching : option bool;
  useCompactionFilter : option bool;
  useSlidingWindow : option bool
}.

(** [{}] *)
Definition empty : t := mk None None None None None None None.
End DefaultPipelineOptions.

(** Truthiness of an optional boolean. *)
Definition truthy_opt_bool (b : option bool) : bool := default false b.

(** [createDefaultPipeline(options)] *)
Definition createDefaultPipeline (options : DefaultPipelineOptions.t) : t :=
  let pipeline := new None in
  let pipeline := addRequestProcessor "basic" basicRequestProcessor None pipeline in
  let pipeline :=
    addRequestProcessor "instructions" instructionsRequestProcessor
      (Some (Processors.InstructionsProcessorConfig.mk
               (Some (default [] (DefaultPipelineOptions.systemInstructions options)))))
      pipeline in
  let pipeline :=
    match DefaultPipelineOptions.agentIdentity options with
    | Some identity =>
        addRequestProcessor "identity" identityRequestProcessor (Some identity) pipeline
    | None => pipeline
    end in
  let pipeline :=
    if negb (isDisabled (DefaultPipelineOptions.useCompactionFilter options))
    then addRequestProcessor "compaction-filter" compactionFilterRequestProcessor
           (Some (Processors.CompactionFilterProcessorConfig.mk (Some true))) pipeline
    else if truthy_opt_bool (DefaultPipelineOptions.useSlidingWindow options)
    then addRequestProcessor "sliding-window" slidingWindowRequestProcessor
           (Some (Processors.SlidingWindowProcessorConfig.mk
                    (Some (match DefaultPipelineOptions.windowSize options with
                           | Some w => if JS.truthy_Z w then w else 3
                           | None => 3
                           end))))
           pipeline
    else addRequestProcessor "contents" contentsRequestProcessor
           (Some (Processors.ContentsProcessorConfig.mk None (Some true) None)) pipeline in
  let pipeline :=
    if truthy_opt_bool (DefaultPipelineOptions.enableCaching options)
    then addRequestProcessor "context-cache" contextCacheRequestProcessor
           (Some (ContextCacheProcessorConfig.mk (Some true))) pipeline
    else pipeline in
  let pipeline :=
    match DefaultPipelineOptions.contextWindowConfig options with
    | Some config =>
        addRequestProcessor "token-limit" tokenLimitRequestProcessor (Some config) pipeline
    | None => pipeline
    end in
  addResponseProcessor "statistics" statisticsResponseProcessor None pipeline.

End Pipeline.

(* ===================================================================== *)
(** * Vocabulary of the properties *)
(* ===================================================================== *)

Import Events.

(** The number of events of [evs] whose action is [a]. *)
Definition countAction (a : EventAction) (evs : list Event) : Z :=
  Z.of_nat (length (List.filter (fun e => bool_decide (action e = a)) evs)).

(** The [tokensUsed] an event contributes: that of an agent message
    that carries one, nothing otherwise. *)
Definition tokensOf (e : Event) : Z :=
  match e with
  | AgentMessage a => default 0 (AgentMessageEvent.tokensUsed a)
  | _ => 0
  end.

Definition tokenSum (evs : list Event) : Z :=
  fold_right (fun e acc => tokensOf e + acc) 0 evs.

Definition indicator (b : bool) : Z := if b then 1 else 0.

(** The log with its compaction events removed. *)
Definition withoutCompactions (evs : list Event) : list Event :=
  List.filter (fun e => negb (bool_decide (action e = COMPACTION))) evs.

(** The number of events whose action is not ["compaction"]: all the
    events of the log but its compaction events. *)
Definition nonCompactionCount (evs : list Event) : Z :=
  Z.of_nat (length evs) - countAction COMPACTION evs.

(** The last [k] elements of [l], in the order of [l]. *)
Definition lastN {A : Type} (k : nat) (l : list A) : list A :=
  rev (take k (rev l)).

(** A session holding the log [evs]. *)
Definition sessionWith (s : Session.t) (evs : list Event) : Session.t :=
  Processors.withEvents s evs.

(** The events of [evs] that are not user messages. *)
Definition withoutUserMessages (evs : list Event) : list Event :=
  List.filter (fun e => negb (bool_decide (action e = USER_MESSAGE))) evs.

(** A turn that has just been opened by the user message [u]. *)
Definition openedBy (u : UserMessageEvent.t) : Session.ConversationTurn.t :=
  Session.ConversationTurn.mk u None [].

(** A response that carries the latency sample [q]. *)
Definition responseWith (q : Q) : Processors.Response.t :=
  Processors.Response.mk (Some (Processors.ResponseMetadata.mk (Some q))).

(** The [format] a call of [toModelFormat] names, if any. *)
Definition requestedFormat (options : option WorkingContext.FormatOptions.t) : option string :=
  options ≫= WorkingContext.FormatOptions.format.

(** Whether a result of [toModelFormat] has the chat-style shape
    [{ messages }]. *)
Definition isMessagesShape (r : WorkingContext.Thrown + WorkingContext.WorkersAIFormat) : bool :=
  match r with
  | inr (WorkingContext.MessagesShape _) => true
  | _ => false
  end.

(** The total cost of a run of contents: the sum of their
    [ceil(length / 4)]. *)
Definition cost (cs : list WorkingContext.Content.t) : Z :=
  fold_right (fun content acc => WorkingContext.contentTokens content + acc) 0 cs.

(** The budget left for contents: [availableForHistory] minus the cost
    of the system instructions and the identity. *)
Definition availableForContents (config : WorkingContext.ContextWindowConfig.t)
    (c : WorkingContext.t) : Q :=
  (WorkingContext.ContextWindowConfig.availableForHistory config
   - WorkingContext.systemTokens c)%Q.

(** The same two measures in the words of the specification, written
    without the functions of the code.  The cost of a content is
    ceiling(length / 4), the least integer that is at least a quarter of
    the number of its characters; the cost of a run of contents is the
    sum of their costs. *)
Definition quarterCeiling (text : string) : Z :=
  (Z.of_nat (String.length text) + 3) / 4.

Definition tokenCost (cs : list WorkingContext.Content.t) : Z :=
  fold_right (fun k acc => quarterCeiling (WorkingContext.Content.content k) + acc) 0 cs.

(** The cost of the system instructions plus the identity: a quarter of
    the characters of the instructions joined by newlines and of the
    serialized identity, when there is one.  It is a quarter as it
    stands, not rounded to a whole number of tokens. *)
Definition systemCost (c : WorkingContext.t) : Q :=
  (Z.of_nat (String.length
               (String.concat (String (ascii_of_nat 10) EmptyString)
                              (WorkingContext.systemInstructions c)))
   + match WorkingContext.agentIdentity c with
     | Some identity =>
         Z.of_nat (String.length
                     (JS.JSON_stringify (WorkingContext.AgentIdentity.toJSON identity)))
     | None => 0
     end) # 4.

(** [availableForHistory] minus the system-instructions-plus-identity
    cost. *)
Definition contentBudget (config : WorkingContext.ContextWindowConfig.t)
    (c : WorkingContext.t) : Q :=
  (WorkingContext.ContextWindowConfig.availableForHistory config - systemCost c)%Q.

(** The running total of a walk over [suf], from its last content to its
    first, stays within the budget: costs are never negative, so it does
    at every step exactly when the total of [suf] does.  The walk that
    keeps nothing has tested nothing. *)
Definition staysWithin (budget : Q) (suf : list WorkingContext.Content.t) : bool :=
  match suf with
  | [] => true
  | _ => Qle_bool (inject_Z (tokenCost suf)) budget
  end.

(** A suffix of the contents is within the budget when it is empty (the
    walk keeps nothing without testing anything) or its total cost does
    not exceed the budget.  Costs are never negative, so the running
    total of the walk stays within the budget at every step exactly when
    the final total does. *)
Definition withinBudget (budget : Q) (suf : list WorkingContext.Content.t) : bool :=
  match suf with
  | [] => true
  | _ => Qle_bool (inject_Z (cost suf)) budget
  end.

(** The contents the walk of [truncateToFit] keeps, in the order it
    visits them (most recent first). *)
Fixpoint budgetPrefix (budget : Q) (pending : list WorkingContext.Content.t)
    (spent : Z) : list WorkingContext.Content.t :=
  match pending with
  | [] => []
  | content :: older =>
      if Qle_bool (inject_Z (spent + WorkingContext.contentTokens content)) budget
      then content :: budgetPrefix budget older (spent + WorkingContext.contentTokens content)
      else []
  end.

(** The context [c] with its contents replaced by [kept] and the length
    of [kept] recorded as the window size. *)
Definition truncatedTo (kept : list WorkingContext.Content.t) (c : WorkingContext.t)
    : WorkingContext.t :=
  WorkingContext.mk
    (WorkingContext.systemInstructions c) (WorkingContext.agentIdentity c)
    kept
    (WorkingContext.memoryResults c) (WorkingContext.artifactReferences c)
    (WorkingContext.WorkingContextMetadata.mk
       (WorkingContext.WorkingContextMetadata.sessionId (WorkingContext.metadata c))
       (WorkingContext.WorkingContextMetadata.totalEvents (WorkingContext.metadata c))
       (WorkingContext.WorkingContextMetadata.compactedEvents (WorkingContext.metadata c))
       (Z.of_nat (length kept))
       (WorkingContext.WorkingContextMetadata.createdAt (WorkingContext.metadata c))).

(** Every id listed in the [compactedEventIds] of a compaction event of
    the log, with repetitions, and the number of distinct ids of a
    list. *)
Definition compactedIds (evs : list Event) : list string :=
  concat (List.map CompactionEvent.compactedEventIds (omap Processors.asCompaction evs)).

Definition distinctCount (ids : list string) : Z :=
  Z.of_nat (length (remove_dups ids)).

(** [needle] occurs in [text]. *)
Definition occursIn (needle text : string) : Prop :=
  exists before after, text = before +:+ needle +:+ after.

(** The configuration [{ keepCompactionSummaries: true }]. *)
Definition keepingSummaries : option Processors.CompactionFilterProcessorConfig.t :=
  Some (Processors.CompactionFilterProcessorConfig.mk (Some true)).

(** The content the projection derives from an event with tool calls
    included, as the compaction filter runs it. *)
Definition derivedContent (e : Event) : option WorkingContext.Content.t :=
  Processors.eventToContent true e.

(** The id of the event a projected content was derived from: the
    [eventId] of its metadata. *)
Definition originId (content : WorkingContext.Content.t) : option string :=
  match WorkingContext.Content.metadata content with
  | Some props =>
      match JS.get "eventId" props with
      | Some (JS.JStr i) => Some i
      | _ => None
      end
  | None => None
  end.

(** Sample events for the concrete cases below. *)
Definition sampleUser (i text : string) : Event :=
  UserMessage (UserMessageEvent.mk (BaseEvent.mk i 0 None) text None).

Definition sampleAgent (i text : string) : Event :=
  AgentMessage (AgentMessageEvent.mk (BaseEvent.mk i 0 None) text "agent" None None None None).

Definition sampleCompaction (i summary : string) (ids : list string) : CompactionEvent.t :=
  CompactionEvent.mk (BaseEvent.mk i 0 None) summary ids sliding_window None None None.

(** A log whose compaction event [c] lists [e1] and [e3], both ordinary
    messages. *)
Definition compactedLog : list Event :=
  [sampleUser "e1" "first question";
   sampleAgent "e2" "first answer";
   sampleUser "e3" "second question";
   Compaction (sampleCompaction "c" "the user asked two questions" ["e1"; "e3"])].

(** A log whose compaction event [c] lists [e1] and [e3], where [e1] is
    an earlier compaction event. *)
Definition recompactedLog : list Event :=
  [Compaction (sampleCompaction "e1" "an earlier summary" ["e0"]);
   sampleAgent "e2" "an answer";
   sampleUser "e3" "a question";
   Compaction (sampleCompaction "c" "a later summary" ["e1"; "e3"])].

(** ** Vocabulary of the serialization round trip *)

(** No name occurs twice. *)
Fixpoint distinct (names : list string) : bool :=
  match names with
  | [] => true
  | k :: rest => negb (existsb (String.eqb k) rest) && distinct rest
  end.

(** A rational with a numeral: its reduced denominator divides a power
    of ten, as that of every finite double does. *)
Definition hasNumeral (q : Q) : bool :=
  match JS.decimalPlaces (Qden (Qred q)) with
  | Some _ => true
  | None => false
  end.

(** [q] stands for a number with a fractional part: it is reduced, it
    is no integer and it has a numeral. *)
Definition isFraction (q : Q) : bool :=
  (Qnum (Qred q) =? Qnum q) && (Z.pos (Qden (Qred q)) =? Z.pos (Qden q))
  && negb (Qnum q mod Z.pos (Qden q) =? 0)
  && hasNumeral q.

(** Plain data: [null], booleans, finite numbers, strings, and arrays
    and objects of plain data, an object having no two properties of
    the same name.  These are the values a JSON text denotes. *)
Fixpoint plainData (v : JS.JSON) : bool :=
  match v with
  | JS.JNull | JS.JBool _ | JS.JNum _ | JS.JStr _ => true
  | JS.JArr items => forallb plainData items
  | JS.JObj fields =>
      distinct (List.map fst fields) && forallb (fun kv => plainData (snd kv)) fields
  | JS.JFrac q => isFraction q
  | JS.JNaN | JS.JInfinity _ | JS.JDate _ => false
  end.

(** The [result] of a tool result that is not a [string] is an object. *)
Definition resultIsTyped (e : Event) : bool :=
  match e with
  | ToolResultEv r =>
      match ToolResultEvent.result r with
      | ResultObject (JS.JStr _) => false
      | _ => true
      end
  | _ => true
  end.

(** An event, and a session, made of plain data only. *)
Definition plainEvent (e : Event) : bool :=
  plainData (Events.toJSON e) && resultIsTyped e.

Definition plainSession (s : Session.t) : bool :=
  forallb plainEvent (Session.events s)
  && hasNumeral (Session.SessionStatistics.averageResponseTimeMs (Session.statistics s)).

(** The same statistics: the same counters and the same average. *)
Definition sameStatistics (a b : Session.SessionStatistics.t) : Prop :=
  Session.SessionStatistics.totalEvents a = Session.SessionStatistics.totalEvents b /\
  Session.SessionStatistics.totalUserMessages a
    = Session.SessionStatistics.totalUserMessages b /\
  Session.SessionStatistics.totalAgentMessages a
    = Session.SessionStatistics.totalAgentMessages b /\
  Session.SessionStatistics.totalToolCalls a = Session.SessionStatistics.totalToolCalls b /\
  Session.SessionStatistics.totalErrors a = Session.SessionStatistics.totalErrors b /\
  Session.SessionStatistics.totalCompactions a
    = Session.SessionStatistics.totalCompactions b /\
  (Session.SessionStatistics.averageResponseTimeMs a
     == Session.SessionStatistics.averageResponseTimeMs b)%Q /\
  Session.SessionStatistics.totalTokensUsed a = Session.SessionStatistics.totalTokensUsed b.

(** What may follow a value in a JSON text: the end of the text, a
    comma or a closing bracket or brace. *)
Definition stops (rest : string) : bool :=
  match rest with
  | EmptyString => true
  | String c _ =>
      (nat_of_ascii c =? 44)%nat || (nat_of_ascii c =? 93)%nat || (nat_of_ascii c =? 125)%nat
  end.

(** The ten digits. *)
Definition isDigit (d : Z) : Prop := 0 <= d <= 9.

(** The first character of a number: a minus sign or a digit. *)
Definition numberStart (c : ascii) : Prop :=
  c = ascii_of_nat 45 \/ exists d, isDigit d /\ c = JS.digitChar d.

(** A session of one user message whose [metadata] holds [v] under
    ["ratio"], and the [metadata] of the first event of a session. *)
Definition sessionHolding (v : JS.JSON) : Session.t :=
  Session.addEvent
    (UserMessage (UserMessageEvent.mk (BaseEvent.mk "e1" 10 (Some [("ratio", v)]))
                                      "hello" None))
    11 (Session.new "agent" 9 "k3j2").

Definition firstMetadata (s : Session.t) : option JS.Record :=
  match Session.events s with
  | e :: _ => BaseEvent.metadata (Events.base e)
  | [] => None
  end.

(** A session of plain data: a tool call with nested arguments, its
    result, an agent message, and an average of 2.5 ms. *)
Definition plainExample : Session.t :=
  Processors.statisticsResponseProcessor
    (Session.addEvents
       [(UserMessage (UserMessageEvent.mk (BaseEvent.mk "e1" 10 None) "hello" None), 11);
        (ToolCall
           (ToolCallEvent.mk
              (BaseEvent.mk "e2" 12 (Some [("trace", JS.JArr [JS.JNum (-3); JS.JNull])]))
              "search"
              [("query", JS.JStr ("tab" +:+ JS.chr 9 +:+ "quote" +:+ JS.chr 34));
               ("weight", JS.JFrac (1 # 8));
               ("exact", JS.JBool false)]
              "call-1" None None), 13);
        (ToolResultEv
           (ToolResultEvent.mk (BaseEvent.mk "e3" 14 None) "call-1" "search"
              (ResultObject (JS.JObj [("hits", JS.JArr [])])) true (Some 7) None), 15);
        (AgentMessage
           (AgentMessageEvent.mk (BaseEvent.mk "e4" 16 None) "hi" "agent" None (Some 5)
                                 None None), 17)]
       (Session.new "agent" 9 "k3j2"))
    (responseWith (5 # 2))
    (WorkingContext.new "sid" 0).


(** ** Vocabulary for the further properties *)

(** The clock value the last call of a run read, [fallback] for an empty
    run. *)
Definition lastClock (calls : list (Event * Z)) (fallback : Z) : Z :=
  default fallback (last (List.map snd calls)).

(** The right-biased merge of two partial configurations: what
    [Object.assign] of one after the other amounts to. *)
Definition mergePartial (u1 u2 : Session.CompactionConfig.partial)
    : Session.CompactionConfig.partial :=
  Session.CompactionConfig.mkPartial
    (match Session.CompactionConfig.p_enabled u2 with
     | Some v => Some v | None => Session.CompactionConfig.p_enabled u1 end)
    (match Session.CompactionConfig.p_triggerThreshold u2 with
     | Some v => Some v | None => Session.CompactionConfig.p_triggerThreshold u1 end)
    (match Session.CompactionConfig.p_windowSize u2 with
     | Some v => Some v | None => Session.CompactionConfig.p_windowSize u1 end)
    (match Session.CompactionConfig.p_overlapSize u2 with
     | Some v => Some v | None => Session.CompactionConfig.p_overlapSize u1 end)
    (match Session.CompactionConfig.p_strategy u2 with
     | Some v => Some v | None => Session.CompactionConfig.p_strategy u1 end).

(** The update [{ enabled: false }] and the empty update [{}]. *)
Definition disabling : Session.CompactionConfig.partial :=
  Session.CompactionConfig.mkPartial (Some false) None None None None.

Definition noUpdate : Session.CompactionConfig.partial :=
  Session.CompactionConfig.mkPartial None None None None None.

(** The user message an event is, if it is one. *)
Definition asUserMessage (e : Event) : option UserMessageEvent.t :=
  match e with
  | UserMessage u => Some u
  | _ => None
  end.

(** [f] applied to the last element of a list. *)
Fixpoint updateLast {A : Type} (f : A -> A) (l : list A) : list A :=
  match l with
  | [] => []
  | [x] => [f x]
  | x :: rest => x :: updateLast f rest
  end.

Definition withAgent (a : AgentMessageEvent.t) (turn : Session.ConversationTurn.t)
    : Session.ConversationTurn.t :=
  Session.ConversationTurn.mk (Session.ConversationTurn.user turn) (Some a)
                              (Session.ConversationTurn.tools turn).

Definition withTool (tool : Session.ToolEvent) (turn : Session.ConversationTurn.t)
    : Session.ConversationTurn.t :=
  Session.ConversationTurn.mk (Session.ConversationTurn.user turn)
                              (Session.ConversationTurn.agent turn)
                              (Session.ConversationTurn.tools turn ++ [tool]).

(** The characters [estimateTokenCount] adds up: those of the contents,
    of the joined memory results and of the serialized artifact list
    (each of the last two only when the list is not empty), and all of
    them together with those of the instructions and the identity. *)
Definition contentChars (cs : list WorkingContext.Content.t) : Z :=
  fold_right (fun k acc => JS.strlen (WorkingContext.Content.content k) + acc) 0 cs.

Definition memoryChars (c : WorkingContext.t) : Z :=
  match WorkingContext.memoryResults c with
  | [] => 0
  | results => JS.strlen (JS.join WorkingContext.nl results)
  end.

Definition artifactChars (c : WorkingContext.t) : Z :=
  match WorkingContext.artifactReferences c with
  | [] => 0
  | references =>
      JS.strlen (JS.JSON_stringify
                   (JS.JArr (List.map WorkingContext.ArtifactReference.toJSON references)))
  end.

Definition totalChars (c : WorkingContext.t) : Z :=
  WorkingContext.instructionChars c + WorkingContext.identityChars c
  + contentChars (WorkingContext.contents c) + memoryChars c + artifactChars c.

(** The text an entry of the structured input carries: the [output] of
    a function-call output, the [content] of any other entry. *)
Definition inputText (i : WorkingContext.WorkersAIInput.t) : option string :=
  match WorkingContext.WorkersAIInput.output i with
  | Some text => Some text
  | None => WorkingContext.WorkersAIInput.content i
  end.

(** The texts a result of [toModelFormat] carries, first the system
    text, then one per entry; nothing for a thrown error. *)
Definition formatTexts (r : WorkingContext.Thrown + WorkingContext.WorkersAIFormat)
    : list (option string) :=
  match r with
  | inr (WorkingContext.MessagesShape messages) =>
      List.map (fun m => Some (WorkingContext.WorkersAIMessage.content m)) messages
  | inr (WorkingContext.ResponsesShape instructions input _) =>
      Some instructions :: List.map inputText input
  | inl _ => []
  end.

(** The roles of the messages of a chat-style result. *)
Definition messageRoles (r : WorkingContext.Thrown + WorkingContext.WorkersAIFormat)
    : list string :=
  match r with
  | inr (WorkingContext.MessagesShape messages) =>
      List.map WorkingContext.WorkersAIMessage.role messages
  | _ => []
  end.

(** A call of [toModelFormat] for the chat-style shape, naming a model
    or not. *)
Definition chatOptions (model : option string) : option WorkingContext.FormatOptions.t :=
  Some (WorkingContext.FormatOptions.mk (Some "chat_completions") model).

Definition mistralSmall : string := "@cf/mistralai/mistral-small-3.1-24b-instruct".

(** The contents a processor added to a context: those of the result
    beyond the ones the context already had. *)
Definition added (before after : WorkingContext.t) : list WorkingContext.Content.t :=
  drop (length (WorkingContext.contents before)) (WorkingContext.contents after).

(** A configuration of the contents processor, field by field. *)
Definition contentsConfig (windowSize : option Z) (includeToolCalls : option bool)
    (filterActions : option (list EventAction)) : option Processors.ContentsProcessorConfig.t :=
  Some (Processors.ContentsProcessorConfig.mk windowSize includeToolCalls filterActions).

(** The events the contents processor projects: the window, then the
    filter. *)
Definition selectedEvents (config : option Processors.ContentsProcessorConfig.t)
    (evs : list Event) : list Event :=
  let windowed :=
    match config ≫= Processors.ContentsProcessorConfig.windowSize with
    | Some w => if JS.truthy_Z w && (0 <? w) then JS.slice (- w) evs else evs
    | None => evs
    end in
  match default [] (config ≫= Processors.ContentsProcessorConfig.filterActions) with
  | [] => windowed
  | actions => List.filter (fun e => negb (bool_decide (action e ∈ actions))) windowed
  end.

Definition includesToolCalls (config : option Processors.ContentsProcessorConfig.t) : bool :=
  default true (config ≫= Processors.ContentsProcessorConfig.includeToolCalls).

(** The text of the content projected for a compaction event. *)
Definition summaryText (c : CompactionEvent.t) : string :=
  "[Conversation Summary]: " +:+ CompactionEvent.summary c.

(** Configurations of the sliding window and of the compaction filter. *)
Definition slidingTurns (turns : option Z) : option Processors.SlidingWindowProcessorConfig.t :=
  Some (Processors.SlidingWindowProcessorConfig.mk turns).

Definition droppingSummaries : option Processors.CompactionFilterProcessorConfig.t :=
  Some (Processors.CompactionFilterProcessorConfig.mk (Some false)).

(** The names of the request processors of a pipeline, in order. *)
Definition requestNames (p : Pipeline.t) : list string :=
  List.map Pipeline.RequestEntry.name (Pipeline.requestProcessors p).

(** The pipeline without its disabled request entries. *)
Definition enabledOnly (p : Pipeline.t) : Pipeline.t :=
  Pipeline.mk
    (List.filter (fun e => negb (Pipeline.isDisabled (Pipeline.RequestEntry.enabled e)))
                 (Pipeline.requestProcessors p))
    (Pipeline.responseProcessors p).

(** The context [executeRequestPipeline] starts from. *)
Definition freshContext (s : Session.t) (now : Z) : Pipeline.Context.t :=
  Pipeline.Context.mk
    (WorkingContext.new (Session.SessionMetadata.sessionId (Session.metadata s)) now)
    (Pipeline.CacheMarks.mk None None).

(** The options [o] with [contextWindowConfig] replaced. *)
Definition withWindowConfig (config : option WorkingContext.ContextWindowConfig.t)
    (o : Pipeline.DefaultPipelineOptions.t) : Pipeline.DefaultPipelineOptions.t :=
  Pipeline.DefaultPipelineOptions.mk
    (Pipeline.DefaultPipelineOptions.systemInstructions o)
    (Pipeline.DefaultPipelineOptions.agentIdentity o)
    (Pipeline.DefaultPipelineOptions.windowSize o)
    config
    (Pipeline.DefaultPipelineOptions.enableCaching o)
    (Pipeline.DefaultPipelineOptions.useCompactionFilter o)
    (Pipeline.DefaultPipelineOptions.useSlidingWindow o).

(** The name of the history-shaping processor the factory picks: the
    compaction filter unless it is switched off, then the sliding window
    if asked for, else the plain contents processor. *)
Definition historyProcessor (o : Pipeline.DefaultPipelineOptions.t) : string :=
  match Pipeline.DefaultPipelineOptions.useCompactionFilter o with
  | Some false =>
      match Pipeline.DefaultPipelineOptions.useSlidingWindow o with
      | Some true => "sliding-window"
      | _ => "contents"
      end
  | _ => "compaction-filter"
  end.

(** The names of the three history-shaping processors. *)
Definition historyNames : list string := ["compaction-filter"; "sliding-window"; "contents"].

(** Whether an event is a user or an agent message. *)
Definition isMessage (e : Event) : bool :=
  match e with
  | UserMessage _ | AgentMessage _ => true
  | _ => false
  end.

(* ===================================================================== *)
(** * Properties *)
(* ===================================================================== *)

Import Session.SessionStatistics.

(** ** The built-ins behave as in JavaScript *)

Example slice_examples :
  JS.slice (-2) [1; 2; 3] = [2; 3] /\
  JS.slice (-7) [1; 2; 3] = [1; 2; 3] /\
  JS.slice 0 [1; 2; 3] = [1; 2; 3] /\
  JS.slice 1 [1; 2; 3] = [2; 3] /\
  JS.slice 5 [1; 2; 3] = [].
Proof. repeat split. Qed.

Example string_of_Z_examples :
  JS.string_of_Z 0 = "0" /\
  JS.string_of_Z 7 = "7" /\
  JS.string_of_Z 1700 = "1700" /\
  JS.string_of_Z (-45) = "-45".
Proof. repeat split. Qed.

(** [JSON.stringify] of an identity: 48 characters, quotes, colons,
    commas and brackets included; a quote inside a string is escaped and
    counts for two. *)
Example JSON_stringify_identity :
  JS.strlen (JS.JSON_stringify
               (WorkingContext.AgentIdentity.toJSON
                  (WorkingContext.AgentIdentity.mk "a" "b" ["x"; "y"]))) = 48 /\
  JS.JSON_stringify (JS.JArr [JS.JNum 1; JS.JBool true; JS.JNull; JS.JObj []])
    = "[1,true,null,{}]" /\
  JS.strlen (JS.JSON_stringify (JS.JStr (JS.chr 34))) = 4.
Proof. vm_compute. repeat split. Qed.

(** [Math.ceil(chars / 4)] on a length is the integer [(chars + 3) / 4]. *)
Lemma ceilQuarter_div (chars : Z) :
  WorkingContext.ceilQuarter chars = (chars + 3) / 4.
Proof.
  unfold WorkingContext.ceilQuarter, Qceiling, Qfloor. cbn.
  rewrite Z.mul_1_r. Z.div_mod_to_equations. lia.
Qed.

Example ceilQuarter_examples :
  WorkingContext.ceilQuarter 0 = 0 /\
  WorkingContext.ceilQuarter 1 = 1 /\
  WorkingContext.ceilQuarter 40 = 10 /\
  WorkingContext.ceilQuarter 41 = 11.
Proof. repeat split. Qed.

(** ** Session statistics are the fold of the appended events *)

(** Decide the comparisons of actions in the goal and finish by
    arithmetic. *)
Ltac settle_actions :=
  unfold indicator; repeat case_bool_decide; try congruence; cbn [length]; try lia.

Lemma countAction_cons a e evs :
  countAction a (e :: evs) = indicator (bool_decide (action e = a)) + countAction a evs.
Proof. unfold countAction. cbn [List.filter]. settle_actions. Qed.

Lemma addEvents_cons call calls s :
  Session.addEvents (call :: calls) s
  = Session.addEvents calls (Session.addEvent (fst call) (snd call) s).
Proof. reflexivity. Qed.

Lemma addEvent_statistics event now s :
  let st := Session.statistics s in
  let st' := Session.statistics (Session.addEvent event now s) in
  totalEvents st' = totalEvents st + 1 /\
  totalUserMessages st'
    = totalUserMessages st + indicator (bool_decide (action event = USER_MESSAGE)) /\
  totalAgentMessages st'
    = totalAgentMessages st + indicator (bool_decide (action event = AGENT_MESSAGE)) /\
  totalToolCalls st'
    = totalToolCalls st + indicator (bool_decide (action event = TOOL_CALL)) /\
  totalErrors st'
    = totalErrors st + indicator (bool_decide (action event = ERROR)) /\
  totalCompactions st'
    = totalCompactions st + indicator (bool_decide (action event = COMPACTION)) /\
  totalTokensUsed st' = totalTokensUsed st + tokensOf event /\
  averageResponseTimeMs st' = averageResponseTimeMs st.
Proof.
  destruct event as [e|e|e|e|e|e|e|e|e]; cbn.
  2: destruct (AgentMessageEvent.tokensUsed e) as [n|]; cbn;
       [unfold JS.truthy_Z; destruct (Z.eqb_spec n 0); cbn|].
  all: repeat split; settle_actions.
Qed.

Lemma addEvents_statistics calls : forall s,
  Session.events (Session.addEvents calls s) = Session.events s ++ List.map fst calls /\
  totalEvents (Session.statistics (Session.addEvents calls s))
    = totalEvents (Session.statistics s) + Z.of_nat (length calls) /\
  totalUserMessages (Session.statistics (Session.addEvents calls s))
    = totalUserMessages (Session.statistics s)
      + countAction USER_MESSAGE (List.map fst calls) /\
  totalAgentMessages (Session.statistics (Session.addEvents calls s))
    = totalAgentMessages (Session.statistics s)
      + countAction AGENT_MESSAGE (List.map fst calls) /\
  totalToolCalls (Session.statistics (Session.addEvents calls s))
    = totalToolCalls (Session.statistics s)
      + countAction TOOL_CALL (List.map fst calls) /\
  totalErrors (Session.statistics (Session.addEvents calls s))
    = totalErrors (Session.statistics s)
      + countAction ERROR (List.map fst calls) /\
  totalCompactions (Session.statistics (Session.addEvents calls s))
    = totalCompactions (Session.statistics s)
      + countAction COMPACTION (List.map fst calls) /\
  totalTokensUsed (Session.statistics (Session.addEvents calls s))
    = totalTokensUsed (Session.statistics s) + tokenSum (List.map fst calls).
Proof.
  induction calls as [|[event now] calls IH]; intros s.
  - cbn. rewrite app_nil_r. unfold countAction. cbn. repeat split; lia.
  - rewrite addEvents_cons. cbn [fst snd List.map].
    destruct (IH (Session.addEvent event now s))
      as (Hev & H1 & H2 & H3 & H4 & H5 & H6 & H7).
    destruct (addEvent_statistics event now s)
      as (A1 & A2 & A3 & A4 & A5 & A6 & A7 & _).
    cbv zeta in *.
    rewrite !countAction_cons.
    cbn [tokenSum fold_right]. fold (tokenSum (List.map fst calls)).
    split.
    + rewrite Hev. cbn. rewrite <- app_assoc. reflexivity.
    + cbn [length]. rewrite Nat2Z.inj_succ. repeat split; lia.
Qed.

(** C1. After any run of N [addEvent] calls on a freshly constructed
    session, the log holds the appended events in order, [totalEvents]
    is N, each of [totalUserMessages], [totalAgentMessages],
    [totalToolCalls], [totalErrors] and [totalCompactions] is the number
    of appended events with that action, and [totalTokensUsed] is the sum
    of the [tokensUsed] of the appended agent messages that carry one. *)
Theorem addEvent_statistics_are_fold agentId now0 suffix (calls : list (Event * Z)) :
  Session.events (Session.addEvents calls (Session.new agentId now0 suffix))
    = List.map fst calls /\
  totalEvents (Session.statistics (Session.addEvents calls (Session.new agentId now0 suffix)))
    = Z.of_nat (length calls) /\
  totalUserMessages (Session.statistics (Session.addEvents calls (Session.new agentId now0 suffix)))
    = countAction USER_MESSAGE (List.map fst calls) /\
  totalAgentMessages (Session.statistics (Session.addEvents calls (Session.new agentId now0 suffix)))
    = countAction AGENT_MESSAGE (List.map fst calls) /\
  totalToolCalls (Session.statistics (Session.addEvents calls (Session.new agentId now0 suffix)))
    = countAction TOOL_CALL (List.map fst calls) /\
  totalErrors (Session.statistics (Session.addEvents calls (Session.new agentId now0 suffix)))
    = countAction ERROR (List.map fst calls) /\
  totalCompactions (Session.statistics (Session.addEvents calls (Session.new agentId now0 suffix)))
    = countAction COMPACTION (List.map fst calls) /\
  totalTokensUsed (Session.statistics (Session.addEvents calls (Session.new agentId now0 suffix)))
    = tokenSum (List.map fst calls).
Proof.
  destruct (addEvents_statistics calls (Session.new agentId now0 suffix))
    as (Hev & H1 & H2 & H3 & H4 & H5 & H6 & H7).
  cbv zeta in *. cbn [Session.new Session.statistics Session.events] in *.
  cbn in Hev, H1, H2, H3, H4, H5, H6, H7.
  repeat split; assumption.
Qed.

(** Five appends: two agent messages carrying 7 and 0 tokens, one
    carrying none, a tool result (which has no counter of its own) and an
    error. *)
Example addEvent_statistics_example :
  let b := BaseEvent.mk "e" 0 None in
  let agent tokens := AgentMessage (AgentMessageEvent.mk b "ok" "agent" None tokens None None) in
  let result := ToolResultEv (ToolResultEvent.mk b "call" "search" (ResultString "r") true None None) in
  let failure := Error (ErrorEvent.mk b "Timeout" "too slow" None true) in
  Session.statistics
    (Session.addEvents
       [(agent (Some 7), 1); (agent (Some 0), 2); (agent None, 3); (result, 4); (failure, 5)]
       (Session.new "agent" 0 "x"))
  = Session.SessionStatistics.mk 5 0 3 0 1 0 0%Q 7.
Proof. reflexivity. Qed.

(** ** needsCompaction *)

Lemma filter_length_split {A} (p : A -> bool) (l : list A) :
  (length l = length (List.filter p l) + length (List.filter (fun x => negb (p x)) l))%nat.
Proof.
  induction l as [|x l IH]; cbn; [reflexivity|].
  destruct (p x); cbn; lia.
Qed.

Lemma withoutCompactions_length evs :
  Z.of_nat (length (withoutCompactions evs)) = nonCompactionCount evs.
Proof.
  pose proof (filter_length_split (fun e => bool_decide (action e = COMPACTION)) evs) as H.
  unfold nonCompactionCount, withoutCompactions, countAction. lia.
Qed.

Lemma withoutCompactions_app l1 l2 :
  withoutCompactions (l1 ++ l2) = withoutCompactions l1 ++ withoutCompactions l2.
Proof. apply List.filter_app. Qed.

Lemma withoutCompactions_idem evs :
  withoutCompactions (withoutCompactions evs) = withoutCompactions evs.
Proof.
  unfold withoutCompactions. induction evs as [|e evs IH]; cbn; [reflexivity|].
  destruct (bool_decide (action e = COMPACTION)) eqn:E; cbn; [assumption|].
  rewrite E. cbn. f_equal. assumption.
Qed.

Lemma needsCompaction_eq s :
  Session.needsCompaction s
  = Session.CompactionConfig.enabled (Session.compactionConfig s)
    && (Session.CompactionConfig.triggerThreshold (Session.compactionConfig s)
        <=? nonCompactionCount (Session.events s)).
Proof.
  unfold Session.needsCompaction, Session.isCompaction.
  fold (withoutCompactions (Session.events s)).
  rewrite withoutCompactions_length.
  destruct (Session.CompactionConfig.enabled _); reflexivity.
Qed.

(** C3. [needsCompaction()] is the conjunction of [enabled] and the
    test that the number of events whose action is not ["compaction"] is
    at least [triggerThreshold]: it is false whenever compaction is
    disabled, and otherwise true exactly when the count reaches the
    threshold.  The answer does not depend on the compaction events of the
    log: inserting one anywhere, or removing all of them, leaves it
    unchanged.  A fresh session has compaction enabled with threshold
    50. *)
Theorem needsCompaction_spec (s : Session.t) :
  Session.needsCompaction s
    = Session.CompactionConfig.enabled (Session.compactionConfig s)
      && (Session.CompactionConfig.triggerThreshold (Session.compactionConfig s)
          <=? nonCompactionCount (Session.events s)) /\
  (Session.needsCompaction s = true <->
     Session.CompactionConfig.enabled (Session.compactionConfig s) = true /\
     Session.CompactionConfig.triggerThreshold (Session.compactionConfig s)
       <= nonCompactionCount (Session.events s)) /\
  (forall before c after,
     Session.needsCompaction (sessionWith s (before ++ Compaction c :: after))
     = Session.needsCompaction (sessionWith s (before ++ after))) /\
  Session.needsCompaction (sessionWith s (withoutCompactions (Session.events s)))
    = Session.needsCompaction s /\
  (forall agentId now suffix,
     Session.compactionConfig (Session.new agentId now suffix)
     = Session.CompactionConfig.mk true 50 10 2 sliding_window).
Proof.
  split; [apply needsCompaction_eq|]. split; [|split; [|split]].
  - rewrite needsCompaction_eq, andb_true_iff, Z.leb_le. reflexivity.
  - intros before c after. rewrite !needsCompaction_eq. cbn.
    rewrite <- !withoutCompactions_length, !withoutCompactions_app. reflexivity.
  - rewrite !needsCompaction_eq. cbn.
    rewrite <- !withoutCompactions_length, withoutCompactions_idem. reflexivity.
  - reflexivity.
Qed.

(** With the default configuration, 49 user messages do not trigger
    compaction and 50 do, however many compaction events surround them. *)
Example needsCompaction_threshold :
  let um := UserMessage (UserMessageEvent.mk (BaseEvent.mk "u" 0 None) "hi" None) in
  let cp := Compaction (CompactionEvent.mk (BaseEvent.mk "c" 0 None) "s" []
                          sliding_window None None None) in
  let fresh := Session.new "agent" 0 "x" in
  Session.needsCompaction (sessionWith fresh (repeat cp 60 ++ repeat um 49)) = false /\
  Session.needsCompaction (sessionWith fresh (repeat um 50)) = true /\
  Session.needsCompaction (sessionWith fresh (repeat um 25 ++ [cp] ++ repeat um 25)) = true.
Proof. vm_compute. repeat split. Qed.

(** ** getLastNEvents *)

Lemma lastN_drop {A} (k : nat) (l : list A) :
  lastN k l = drop (length l - k) l.
Proof.
  unfold lastN. rewrite firstn_rev, rev_involutive. reflexivity.
Qed.

Lemma lastN_length {A} (k : nat) (l : list A) :
  length (lastN k l) = Nat.min k (length l).
Proof. rewrite lastN_drop, length_drop. lia. Qed.

Lemma lastN_suffix {A} (k : nat) (l : list A) :
  take (length l - k) l ++ lastN k l = l.
Proof. rewrite lastN_drop. apply take_drop. Qed.

Lemma slice_zero {A} (l : list A) : JS.slice 0 l = l.
Proof.
  unfold JS.slice. cbn.
  replace (Z.to_nat (Z.min 0 (Z.of_nat (length l)))) with 0%nat by lia.
  reflexivity.
Qed.

Lemma slice_neg {A} (p : positive) (l : list A) :
  JS.slice (Z.neg p) l = lastN (Z.to_nat (Z.min (Z.pos p) (Z.of_nat (length l)))) l.
Proof.
  unfold JS.slice. rewrite lastN_drop. cbn [Z.ltb Z.compare]. cbv iota.
  f_equal. lia.
Qed.

(** C9. [getLastNEvents(0)] returns the whole log, because the slice
    starts at index [-0], which is index 0.  For [n > 0] (written
    [Z.pos p]) it returns the last [min(n, events.length)] events in log
    order: that many elements, and together with the events before them
    they make up the log. *)
Theorem getLastNEvents_spec (s : Session.t) :
  Session.getLastNEvents 0 s = Session.events s /\
  (forall p : positive,
     let k := Z.to_nat (Z.min (Z.pos p) (Z.of_nat (length (Session.events s)))) in
     Session.getLastNEvents (Z.pos p) s = lastN k (Session.events s) /\
     length (Session.getLastNEvents (Z.pos p) s) = k /\
     take (length (Session.events s) - k) (Session.events s)
       ++ Session.getLastNEvents (Z.pos p) s = Session.events s).
Proof.
  split.
  - unfold Session.getLastNEvents. cbn. apply slice_zero.
  - intros p k. unfold Session.getLastNEvents.
    change (- Z.pos p) with (Z.neg p). rewrite slice_neg. fold k. split; [reflexivity|]. split.
    + rewrite lastN_length. lia.
    + apply lastN_suffix.
Qed.

Example getLastNEvents_examples :
  let ev i := UserMessage (UserMessageEvent.mk (BaseEvent.mk i 0 None) i None) in
  let s := sessionWith (Session.new "agent" 0 "x") [ev "a"; ev "b"; ev "c"] in
  Session.getLastNEvents 0 s = [ev "a"; ev "b"; ev "c"] /\
  Session.getLastNEvents 2 s = [ev "b"; ev "c"] /\
  Session.getLastNEvents 7 s = [ev "a"; ev "b"; ev "c"].
Proof. vm_compute. repeat split. Qed.

(** ** serialize / deserialize *)

(** ** JSON text *)

Lemma append_assoc (a b c : string) : (a +:+ b) +:+ c = a +:+ (b +:+ c).
Proof.
  induction a as [|x a IH]; [reflexivity|].
  change (String x ((a +:+ b) +:+ c) = String x (a +:+ b +:+ c)).
  rewrite IH. reflexivity.
Qed.

Lemma append_cons c (a b : string) : String c a +:+ b = String c (a +:+ b).
Proof. reflexivity. Qed.

Lemma append_nil (b : string) : EmptyString +:+ b = b.
Proof. reflexivity. Qed.

Lemma append_empty (a : string) : a +:+ EmptyString = a.
Proof.
  induction a as [|x a IH]; [reflexivity|]. rewrite append_cons, IH. reflexivity.
Qed.

Lemma length_append (a b : string) :
  String.length (a +:+ b) = (String.length a + String.length b)%nat.
Proof.
  induction a as [|x a IH]; [reflexivity|].
  change (S (String.length (a +:+ b)) = S (String.length a + String.length b)).
  rewrite IH. reflexivity.
Qed.

Lemma stops_cases rest :
  stops rest = true ->
  rest = EmptyString \/
  exists c tail, rest = String c tail /\
    (c = ascii_of_nat 44 \/ c = ascii_of_nat 93 \/ c = ascii_of_nat 125).
Proof.
  destruct rest as [|c tail]; [left; reflexivity|].
  cbn. intros H. right. exists c, tail. split; [reflexivity|].
  rewrite !orb_true_iff, !Nat.eqb_eq in H.
  destruct H as [[H|H]|H]; [left|right; left|right; right];
    rewrite <- H, ascii_nat_embedding; reflexivity.
Qed.

(** *** String literals *)

Lemma parseStringBody_escape_char c rest :
  JS.parseStringBody (JS.json_escape_char c +:+ rest)
  = JS.consChar c (JS.parseStringBody rest).
Proof.
  destruct c as [[] [] [] [] [] [] [] []]; reflexivity.
Qed.

Lemma parseStringBody_escape s rest :
  JS.parseStringBody (JS.json_escape s +:+ String (ascii_of_nat 34) rest) = Some (s, rest).
Proof.
  induction s as [|c s IH]; [reflexivity|].
  cbn [JS.json_escape]. rewrite append_assoc, parseStringBody_escape_char, IH.
  reflexivity.
Qed.

Lemma json_quote_cons s rest :
  JS.json_quote s +:+ rest
  = String (ascii_of_nat 34) (JS.json_escape s +:+ String (ascii_of_nat 34) rest).
Proof.
  unfold JS.json_quote, JS.chr.
  change (String (ascii_of_nat 34) EmptyString +:+ JS.json_escape s
          +:+ String (ascii_of_nat 34) EmptyString)
    with (String (ascii_of_nat 34)
            (JS.json_escape s +:+ String (ascii_of_nat 34) EmptyString)).
  change (String (ascii_of_nat 34)
            (JS.json_escape s +:+ String (ascii_of_nat 34) EmptyString) +:+ rest)
    with (String (ascii_of_nat 34)
            ((JS.json_escape s +:+ String (ascii_of_nat 34) EmptyString) +:+ rest)).
  rewrite append_assoc. reflexivity.
Qed.

(** *** Digits *)

Lemma digitValue_digitChar d : isDigit d -> JS.digitValue (JS.digitChar d) = Some d.
Proof.
  intros [H0 H9].
  assert (H : d = 0 \/ d = 1 \/ d = 2 \/ d = 3 \/ d = 4 \/ d = 5 \/ d = 6 \/ d = 7 \/
              d = 8 \/ d = 9) by lia.
  repeat (destruct H as [->|H]; [reflexivity|]). subst d. reflexivity.
Qed.

Lemma stops_no_digit rest :
  stops rest = true -> JS.spanDigits rest = ([], rest).
Proof.
  intros H. destruct (stops_cases rest H) as [->|(c & tail & -> & [->|[->| ->]])];
    reflexivity.
Qed.

Lemma spanDigits_digitString ds rest :
  Forall isDigit ds ->
  JS.spanDigits rest = ([], rest) ->
  JS.spanDigits (JS.digitString ds +:+ rest) = (ds, rest).
Proof.
  intros Hds Hrest. induction Hds as [|d ds Hd _ IH]; [exact Hrest|].
  cbn [JS.digitString]. rewrite append_cons. cbn [JS.spanDigits].
  rewrite (digitValue_digitChar d Hd), IH. reflexivity.
Qed.

Lemma digitString_app a b :
  JS.digitString (a ++ b) = JS.digitString a +:+ JS.digitString b.
Proof.
  induction a as [|d a IH]; [reflexivity|].
  cbn [app JS.digitString]. rewrite append_cons, IH. reflexivity.
Qed.

Lemma valueOf_snoc ds d : JS.valueOf (ds ++ [d]) = JS.valueOf ds * 10 + d.
Proof. unfold JS.valueOf. rewrite fold_left_app. reflexivity. Qed.

Lemma valueOf_app a b :
  JS.valueOf (a ++ b) = JS.valueOf a * 10 ^ Z.of_nat (length b) + JS.valueOf b.
Proof.
  induction b as [|d b IH] using rev_ind.
  - rewrite app_nil_r. cbn [length]. change (JS.valueOf []) with 0. lia.
  - rewrite app_assoc, !valueOf_snoc, IH, length_app. cbn [length].
    rewrite Nat2Z.inj_add, Z.pow_add_r by lia. change (10 ^ Z.of_nat 1) with 10. lia.
Qed.

Lemma zeros_length k : length (JS.zeros k) = k.
Proof. induction k as [|k IH]; [reflexivity|]. cbn. rewrite IH. reflexivity. Qed.

Lemma valueOf_zeros k : JS.valueOf (JS.zeros k) = 0.
Proof.
  induction k as [|k IH]; [reflexivity|].
  change (JS.zeros (S k)) with ([0] ++ JS.zeros k).
  rewrite valueOf_app, IH. change (JS.valueOf [0]) with 0. lia.
Qed.

Lemma zeros_digits k : Forall isDigit (JS.zeros k).
Proof. induction k as [|k IH]; constructor; [unfold isDigit; lia | exact IH]. Qed.

Lemma digits_fuel_S fuel n acc :
  JS.digits_fuel (S fuel) n acc
  = if n / 10 =? 0 then n mod 10 :: acc
    else JS.digits_fuel fuel (n / 10) (n mod 10 :: acc).
Proof. reflexivity. Qed.

Lemma string_of_pos_fuel_S fuel n acc :
  JS.string_of_pos_fuel (S fuel) n acc
  = if n / 10 =? 0 then JS.string_of_digit (n mod 10) +:+ acc
    else JS.string_of_pos_fuel fuel (n / 10) (JS.string_of_digit (n mod 10) +:+ acc).
Proof. reflexivity. Qed.

Lemma digits_fuel_acc fuel : forall n acc,
  JS.digits_fuel fuel n acc = JS.digits_fuel fuel n [] ++ acc.
Proof.
  induction fuel as [|fuel IH]; intros n acc; [reflexivity|].
  rewrite !digits_fuel_S. destruct (n / 10 =? 0); [reflexivity|].
  rewrite IH, (IH _ [n mod 10]), <- app_assoc. reflexivity.
Qed.

Lemma string_of_pos_fuel_digits fuel : forall n acc,
  JS.string_of_pos_fuel fuel n acc = JS.digitString (JS.digits_fuel fuel n []) +:+ acc.
Proof.
  induction fuel as [|fuel IH]; intros n acc; [reflexivity|].
  rewrite string_of_pos_fuel_S, digits_fuel_S. destruct (n / 10 =? 0); [reflexivity|].
  rewrite IH, (digits_fuel_acc fuel _ [n mod 10]), digitString_app, append_assoc.
  reflexivity.
Qed.

(** The digits of a natural number: they are digits, their value is the
    number, and the first one is not zero unless the number is. *)
Lemma digits_fuel_spec fuel : forall n,
  0 <= n < 2 ^ Z.of_nat (S fuel) ->
  Forall isDigit (JS.digits_fuel (S fuel) n []) /\
  JS.valueOf (JS.digits_fuel (S fuel) n []) = n /\
  (n = 0 -> JS.digits_fuel (S fuel) n [] = [0]) /\
  (0 < n -> exists d more, JS.digits_fuel (S fuel) n [] = d :: more /\ 0 < d).
Proof.
  assert (Hone : forall n, 0 <= n -> n / 10 = 0 ->
            Forall isDigit [n mod 10] /\ JS.valueOf [n mod 10] = n /\
            (n = 0 -> [n mod 10] = [0]) /\
            (0 < n -> exists d more, [n mod 10] = d :: more /\ 0 < d)).
  { intros n Hn E.
    assert (Hm : n mod 10 = n) by (pose proof (Z.div_mod n 10); lia).
    rewrite Hm. split; [|split; [|split]].
    - constructor; [|constructor]. unfold isDigit.
      pose proof (Z.mod_pos_bound n 10). lia.
    - unfold JS.valueOf. cbn. lia.
    - intros ->. reflexivity.
    - intros Hp. exists n, []. split; [reflexivity | exact Hp]. }
  induction fuel as [|fuel IH]; intros n Hn.
  - change (2 ^ Z.of_nat 1) with 2 in Hn.
    rewrite digits_fuel_S.
    assert (E : n / 10 = 0) by (apply Z.div_small; lia).
    rewrite E. cbn [Z.eqb]. apply Hone; lia.
  - rewrite digits_fuel_S. destruct (n / 10 =? 0) eqn:E.
    + apply Z.eqb_eq in E. apply Hone; lia.
    + apply Z.eqb_neq in E.
      assert (Hq : 0 < n / 10).
      { pose proof (Z.div_pos n 10). lia. }
      assert (Hb : 0 <= n / 10 < 2 ^ Z.of_nat (S fuel)).
      { split; [lia|].
        rewrite (Nat2Z.inj_succ (S fuel)), Z.pow_succ_r in Hn by lia.
        apply Z.div_lt_upper_bound; lia. }
      destruct (IH (n / 10) Hb) as (Hd & Hv & _ & Hh).
      rewrite digits_fuel_acc. split; [|split; [|split]].
      * apply Forall_app. split; [exact Hd|].
        constructor; [|constructor]. unfold isDigit.
        pose proof (Z.mod_pos_bound n 10). lia.
      * rewrite valueOf_snoc, Hv. pose proof (Z.div_mod n 10). lia.
      * intros ->. rewrite Z.div_0_l in Hq by lia. lia.
      * intros _. destruct (Hh Hq) as (d & more & Heq & Hpos).
        rewrite Heq. exists d, (more ++ [n mod 10]). split; [reflexivity | exact Hpos].
Qed.

Lemma digitsOf_spec n :
  0 <= n ->
  Forall isDigit (JS.digitsOf n) /\
  JS.valueOf (JS.digitsOf n) = n /\
  (n = 0 -> JS.digitsOf n = [0]) /\
  (0 < n -> exists d more, JS.digitsOf n = d :: more /\ 0 < d).
Proof.
  intros Hn. unfold JS.digitsOf. apply digits_fuel_spec.
  split; [exact Hn|].
  destruct (Z.eq_dec n 0) as [->|Hne]; [cbn; lia|].
  rewrite Nat2Z.inj_succ, Z2Nat.id by apply Z.log2_nonneg.
  apply Z.log2_spec. lia.
Qed.

Lemma string_of_Z_digits n :
  JS.string_of_Z n
  = if n <? 0 then String (ascii_of_nat 45) (JS.digitString (JS.digitsOf (- n)))
    else JS.digitString (JS.digitsOf n).
Proof.
  unfold JS.string_of_Z, JS.digitsOf.
  destruct (n <? 0); rewrite string_of_pos_fuel_digits.
  - generalize (JS.digits_fuel (S (Z.to_nat (Z.log2 (- n)))) (- n) []). intros l.
    change ("-" +:+ JS.digitString l +:+ EmptyString)
      with (String (ascii_of_nat 45) (JS.digitString l +:+ EmptyString)).
    f_equal. apply append_empty.
  - apply append_empty.
Qed.

(** *** Numbers *)

Lemma pow10_pos k : 0 <= k -> 0 < 10 ^ k.
Proof. intros H. apply Z.pow_pos_nonneg; lia. Qed.

Lemma pos_pow10 k : 0 <= k -> Z.pos (Z.to_pos (10 ^ k)) = 10 ^ k.
Proof. intros H. apply Z2Pos.id, pow10_pos, H. Qed.

(** [scale10 m e] with its denominator cleared by [10^k]. *)
Lemma scale10_num m e k :
  0 <= k -> 0 <= e + k ->
  (JS.scale10 m e == (m * 10 ^ (e + k)) # Z.to_pos (10 ^ k))%Q.
Proof.
  intros Hk He. unfold JS.scale10. destruct (0 <=? e) eqn:E.
  - apply Z.leb_le in E. unfold Qeq, inject_Z. cbn [Qnum Qden].
    rewrite pos_pow10 by exact Hk. rewrite Z.pow_add_r by lia. lia.
  - apply Z.leb_gt in E. unfold Qeq. cbn [Qnum Qden].
    rewrite !pos_pow10 by lia.
    rewrite <- Z.mul_assoc, <- Z.pow_add_r by lia.
    replace (e + k + - e) with k by lia. reflexivity.
Qed.

Lemma scale10_eq m e m' e' k :
  0 <= k -> 0 <= e + k -> 0 <= e' + k ->
  m * 10 ^ (e + k) = m' * 10 ^ (e' + k) ->
  (JS.scale10 m e == JS.scale10 m' e')%Q.
Proof.
  intros Hk He He' H.
  rewrite (scale10_num m e k), (scale10_num m' e' k) by assumption.
  rewrite H. reflexivity.
Qed.

Lemma scale10_shift m e j :
  0 <= j -> (JS.scale10 (m * 10 ^ j) (e - j) == JS.scale10 m e)%Q.
Proof.
  intros Hj. apply (scale10_eq _ _ _ _ (Z.abs e + j)); try lia.
  rewrite <- Z.mul_assoc, <- Z.pow_add_r by lia. f_equal. f_equal. lia.
Qed.

Lemma digitChar_not_minus d :
  isDigit d -> (nat_of_ascii (JS.digitChar d) =? 45)%nat = false.
Proof.
  intros [H0 H9].
  assert (H : d = 0 \/ d = 1 \/ d = 2 \/ d = 3 \/ d = 4 \/ d = 5 \/ d = 6 \/ d = 7 \/
              d = 8 \/ d = 9) by lia.
  repeat (destruct H as [->|H]; [reflexivity|]). subst d. reflexivity.
Qed.

(** A text that starts with an integer part. *)
Lemma parseNumber_digits d more tail :
  Forall isDigit (d :: more) ->
  (d = 0 -> more = []) ->
  JS.spanDigits tail = ([], tail) ->
  JS.parseNumber (JS.digitString (d :: more) +:+ tail)
  = match JS.parseFraction tail with
    | None => None
    | Some (frac, s3) =>
        match JS.parseExponent s3 with
        | None => None
        | Some (e, s4) =>
            Some (JS.scale10 (JS.valueOf ((d :: more) ++ frac))
                             (e - Z.of_nat (length frac)), s4)
        end
    end.
Proof.
  intros Hds Hzero Htail.
  pose proof (spanDigits_digitString (d :: more) tail Hds Htail) as Hspan.
  unfold JS.parseNumber.
  cbn [JS.digitString] in *. rewrite append_cons in *.
  rewrite (digitChar_not_minus d) by (inversion Hds; assumption).
  rewrite Hspan.
  destruct (d =? 0) eqn:E.
  - apply Z.eqb_eq in E. rewrite (Hzero E). reflexivity.
  - reflexivity.
Qed.

Lemma parseNumber_minus d more tail :
  isDigit d ->
  JS.parseNumber (String (ascii_of_nat 45) (JS.digitString (d :: more) +:+ tail))
  = match JS.parseNumber (JS.digitString (d :: more) +:+ tail) with
    | Some (q, rest) => Some ((- q)%Q, rest)
    | None => None
    end.
Proof.
  intros Hd. unfold JS.parseNumber.
  cbn [JS.digitString]. rewrite append_cons.
  change (nat_of_ascii (ascii_of_nat 45) =? 45)%nat with true. cbn match.
  rewrite (digitChar_not_minus d Hd).
  destruct (JS.spanDigits _) as [int s2]. destruct int as [|i int']; [reflexivity|].
  destruct ((i =? 0) && _); [reflexivity|].
  destruct (JS.parseFraction s2) as [[frac s3]|]; [|reflexivity].
  destruct (JS.parseExponent s3) as [[e s4]|]; reflexivity.
Qed.

Lemma parseFraction_stops rest :
  stops rest = true -> JS.parseFraction rest = Some ([], rest).
Proof.
  intros H. destruct (stops_cases rest H) as [->|(c & tail & -> & [->|[->| ->]])];
    reflexivity.
Qed.

Lemma parseExponent_stops rest :
  stops rest = true -> JS.parseExponent rest = Some (0, rest).
Proof.
  intros H. destruct (stops_cases rest H) as [->|(c & tail & -> & [->|[->| ->]])];
    reflexivity.
Qed.

Lemma parseFraction_dot frac tail :
  frac <> [] -> Forall isDigit frac ->
  JS.spanDigits tail = ([], tail) ->
  JS.parseFraction ("." +:+ JS.digitString frac +:+ tail) = Some (frac, tail).
Proof.
  intros Hne Hds Htail.
  change ("." +:+ JS.digitString frac +:+ tail)
    with (String (ascii_of_nat 46) (JS.digitString frac +:+ tail)).
  unfold JS.parseFraction.
  change (nat_of_ascii (ascii_of_nat 46) =? 46)%nat with true. cbn match.
  rewrite (spanDigits_digitString frac tail Hds Htail).
  destruct frac; [contradiction|reflexivity].
Qed.

Lemma parseFraction_exponent tail :
  JS.parseFraction (String (ascii_of_nat 101) tail)
  = Some ([], String (ascii_of_nat 101) tail).
Proof. reflexivity. Qed.

Lemma spanDigits_exponent tail :
  JS.spanDigits (String (ascii_of_nat 101) tail) = ([], String (ascii_of_nat 101) tail).
Proof. reflexivity. Qed.

Lemma spanDigits_dot tail :
  JS.spanDigits (String (ascii_of_nat 46) tail) = ([], String (ascii_of_nat 46) tail).
Proof. reflexivity. Qed.

(** The exponent part [e+x] or [e-x]. *)
Lemma parseExponent_text x rest :
  stops rest = true ->
  JS.parseExponent
    ("e" +:+ (if x <? 0 then "-" else "+") +:+ JS.digitString (JS.digitsOf (Z.abs x)) +:+ rest)
  = Some (x, rest).
Proof.
  intros Hrest.
  destruct (digitsOf_spec (Z.abs x) (Z.abs_nonneg x)) as (Hds & Hv & _ & _).
  pose proof (spanDigits_digitString _ rest Hds (stops_no_digit rest Hrest)) as Hspan.
  destruct (x <? 0) eqn:E.
  - change ("e" +:+ "-" +:+ JS.digitString (JS.digitsOf (Z.abs x)) +:+ rest)
      with (String (ascii_of_nat 101)
              (String (ascii_of_nat 45) (JS.digitString (JS.digitsOf (Z.abs x)) +:+ rest))).
    unfold JS.parseExponent, JS.parseSign.
    change (nat_of_ascii (ascii_of_nat 101) =? 101)%nat with true.
    change (nat_of_ascii (ascii_of_nat 45) =? 45)%nat with true.
    cbn [orb]. cbn match. rewrite Hspan.
    destruct (JS.digitsOf (Z.abs x)) as [|d more] eqn:Eds.
    + destruct (Z.eq_dec (Z.abs x) 0) as [H0|H0].
      * apply Z.ltb_lt in E. lia.
      * destruct (digitsOf_spec (Z.abs x) (Z.abs_nonneg x)) as (_ & _ & _ & Hh).
        destruct Hh as (d & more & Heq & _); [lia|]. congruence.
    + rewrite Hv. apply Z.ltb_lt in E. f_equal. f_equal. lia.
  - change ("e" +:+ "+" +:+ JS.digitString (JS.digitsOf (Z.abs x)) +:+ rest)
      with (String (ascii_of_nat 101)
              (String (ascii_of_nat 43) (JS.digitString (JS.digitsOf (Z.abs x)) +:+ rest))).
    unfold JS.parseExponent, JS.parseSign.
    change (nat_of_ascii (ascii_of_nat 101) =? 101)%nat with true.
    change (nat_of_ascii (ascii_of_nat 43) =? 45)%nat with false.
    change (nat_of_ascii (ascii_of_nat 43) =? 43)%nat with true.
    cbn [orb]. cbn match. rewrite Hspan.
    destruct (JS.digitsOf (Z.abs x)) as [|d more] eqn:Eds.
    + destruct (digitsOf_spec (Z.abs x) (Z.abs_nonneg x)) as (_ & _ & H0 & Hh).
      destruct (Z.eq_dec (Z.abs x) 0) as [Hz|Hz].
      * rewrite (H0 Hz) in Eds. discriminate Eds.
      * destruct Hh as (d & more & Heq & _); [lia|]. congruence.
    + rewrite Hv. apply Z.ltb_ge in E. f_equal. f_equal. lia.
Qed.

Lemma ofQ_integer q n : (q == inject_Z n)%Q -> JS.ofQ q = JS.JNum n.
Proof.
  unfold Qeq, inject_Z, JS.ofQ. cbn [Qnum Qden]. intros H.
  rewrite Z.mul_1_r in H. rewrite H, Z.mod_mul, Z.div_mul by lia. reflexivity.
Qed.

Lemma scale10_zero m : (JS.scale10 m 0 == inject_Z m)%Q.
Proof.
  unfold JS.scale10. change (0 <=? 0) with true. cbn match.
  change (10 ^ 0) with 1. rewrite Z.mul_1_r. reflexivity.
Qed.

(** An integer in decimal digits. *)
Lemma parseNumber_integer n rest :
  stops rest = true ->
  exists q, JS.parseNumber (JS.string_of_Z n +:+ rest) = Some (q, rest) /\
            JS.ofQ q = JS.JNum n.
Proof.
  intros Hrest. rewrite string_of_Z_digits.
  assert (Hkey : forall k, 0 <= k ->
            JS.parseNumber (JS.digitString (JS.digitsOf k) +:+ rest)
            = Some (JS.scale10 (JS.valueOf (JS.digitsOf k ++ [])) (0 - 0), rest) /\
            exists d more, JS.digitsOf k = d :: more /\ isDigit d).
  { intros k Hk.
    destruct (digitsOf_spec k Hk) as (Hds & Hv & H0 & Hh).
    assert (Hshape : exists d more, JS.digitsOf k = d :: more /\ (d = 0 -> more = [])).
    { destruct (Z.eq_dec k 0) as [->|Hne].
      - exists 0, []. split; [apply H0; reflexivity | reflexivity].
      - destruct Hh as (d & more & Heq & Hpos); [lia|].
        exists d, more. split; [exact Heq | lia]. }
    destruct Hshape as (d & more & Heq & Hz).
    split.
    - rewrite Heq in *.
      rewrite (parseNumber_digits d more rest Hds Hz (stops_no_digit rest Hrest)).
      rewrite (parseFraction_stops rest Hrest), (parseExponent_stops rest Hrest).
      reflexivity.
    - exists d, more. split; [exact Heq|]. rewrite Heq in Hds. inversion Hds; assumption. }
  destruct (n <? 0) eqn:E.
  - apply Z.ltb_lt in E.
    destruct (Hkey (- n)) as (Hp & d & more & Heq & Hd); [lia|].
    destruct (digitsOf_spec (- n)) as (_ & Hv & _ & _); [lia|].
    rewrite append_cons. rewrite Heq in Hp |- *.
    rewrite (parseNumber_minus d more rest Hd), Hp.
    eexists. split; [reflexivity|].
    rewrite <- Heq, app_nil_r, Hv. apply ofQ_integer.
    change (0 - 0) with 0. rewrite scale10_zero.
    unfold Qeq, Qopp, inject_Z. cbn [Qnum Qden]. lia.
  - apply Z.ltb_ge in E.
    destruct (Hkey n E) as (Hp & _).
    destruct (digitsOf_spec n E) as (_ & Hv & _ & _).
    rewrite Hp. eexists. split; [reflexivity|].
    rewrite app_nil_r, Hv. apply ofQ_integer.
    change (0 - 0) with 0. apply scale10_zero.
Qed.

Lemma valueOf_cons_zero ds : JS.valueOf (0 :: ds) = JS.valueOf ds.
Proof. reflexivity. Qed.

(** The four layouts of [Number::toString] read back as the number
    they render. *)
Lemma parseNumber_layout d more e rest :
  Forall isDigit (d :: more) -> 0 < d ->
  stops rest = true ->
  exists q,
    JS.parseNumber (JS.layout (d :: more) (Z.of_nat (length (d :: more)) + e) +:+ rest)
    = Some (q, rest) /\
    (q == JS.scale10 (JS.valueOf (d :: more)) e)%Q.
Proof.
  intros Hds Hd Hrest.
  assert (Hmore : Forall isDigit more) by (inversion Hds; assumption).
  pose proof (stops_no_digit rest Hrest) as Hspan.
  unfold JS.layout.
  set (L := Z.of_nat (length (d :: more))).
  assert (HL : L = 1 + Z.of_nat (length more)).
  { unfold L. cbn [length]. lia. }
  set (n := L + e).
  destruct ((L <=? n) && (n <=? 21)) eqn:C1.
  - (* digits followed by zeros *)
    apply andb_true_iff in C1. destruct C1 as [C1 _]. apply Z.leb_le in C1.
    change ((d :: more) ++ JS.zeros (Z.to_nat (n - L)))
      with (d :: (more ++ JS.zeros (Z.to_nat (n - L)))).
    rewrite (parseNumber_digits d (more ++ JS.zeros (Z.to_nat (n - L))) rest).
    + rewrite (parseFraction_stops rest Hrest), (parseExponent_stops rest Hrest).
      eexists. split; [reflexivity|].
      rewrite app_nil_r.
      change (d :: more ++ JS.zeros (Z.to_nat (n - L)))
        with ((d :: more) ++ JS.zeros (Z.to_nat (n - L))).
      rewrite valueOf_app, valueOf_zeros, zeros_length, Z.add_0_r.
      rewrite Z2Nat.id by lia.
      cbn [length]. apply (scale10_eq _ _ _ _ 0); try lia.
      change (0 - Z.of_nat 0 + 0) with 0. change (10 ^ 0) with 1.
      rewrite Z.mul_1_r, Z.add_0_r. f_equal. f_equal. lia.
    + constructor; [inversion Hds; assumption|].
      apply Forall_app. split; [exact Hmore | apply zeros_digits].
    + lia.
    + exact Hspan.
  - destruct ((0 <? n) && (n <=? 21)) eqn:C2.
    + (* a decimal point inside the digits *)
      apply andb_true_iff in C2. destruct C2 as [C2 C2']. apply Z.ltb_lt in C2.
      apply Z.leb_le in C2'.
      assert (Hn : n < L).
      { apply andb_false_iff in C1. destruct C1 as [C1|C1].
        - apply Z.leb_gt in C1. exact C1.
        - apply Z.leb_gt in C1. lia. }
      destruct (Z.to_nat n) as [|k] eqn:Ek; [lia|].
      cbn [firstn skipn].
      assert (Hk : (k < length more)%nat) by lia.
      assert (Hfrac : drop k more <> []).
      { intros Heq. apply (f_equal length) in Heq. rewrite length_drop in Heq.
        cbn in Heq. lia. }
      rewrite !append_assoc.
      rewrite (parseNumber_digits d (take k more)
                 ("." +:+ JS.digitString (drop k more) +:+ rest)).
      * rewrite (parseFraction_dot (drop k more) rest Hfrac).
        -- rewrite (parseExponent_stops rest Hrest).
           eexists. split; [reflexivity|].
           change ((d :: take k more) ++ drop k more)
             with (d :: (take k more ++ drop k more)).
           rewrite take_drop, length_drop.
           replace (0 - Z.of_nat (length more - k)) with e by lia. reflexivity.
        -- apply Forall_drop. exact Hmore.
        -- exact Hspan.
      * constructor; [inversion Hds; assumption|]. apply Forall_take. exact Hmore.
      * lia.
      * reflexivity.
    + destruct ((-6 <? n) && (n <=? 0)) eqn:C3.
      * (* zeros after the decimal point *)
        apply andb_true_iff in C3. destruct C3 as [_ C3]. apply Z.leb_le in C3.
        change ("0." +:+ JS.digitString (JS.zeros (Z.to_nat (- n)) ++ d :: more))
          with (JS.digitString [0] +:+ "." +:+
                JS.digitString (JS.zeros (Z.to_nat (- n)) ++ d :: more)).
        rewrite !append_assoc.
        rewrite (parseNumber_digits 0 []
                   ("." +:+ JS.digitString (JS.zeros (Z.to_nat (- n)) ++ d :: more)
                    +:+ rest)).
        -- rewrite (parseFraction_dot (JS.zeros (Z.to_nat (- n)) ++ d :: more) rest).
           ++ rewrite (parseExponent_stops rest Hrest).
              eexists. split; [reflexivity|].
              change ([0] ++ JS.zeros (Z.to_nat (- n)) ++ d :: more)
                with (0 :: (JS.zeros (Z.to_nat (- n)) ++ d :: more)).
              rewrite valueOf_cons_zero, valueOf_app, valueOf_zeros, Z.mul_0_l, Z.add_0_l.
              rewrite length_app, zeros_length.
              replace (0 - Z.of_nat (Z.to_nat (- n) + length (d :: more))) with e.
              ** reflexivity.
              ** rewrite Nat2Z.inj_add, Z2Nat.id by lia. fold L. lia.
           ++ intros Heq. apply (f_equal length) in Heq. rewrite length_app in Heq.
              cbn in Heq. lia.
           ++ apply Forall_app. split; [apply zeros_digits | exact Hds].
           ++ exact Hspan.
        -- constructor; [unfold isDigit; lia | constructor].
        -- reflexivity.
        -- reflexivity.
      * (* exponent notation *)
        destruct more as [|d' more'].
        -- change (JS.digitString [d] +:+ EmptyString +:+ "e" +:+
                   (if n - 1 <? 0 then "-" else "+") +:+
                   JS.digitString (JS.digitsOf (Z.abs (n - 1))))
             with (JS.digitString [d] +:+ "e" +:+
                   (if n - 1 <? 0 then "-" else "+") +:+
                   JS.digitString (JS.digitsOf (Z.abs (n - 1)))).
           rewrite !append_assoc.
           rewrite (parseNumber_digits d []
                      ("e" +:+ (if n - 1 <? 0 then "-" else "+") +:+
                       JS.digitString (JS.digitsOf (Z.abs (n - 1))) +:+ rest)).
           ++ change (JS.parseFraction
                        ("e" +:+ (if n - 1 <? 0 then "-" else "+") +:+
                         JS.digitString (JS.digitsOf (Z.abs (n - 1))) +:+ rest))
                with (Some (@nil Z,
                            "e" +:+ (if n - 1 <? 0 then "-" else "+") +:+
                            JS.digitString (JS.digitsOf (Z.abs (n - 1))) +:+ rest)).
              cbv beta iota.
              rewrite (parseExponent_text (n - 1) rest Hrest).
              eexists. split; [reflexivity|].
              rewrite app_nil_r. cbn [length].
              replace (n - 1 - Z.of_nat 0) with e by (cbn in HL; lia). reflexivity.
           ++ exact Hds.
           ++ lia.
           ++ reflexivity.
        -- rewrite !append_assoc.
           rewrite (parseNumber_digits d []
                      ("." +:+ JS.digitString (d' :: more') +:+ "e" +:+
                       (if n - 1 <? 0 then "-" else "+") +:+
                       JS.digitString (JS.digitsOf (Z.abs (n - 1))) +:+ rest)).
           ++ rewrite (parseFraction_dot (d' :: more')
                         ("e" +:+ (if n - 1 <? 0 then "-" else "+") +:+
                          JS.digitString (JS.digitsOf (Z.abs (n - 1))) +:+ rest)).
              ** rewrite (parseExponent_text (n - 1) rest Hrest).
                 eexists. split; [reflexivity|].
                 change ([d] ++ d' :: more') with (d :: d' :: more').
                 replace (n - 1 - Z.of_nat (length (d' :: more'))) with e by lia.
                 reflexivity.
              ** discriminate.
              ** exact Hmore.
              ** reflexivity.
           ++ constructor; [inversion Hds; assumption | constructor].
           ++ lia.
           ++ reflexivity.
Qed.

Lemma parseNumber_negated u :
  match u with
  | String c _ => (nat_of_ascii c =? 45)%nat = false
  | EmptyString => True
  end ->
  JS.parseNumber (String (ascii_of_nat 45) u)
  = match JS.parseNumber u with
    | Some (q, rest) => Some ((- q)%Q, rest)
    | None => None
    end.
Proof.
  intros Hu. unfold JS.parseNumber.
  change (nat_of_ascii (ascii_of_nat 45) =? 45)%nat with true. cbv beta iota.
  destruct u as [|c u']; [reflexivity|]. rewrite Hu.
  destruct (JS.spanDigits _) as [int s2]. destruct int as [|i int']; [reflexivity|].
  destruct ((i =? 0) && _); [reflexivity|].
  destruct (JS.parseFraction s2) as [[frac s3]|]; [|reflexivity].
  destruct (JS.parseExponent s3) as [[e s4]|]; reflexivity.
Qed.

Lemma layout_head d more n rest :
  isDigit d ->
  match JS.layout (d :: more) n +:+ rest with
  | String c _ => (nat_of_ascii c =? 45)%nat = false
  | EmptyString => True
  end.
Proof.
  intros Hd. unfold JS.layout.
  destruct ((Z.of_nat (length (d :: more)) <=? n) && (n <=? 21)).
  - cbn [app JS.digitString]. rewrite append_cons. apply digitChar_not_minus, Hd.
  - destruct ((0 <? n) && (n <=? 21)).
    + destruct (Z.to_nat n); cbn [firstn JS.digitString].
      * reflexivity.
      * rewrite append_cons. apply digitChar_not_minus, Hd.
    + destruct ((-6 <? n) && (n <=? 0)); [reflexivity|].
      cbn [JS.digitString]. rewrite !append_cons. apply digitChar_not_minus, Hd.
Qed.

Lemma layout_start d more n rest :
  isDigit d ->
  exists c t, JS.layout (d :: more) n +:+ rest = String c t /\ numberStart c.
Proof.
  intros Hd. unfold JS.layout.
  assert (Hstart : numberStart (JS.digitChar d)) by (right; exists d; split; auto).
  assert (Hzero : numberStart (ascii_of_nat 48)).
  { right. exists 0. split; [unfold isDigit; lia | reflexivity]. }
  destruct ((Z.of_nat (length (d :: more)) <=? n) && (n <=? 21)).
  - eexists _, _. split; [apply append_cons | exact Hstart].
  - destruct ((0 <? n) && (n <=? 21)) eqn:C2.
    + apply andb_true_iff in C2. destruct C2 as [C2 _]. apply Z.ltb_lt in C2.
      destruct (Z.to_nat n) as [|k] eqn:Ek; [lia|]. cbn [firstn JS.digitString].
      eexists _, _. split; [apply append_cons | exact Hstart].
    + destruct ((-6 <? n) && (n <=? 0)).
      * eexists _, _. split; [reflexivity | exact Hzero].
      * eexists _, _. split; [cbn [JS.digitString]; rewrite !append_cons; reflexivity|].
        exact Hstart.
Qed.

Lemma placesFrom_divides fuel : forall k b j,
  JS.placesFrom fuel k b = Some j -> (10 ^ Z.of_nat j) mod b = 0.
Proof.
  induction fuel as [|fuel IH]; intros k b j H; [discriminate H|].
  cbn [JS.placesFrom] in H.
  destruct (10 ^ Z.of_nat k mod b =? 0) eqn:E.
  - inversion H; subst. apply Z.eqb_eq, E.
  - apply (IH _ _ _ H).
Qed.

Lemma stripZeros_spec fuel : forall m e m' e',
  0 < m ->
  JS.stripZeros fuel m e = (m', e') ->
  0 < m' /\ (JS.scale10 m' e' == JS.scale10 m e)%Q.
Proof.
  induction fuel as [|fuel IH]; intros m e m' e' Hm H.
  - inversion H; subst. split; [exact Hm | reflexivity].
  - cbn [JS.stripZeros] in H.
    destruct (m =? 0) eqn:E0; [apply Z.eqb_eq in E0; lia|].
    destruct (m mod 10 =? 0) eqn:E.
    + apply Z.eqb_eq in E.
      assert (Hdiv : m = m / 10 * 10) by (pose proof (Z.div_mod m 10); lia).
      destruct (IH (m / 10) (e + 1) m' e') as [Hpos Heq]; [lia | exact H |].
      split; [exact Hpos|]. rewrite Heq.
      rewrite <- (scale10_shift (m / 10) (e + 1) 1) by lia.
      change (10 ^ 1) with 10. rewrite <- Hdiv.
      replace (e + 1 - 1) with e by lia. reflexivity.
    + inversion H; subst. split; [exact Hm | reflexivity].
Qed.

Lemma isFraction_spec r :
  isFraction r = true ->
  Qred r = r /\ Qnum r mod Z.pos (Qden r) <> 0 /\
  exists k, JS.decimalPlaces (Qden r) = Some k.
Proof.
  unfold isFraction, hasNumeral. rewrite !andb_true_iff.
  intros [[[Hn Hd] Hi] Hp].
  apply Z.eqb_eq in Hn, Hd.
  assert (Hr : Qred r = r).
  { destruct (Qred r) as [a b], r as [a' b']. cbn in Hn, Hd. congruence. }
  rewrite Hr in Hp. split; [exact Hr|]. split.
  - apply negb_true_iff, Z.eqb_neq in Hi. exact Hi.
  - destruct (JS.decimalPlaces (Qden r)) as [k|]; [exists k; reflexivity | discriminate Hp].
Qed.

(** The text of a number with a fractional part: a sign and the layout
    of digits that render its absolute value. *)
Lemma Number_toString_shape r :
  isFraction r = true ->
  exists d more e,
    Forall isDigit (d :: more) /\ 0 < d /\
    JS.Number_toString r
    = (if Qnum r <? 0 then "-" else EmptyString)
      +:+ JS.layout (d :: more) (Z.of_nat (length (d :: more)) + e) /\
    (JS.scale10 (JS.valueOf (d :: more)) e == Z.abs (Qnum r) # Qden r)%Q.
Proof.
  intros Hr.
  destruct (isFraction_spec r Hr) as (Hred & Hint & k & Hk).
  assert (Ha : 0 < Z.abs (Qnum r)).
  { destruct (Z.eq_dec (Qnum r) 0) as [H0|H0]; [|lia].
    rewrite H0, Z.mod_0_l in Hint by lia. contradiction. }
  pose proof (placesFrom_divides _ _ _ _ Hk) as Hdiv.
  assert (Hquot : 10 ^ Z.of_nat k = 10 ^ Z.of_nat k / Z.pos (Qden r) * Z.pos (Qden r)).
  { pose proof (Z.div_mod (10 ^ Z.of_nat k) (Z.pos (Qden r))). lia. }
  assert (Hqpos : 0 < 10 ^ Z.of_nat k / Z.pos (Qden r)).
  { pose proof (pow10_pos (Z.of_nat k)). nia. }
  unfold JS.Number_toString. rewrite Hred. unfold JS.decimalOf. rewrite Hk.
  set (m0 := Z.abs (Qnum r) * (10 ^ Z.of_nat k / Z.pos (Qden r))).
  assert (Hm0 : 0 < m0) by (unfold m0; nia).
  destruct (JS.stripZeros (S (Z.to_nat (Z.log2 m0))) m0 (- Z.of_nat k)) as [m e] eqn:Es.
  destruct (stripZeros_spec _ _ _ _ _ Hm0 Es) as [Hm Hscale].
  destruct (digitsOf_spec m) as (Hds & Hv & _ & Hh); [lia|].
  destruct (Hh Hm) as (d & more & Heq & Hd).
  rewrite Heq in *.
  exists d, more, e. split; [exact Hds|]. split; [exact Hd|]. split; [reflexivity|].
  rewrite Hv, Hscale.
  rewrite (scale10_num m0 (- Z.of_nat k) (Z.of_nat k)) by lia.
  replace (- Z.of_nat k + Z.of_nat k) with 0 by lia.
  unfold Qeq. cbn [Qnum Qden]. rewrite pos_pow10 by lia.
  change (10 ^ 0) with 1. unfold m0. rewrite Hquot at 2. lia.
Qed.

Lemma Number_toString_head r rest :
  isFraction r = true ->
  exists c t, JS.Number_toString r +:+ rest = String c t /\ numberStart c.
Proof.
  intros Hr. destruct (Number_toString_shape r Hr) as (d & more & e & Hds & _ & -> & _).
  assert (Hdd : isDigit d) by (inversion Hds; assumption).
  destruct (Qnum r <? 0).
  - eexists _, _. split; [reflexivity | left; reflexivity].
  - rewrite append_nil. apply layout_start, Hdd.
Qed.

(** The text of a number with a fractional part reads back as the
    number. *)
Lemma parseNumber_fraction r rest :
  isFraction r = true ->
  stops rest = true ->
  exists q, JS.parseNumber (JS.Number_toString r +:+ rest) = Some (q, rest) /\
            JS.ofQ q = JS.JFrac r.
Proof.
  intros Hr Hrest.
  destruct (isFraction_spec r Hr) as (Hred & Hint & _).
  destruct (Number_toString_shape r Hr) as (d & more & e & Hds & Hd & -> & Habs0).
  assert (Hdd : isDigit d) by (inversion Hds; assumption).
  destruct (parseNumber_layout d more e rest Hds Hd Hrest) as (q & Hq & Hqv).
  assert (Habs : (q == Z.abs (Qnum r) # Qden r)%Q) by (rewrite Hqv; exact Habs0).
  assert (Hfinal : forall q', (q' == r)%Q -> JS.ofQ q' = JS.JFrac r).
  { intros q' Heq'. unfold JS.ofQ.
    destruct (Qnum q' mod Z.pos (Qden q') =? 0) eqn:E.
    - exfalso. apply Hint. apply Z.eqb_eq in E.
      unfold Qeq in Heq'.
      assert (Hc : Qnum q' = Qnum q' / Z.pos (Qden q') * Z.pos (Qden q')).
      { pose proof (Z.div_mod (Qnum q') (Z.pos (Qden q'))). lia. }
      assert (Hn : Qnum r = Qnum q' / Z.pos (Qden q') * Z.pos (Qden r)).
      { apply (Z.mul_reg_r _ _ (Z.pos (Qden q'))); [lia|].
        rewrite <- Heq'. rewrite Hc at 1. lia. }
      rewrite Hn. apply Z.mod_mul. lia.
    - f_equal. rewrite <- Hred. apply Qred_complete, Heq'. }
  destruct (Qnum r <? 0) eqn:Eneg.
  - change ("-" +:+ JS.layout (d :: more) (Z.of_nat (length (d :: more)) + e))
      with (String (ascii_of_nat 45)
              (JS.layout (d :: more) (Z.of_nat (length (d :: more)) + e))).
    rewrite append_cons.
    rewrite parseNumber_negated by (apply layout_head, Hdd).
    rewrite Hq. eexists. split; [reflexivity|].
    apply Hfinal. rewrite Habs.
    apply Z.ltb_lt in Eneg. unfold Qeq, Qopp. cbn [Qnum Qden]. lia.
  - rewrite append_nil.
    rewrite Hq. eexists. split; [reflexivity|].
    apply Hfinal. rewrite Habs.
    apply Z.ltb_ge in Eneg. unfold Qeq. cbn [Qnum Qden]. lia.
Qed.

(** *** Values *)

Lemma JSON_induction (P : JS.JSON -> Prop) :
  P JS.JNull ->
  (forall b, P (JS.JBool b)) ->
  (forall n, P (JS.JNum n)) ->
  (forall s, P (JS.JStr s)) ->
  (forall items, Forall P items -> P (JS.JArr items)) ->
  (forall fields, Forall (fun kv => P (snd kv)) fields -> P (JS.JObj fields)) ->
  (forall q, P (JS.JFrac q)) ->
  P JS.JNaN ->
  (forall b, P (JS.JInfinity b)) ->
  (forall s, P (JS.JDate s)) ->
  forall v, P v.
Proof.
  intros Hnull Hbool Hnum Hstr Harr Hobj Hfrac Hnan Hinf Hdate.
  fix IH 1. intros [ | b | n | s | items | fields | q | | b | s ].
  - exact Hnull.
  - apply Hbool.
  - apply Hnum.
  - apply Hstr.
  - apply Harr. induction items as [|x xs IHxs]; constructor; [apply IH | exact IHxs].
  - apply Hobj. induction fields as [|[k x] xs IHxs]; constructor; [apply IH | exact IHxs].
  - apply Hfrac.
  - exact Hnan.
  - apply Hinf.
  - apply Hdate.
Qed.

Lemma numberStart_dispatch c :
  numberStart c ->
  JS.isWhitespace c = false /\
  (nat_of_ascii c =? 110)%nat = false /\ (nat_of_ascii c =? 116)%nat = false /\
  (nat_of_ascii c =? 102)%nat = false /\ (nat_of_ascii c =? 34)%nat = false /\
  (nat_of_ascii c =? 91)%nat = false /\ (nat_of_ascii c =? 123)%nat = false /\
  (nat_of_ascii c =? 93)%nat = false.
Proof.
  intros [->|(d & [H0 H9] & ->)]; [repeat split|].
  assert (H : d = 0 \/ d = 1 \/ d = 2 \/ d = 3 \/ d = 4 \/ d = 5 \/ d = 6 \/ d = 7 \/
              d = 8 \/ d = 9) by lia.
  repeat (destruct H as [->|H]; [repeat split|]). subst d. repeat split.
Qed.

Lemma parseValue_number fuel c t :
  numberStart c ->
  JS.parseValue (S fuel) (String c t)
  = match JS.parseNumber (String c t) with
    | Some (q, rest') => Some (JS.ofQ q, rest')
    | None => None
    end.
Proof.
  intros Hc. destruct (numberStart_dispatch c Hc) as (Hw & H1 & H2 & H3 & H4 & H5 & H6 & _).
  cbn [JS.parseValue JS.skipWhitespace]. rewrite Hw. cbv beta iota zeta.
  rewrite H1, H2, H3, H4, H5, H6. reflexivity.
Qed.

Lemma string_of_Z_head n rest :
  exists c t, JS.string_of_Z n +:+ rest = String c t /\ numberStart c.
Proof.
  rewrite string_of_Z_digits. destruct (n <? 0) eqn:E.
  - eexists _, _. split; [apply append_cons | left; reflexivity].
  - apply Z.ltb_ge in E. destruct (digitsOf_spec n E) as (Hds & _ & H0 & Hh).
    destruct (Z.eq_dec n 0) as [->|Hne].
    + rewrite (H0 eq_refl). eexists _, _. split; [apply append_cons|].
      right. exists 0. split; [unfold isDigit; lia | reflexivity].
    + destruct Hh as (d & more & Heq & Hd); [lia|].
      rewrite Heq in *. eexists _, _. split; [apply append_cons|].
      right. exists d. split; [inversion Hds; assumption | reflexivity].
Qed.


Lemma stringify_arr items :
  JS.JSON_stringify (JS.JArr items)
  = "[" +:+ JS.join "," (List.map JS.JSON_stringify items) +:+ "]".
Proof. reflexivity. Qed.

Lemma stringify_obj fields :
  JS.JSON_stringify (JS.JObj fields)
  = "{" +:+
    JS.join ","
      (List.map (fun kv => JS.json_quote (fst kv) +:+ ":" +:+ JS.JSON_stringify (snd kv))
                fields) +:+
    "}".
Proof. reflexivity. Qed.

Lemma join_cons sep (x : string) l :
  l <> [] -> JS.join sep (x :: l) = x +:+ sep +:+ JS.join sep l.
Proof. intros H. destruct l; [contradiction | reflexivity]. Qed.

Lemma join_one sep (x : string) : JS.join sep [x] = x.
Proof. reflexivity. Qed.

Lemma parseElements_S fuel s :
  JS.parseElements (S fuel) s
  = match JS.parseValue fuel s with
    | None => None
    | Some (v, s1) =>
        match JS.skipWhitespace s1 with
        | String c rest =>
            if (nat_of_ascii c =? 44)%nat then
              match JS.parseElements fuel rest with
              | Some (vs, rest') => Some (v :: vs, rest')
              | None => None
              end
            else if (nat_of_ascii c =? 93)%nat then Some ([v], rest)
            else None
        | EmptyString => None
        end
    end.
Proof. reflexivity. Qed.

Lemma parseMembers_quote fuel t :
  JS.parseMembers (S fuel) (String (ascii_of_nat 34) t)
  = match JS.parseStringBody t with
    | None => None
    | Some (k, s1) =>
        match JS.skipWhitespace s1 with
        | String colon s2 =>
            if (nat_of_ascii colon =? 58)%nat then
              match JS.parseValue fuel s2 with
              | None => None
              | Some (v, s3) =>
                  match JS.skipWhitespace s3 with
                  | String c rest =>
                      if (nat_of_ascii c =? 44)%nat then
                        match JS.parseMembers fuel rest with
                        | Some (kvs, rest') => Some ((k, v) :: kvs, rest')
                        | None => None
                        end
                      else if (nat_of_ascii c =? 125)%nat then Some ([(k, v)], rest)
                      else None
                  | EmptyString => None
                  end
              end
            else None
        | EmptyString => None
        end
    end.
Proof. reflexivity. Qed.

Lemma parseValue_bracket fuel t :
  JS.parseValue (S fuel) (String (ascii_of_nat 91) t)
  = match JS.skipWhitespace t with
    | String c' rest' =>
        if (nat_of_ascii c' =? 93)%nat then Some (JS.JArr [], rest')
        else
          match JS.parseElements fuel (String c' rest') with
          | Some (items, rest'') => Some (JS.JArr items, rest'')
          | None => None
          end
    | EmptyString => None
    end.
Proof. reflexivity. Qed.

Lemma parseValue_brace fuel t :
  JS.parseValue (S fuel) (String (ascii_of_nat 123) t)
  = match JS.skipWhitespace t with
    | String c' rest' =>
        if (nat_of_ascii c' =? 125)%nat then Some (JS.JObj [], rest')
        else
          match JS.parseMembers fuel (String c' rest') with
          | Some (members, rest'') => Some (JS.JObj (JS.mergeMembers members), rest'')
          | None => None
          end
    | EmptyString => None
    end.
Proof. reflexivity. Qed.

Lemma parseValue_quote fuel t :
  JS.parseValue (S fuel) (String (ascii_of_nat 34) t)
  = match JS.parseStringBody t with
    | Some (str, rest') => Some (JS.JStr str, rest')
    | None => None
    end.
Proof. reflexivity. Qed.

(** The text of plain data starts with a character that is neither
    white space nor a closing bracket. *)
Lemma stringify_head v tail :
  plainData v = true ->
  exists c t, JS.JSON_stringify v +:+ tail = String c t /\
              JS.isWhitespace c = false /\ (nat_of_ascii c =? 93)%nat = false.
Proof.
  intros Hv.
  assert (Hnum : forall c, numberStart c ->
            JS.isWhitespace c = false /\ (nat_of_ascii c =? 93)%nat = false).
  { intros c Hc. destruct (numberStart_dispatch c Hc) as (Hw & _ & _ & _ & _ & _ & _ & H).
    split; assumption. }
  destruct v as [ | [|] | n | s | items | fields | q | | b | s ]; try discriminate Hv.
  - eexists _, _. split; [reflexivity | split; reflexivity].
  - eexists _, _. split; [reflexivity | split; reflexivity].
  - eexists _, _. split; [reflexivity | split; reflexivity].
  - destruct (string_of_Z_head n tail) as (c & t & Heq & Hc).
    exists c, t. split; [exact Heq | apply Hnum, Hc].
  - eexists _, _. split; [apply json_quote_cons | split; reflexivity].
  - rewrite stringify_arr. eexists _, _. split; [reflexivity | split; reflexivity].
  - rewrite stringify_obj. eexists _, _. split; [reflexivity | split; reflexivity].
  - destruct (Number_toString_head q tail Hv) as (c & t & Heq & Hc).
    exists c, t. split; [exact Heq | apply Hnum, Hc].
Qed.

Lemma setProp_fresh k v o :
  existsb (String.eqb k) (List.map fst o) = false ->
  JS.setProp k v o = o ++ [(k, v)].
Proof.
  induction o as [|[k' v'] o IH]; intros H; [reflexivity|].
  cbn in H. apply orb_false_iff in H. destruct H as [Hk Ho].
  cbn [JS.setProp]. rewrite Hk, (IH Ho). reflexivity.
Qed.

Lemma existsb_app_false {A} (f : A -> bool) l1 l2 :
  existsb f l1 = false -> existsb f l2 = false -> existsb f (l1 ++ l2) = false.
Proof. intros H1 H2. rewrite existsb_app, H1, H2. reflexivity. Qed.

Lemma mergeMembers_distinct fields :
  distinct (List.map fst fields) = true -> JS.mergeMembers fields = fields.
Proof.
  unfold JS.mergeMembers.
  assert (H : forall l acc,
            distinct (List.map fst l) = true ->
            (forall k, In k (List.map fst l) ->
                       existsb (String.eqb k) (List.map fst acc) = false) ->
            fold_left (fun o kv => JS.setProp (fst kv) (snd kv) o) l acc = acc ++ l).
  { induction l as [|[k v] l IH]; intros acc Hd Hfresh.
    - rewrite app_nil_r. reflexivity.
    - cbn [List.map fst distinct] in Hd. apply andb_true_iff in Hd.
      destruct Hd as [Hk Hd]. apply negb_true_iff in Hk.
      cbn [fold_left fst snd].
      rewrite setProp_fresh by (apply Hfresh; left; reflexivity).
      rewrite IH.
      + rewrite <- app_assoc. reflexivity.
      + exact Hd.
      + intros k' Hin. rewrite map_app. apply existsb_app_false.
        * apply Hfresh. right. exact Hin.
        * cbn. rewrite orb_false_r.
          destruct (String.eqb k' k) eqn:E; [|reflexivity].
          apply String.eqb_eq in E. subst k'.
          assert (Hex : existsb (String.eqb k) (List.map fst l) = true).
          { apply existsb_exists. exists k. split; [exact Hin | apply String.eqb_refl]. }
          congruence. }
  intros Hd. apply (H fields [] Hd). intros k _. reflexivity.
Qed.

(** The elements of an array after its opening bracket. *)
Lemma parseElements_join items :
  Forall (fun x =>
            plainData x = true ->
            forall fuel rest,
              (String.length (JS.JSON_stringify x) <= fuel)%nat ->
              stops rest = true ->
              JS.parseValue fuel (JS.JSON_stringify x +:+ rest) = Some (x, rest)) items ->
  forallb plainData items = true ->
  items <> [] ->
  forall fuel rest,
    (S (String.length (JS.join "," (List.map JS.JSON_stringify items))) <= fuel)%nat ->
    JS.parseElements fuel
      (JS.join "," (List.map JS.JSON_stringify items) +:+ "]" +:+ rest)
    = Some (items, rest).
Proof.
  induction 1 as [|x xs Hx Hxs IH]; intros Hplain Hne fuel rest Hfuel; [contradiction|].
  cbn [forallb] in Hplain. apply andb_true_iff in Hplain. destruct Hplain as [Hpx Hpxs].
  destruct fuel as [|fuel]; [lia|]. rewrite parseElements_S.
  destruct xs as [|y l].
  - cbn [List.map] in *. rewrite join_one in *.
    rewrite (Hx Hpx fuel ("]" +:+ rest)) by (try lia; reflexivity).
    reflexivity.
  - change (List.map JS.JSON_stringify (x :: y :: l))
      with (JS.JSON_stringify x :: List.map JS.JSON_stringify (y :: l)) in Hfuel |- *.
    rewrite join_cons in Hfuel |- * by discriminate.
    rewrite !length_append in Hfuel. rewrite !append_assoc.
    rewrite (Hx Hpx fuel ("," +:+ JS.join "," (List.map JS.JSON_stringify (y :: l))
                          +:+ "]" +:+ rest)) by (try lia; reflexivity).
    change (JS.skipWhitespace
              ("," +:+ JS.join "," (List.map JS.JSON_stringify (y :: l)) +:+ "]" +:+ rest))
      with (String (ascii_of_nat 44)
              (JS.join "," (List.map JS.JSON_stringify (y :: l)) +:+ "]" +:+ rest)).
    cbv beta iota.
    change (nat_of_ascii (ascii_of_nat 44) =? 44)%nat with true. cbv beta iota.
    rewrite (IH Hpxs).
    + reflexivity.
    + discriminate.
    + cbn [String.length] in Hfuel. lia.
Qed.

(** The members of an object after its opening brace. *)
Lemma parseMembers_join fields :
  Forall (fun kv =>
            plainData (snd kv) = true ->
            forall fuel rest,
              (String.length (JS.JSON_stringify (snd kv)) <= fuel)%nat ->
              stops rest = true ->
              JS.parseValue fuel (JS.JSON_stringify (snd kv) +:+ rest)
              = Some (snd kv, rest)) fields ->
  forallb (fun kv => plainData (snd kv)) fields = true ->
  fields <> [] ->
  forall fuel rest,
    (S (String.length
          (JS.join ","
             (List.map (fun kv => JS.json_quote (fst kv) +:+ ":" +:+
                                  JS.JSON_stringify (snd kv)) fields))) <= fuel)%nat ->
    JS.parseMembers fuel
      (JS.join ","
         (List.map (fun kv => JS.json_quote (fst kv) +:+ ":" +:+ JS.JSON_stringify (snd kv))
                   fields) +:+ "}" +:+ rest)
    = Some (fields, rest).
Proof.
  set (member := fun kv : string * JS.JSON =>
                   JS.json_quote (fst kv) +:+ ":" +:+ JS.JSON_stringify (snd kv)).
  induction 1 as [|[k x] xs Hx Hxs IH]; intros Hplain Hne fuel rest Hfuel; [contradiction|].
  cbn [forallb snd] in Hplain. apply andb_true_iff in Hplain.
  destruct Hplain as [Hpx Hpxs]. cbn [snd] in Hx.
  destruct fuel as [|fuel]; [lia|].
  assert (Hstep : forall tail,
            stops tail = true ->
            (String.length (member (k, x)) <= fuel)%nat ->
            JS.parseMembers (S fuel) (member (k, x) +:+ tail)
            = match JS.skipWhitespace tail with
              | String c rest' =>
                  if (nat_of_ascii c =? 44)%nat then
                    match JS.parseMembers fuel rest' with
                    | Some (kvs, rest'') => Some ((k, x) :: kvs, rest'')
                    | None => None
                    end
                  else if (nat_of_ascii c =? 125)%nat then Some ([(k, x)], rest')
                  else None
              | EmptyString => None
              end).
  { intros tail Htail Hlen. unfold member in Hlen |- *. cbn [fst snd] in Hlen |- *.
    rewrite !length_append in Hlen.
    rewrite !append_assoc, json_quote_cons, parseMembers_quote.
    rewrite parseStringBody_escape.
    change (JS.skipWhitespace (":" +:+ JS.JSON_stringify x +:+ tail))
      with (String (ascii_of_nat 58) (JS.JSON_stringify x +:+ tail)).
    cbv beta iota.
    change (nat_of_ascii (ascii_of_nat 58) =? 58)%nat with true. cbv beta iota.
    rewrite (Hx Hpx fuel tail) by (try lia; exact Htail). reflexivity. }
  destruct xs as [|y l].
  - cbn [List.map] in Hfuel |- *. rewrite join_one in Hfuel |- *.
    rewrite (Hstep ("}" +:+ rest)) by (try lia; reflexivity). reflexivity.
  - change (List.map member ((k, x) :: y :: l))
      with (member (k, x) :: List.map member (y :: l)) in Hfuel |- *.
    rewrite join_cons in Hfuel |- * by discriminate.
    rewrite !length_append in Hfuel. rewrite !append_assoc.
    rewrite (Hstep ("," +:+ JS.join "," (List.map member (y :: l)) +:+ "}" +:+ rest))
      by (try lia; reflexivity).
    change (JS.skipWhitespace
              ("," +:+ JS.join "," (List.map member (y :: l)) +:+ "}" +:+ rest))
      with (String (ascii_of_nat 44)
              (JS.join "," (List.map member (y :: l)) +:+ "}" +:+ rest)).
    cbv beta iota.
    change (nat_of_ascii (ascii_of_nat 44) =? 44)%nat with true. cbv beta iota.
    rewrite (IH Hpxs).
    + reflexivity.
    + discriminate.
    + cbn [String.length] in Hfuel. lia.
Qed.

(** Reading the text of plain data gives the data back, and leaves
    what follows the text. *)
Lemma parseValue_stringify v :
  plainData v = true ->
  forall fuel rest,
    (String.length (JS.JSON_stringify v) <= fuel)%nat ->
    stops rest = true ->
    JS.parseValue fuel (JS.JSON_stringify v +:+ rest) = Some (v, rest).
Proof.
  induction v as [ | b | n | s | items IH | fields IH | q | | b | s ] using JSON_induction;
    intros Hv fuel rest Hfuel Hrest; try discriminate Hv.
  - destruct fuel as [|fuel]; [cbn in Hfuel; lia | reflexivity].
  - destruct fuel as [|fuel]; [destruct b; cbn in Hfuel; lia|]. destruct b; reflexivity.
  - destruct (string_of_Z_head n rest) as (c & t & Heq & Hc).
    destruct fuel as [|fuel].
    { destruct (string_of_Z_head n EmptyString) as (c0 & t0 & Heq0 & _).
      rewrite append_empty in Heq0. cbn [JS.JSON_stringify] in Hfuel.
      rewrite Heq0 in Hfuel. cbn [String.length] in Hfuel. exfalso. lia. }
    cbn [JS.JSON_stringify]. rewrite Heq, (parseValue_number fuel c t Hc), <- Heq.
    destruct (parseNumber_integer n rest Hrest) as (q & -> & ->). reflexivity.
  - destruct fuel as [|fuel].
    { pose proof (json_quote_cons s EmptyString) as H. rewrite append_empty in H.
      cbn [JS.JSON_stringify] in Hfuel. rewrite H in Hfuel.
      cbn [String.length] in Hfuel. lia. }
    cbn [JS.JSON_stringify]. rewrite json_quote_cons, parseValue_quote.
    rewrite parseStringBody_escape. reflexivity.
  - rewrite stringify_arr in Hfuel |- *. cbn [plainData] in Hv.
    rewrite !length_append in Hfuel. cbn [String.length] in Hfuel.
    destruct fuel as [|fuel]; [lia|].
    rewrite !append_assoc.
    change ("[" +:+ JS.join "," (List.map JS.JSON_stringify items) +:+ "]" +:+ rest)
      with (String (ascii_of_nat 91)
              (JS.join "," (List.map JS.JSON_stringify items) +:+ "]" +:+ rest)).
    rewrite parseValue_bracket.
    destruct items as [|x xs]; [reflexivity|].
    pose proof Hv as Hx. cbn [forallb] in Hx. apply andb_true_iff in Hx.
    destruct Hx as [Hx _].
    assert (Hhead : exists c t,
              JS.join "," (List.map JS.JSON_stringify (x :: xs)) +:+ "]" +:+ rest
              = String c t /\
              JS.isWhitespace c = false /\ (nat_of_ascii c =? 93)%nat = false).
    { destruct xs as [|y l].
      - cbn [List.map]. rewrite join_one. apply stringify_head, Hx.
      - change (List.map JS.JSON_stringify (x :: y :: l))
          with (JS.JSON_stringify x :: List.map JS.JSON_stringify (y :: l)).
        rewrite join_cons by discriminate. rewrite append_assoc.
        apply stringify_head, Hx. }
    destruct Hhead as (c & t & Heq & Hw & Hb).
    rewrite Heq. cbn [JS.skipWhitespace]. rewrite Hw, Hb, <- Heq.
    rewrite (parseElements_join (x :: xs) IH Hv) by (try discriminate; lia).
    reflexivity.
  - rewrite stringify_obj in Hfuel |- *. cbn [plainData] in Hv.
    apply andb_true_iff in Hv. destruct Hv as [Hd Hv].
    rewrite !length_append in Hfuel. cbn [String.length] in Hfuel.
    destruct fuel as [|fuel]; [lia|].
    rewrite !append_assoc.
    set (member := fun kv : string * JS.JSON =>
                     JS.json_quote (fst kv) +:+ ":" +:+ JS.JSON_stringify (snd kv)) in *.
    change ("{" +:+ JS.join "," (List.map member fields) +:+ "}" +:+ rest)
      with (String (ascii_of_nat 123)
              (JS.join "," (List.map member fields) +:+ "}" +:+ rest)).
    rewrite parseValue_brace.
    destruct fields as [|[k x] xs]; [reflexivity|].
    assert (Hhead : exists t,
              JS.join "," (List.map member ((k, x) :: xs)) +:+ "}" +:+ rest
              = String (ascii_of_nat 34) t).
    { destruct xs as [|y l].
      - cbn [List.map]. rewrite join_one. unfold member. cbn [fst snd].
        rewrite !append_assoc, json_quote_cons. eexists. reflexivity.
      - change (List.map member ((k, x) :: y :: l))
          with (member (k, x) :: List.map member (y :: l)).
        rewrite join_cons by discriminate. unfold member at 1. cbn [fst snd].
        rewrite !append_assoc, json_quote_cons. eexists. reflexivity. }
    destruct Hhead as (t & Heq).
    rewrite Heq. cbn [JS.skipWhitespace].
    change (JS.isWhitespace (ascii_of_nat 34)) with false. cbv beta iota.
    change (nat_of_ascii (ascii_of_nat 34) =? 125)%nat with false. cbv beta iota.
    rewrite <- Heq.
    rewrite (parseMembers_join ((k, x) :: xs) IH Hv)
      by (try discriminate; unfold member in Hfuel; lia).
    rewrite (mergeMembers_distinct _ Hd). reflexivity.
  - cbn [plainData] in Hv.
    destruct (Number_toString_head q rest Hv) as (c & t & Heq & Hc).
    destruct fuel as [|fuel].
    { destruct (Number_toString_head q EmptyString Hv) as (c0 & t0 & Heq0 & _).
      rewrite append_empty in Heq0. cbn [JS.JSON_stringify] in Hfuel.
      rewrite Heq0 in Hfuel. cbn [String.length] in Hfuel. exfalso. lia. }
    cbn [JS.JSON_stringify]. rewrite Heq, (parseValue_number fuel c t Hc), <- Heq.
    destruct (parseNumber_fraction q rest Hv Hrest) as (q' & -> & ->). reflexivity.
Qed.

(** [JSON.parse(JSON.stringify(v))] is [v] for plain data. *)
Lemma JSON_parse_stringify v :
  plainData v = true -> JS.JSON_parse (JS.JSON_stringify v) = Some v.
Proof.
  intros Hv. unfold JS.JSON_parse.
  rewrite <- (append_empty (JS.JSON_stringify v)) at 2.
  rewrite (parseValue_stringify v Hv) by (try lia; reflexivity).
  reflexivity.
Qed.

(** *** Events and sessions as objects *)

Lemma asStrings_items_strings l :
  JS.asStrings_items (List.map JS.JStr l) = Some l.
Proof.
  induction l as [|s l IH]; [reflexivity|]. cbn [List.map JS.asStrings_items JS.asString].
  rewrite IH. reflexivity.
Qed.

Lemma asToolResult_value r :
  match r with ResultObject (JS.JStr _) => false | _ => true end = true ->
  asToolResult (ToolResult_value r) = Some r.
Proof. destruct r as [s|[]]; intros H; try reflexivity; discriminate H. Qed.

(** Reading the object of an event gives the event back. *)
Lemma ofJSON_toJSON e : resultIsTyped e = true -> Events.ofJSON (Events.toJSON e) = Some e.
Proof.
  intros He.
  destruct e as [e|e|e|e|e|e|e|e|e]; destruct e as [[i t m] ?]; unfold Events.toJSON;
    cbn [Events.id Events.timestamp Events.action Events.base Events.ownProperties
         UserMessageEvent.base AgentMessageEvent.base ToolCallEvent.base
         ToolResultEvent.base ErrorEvent.base ControlSignalEvent.base
         CompactionEvent.base AgentTransferEvent.base SystemInstructionEvent.base
         BaseEvent.id BaseEvent.timestamp BaseEvent.metadata].
  all: repeat match goal with
              | o : option _ |- _ => destruct o
              | x : SignalType |- _ => destruct x
              | x : CompactionStrategy |- _ => destruct x
              end.
  all: try (cbn; rewrite ?asStrings_items_strings; reflexivity).
  all: cbn in He |- *; rewrite (asToolResult_value _ He); reflexivity.
Qed.

Lemma allOfJSON_toJSON evs :
  forallb resultIsTyped evs = true ->
  Events.allOfJSON (List.map Events.toJSON evs) = Some evs.
Proof.
  induction evs as [|e evs IH]; intros H; [reflexivity|].
  cbn [forallb] in H. apply andb_true_iff in H. destruct H as [He Hevs].
  cbn [List.map Events.allOfJSON]. rewrite (ofJSON_toJSON e He), (IH Hevs). reflexivity.
Qed.

Lemma plainEvents_split evs :
  forallb plainEvent evs = true ->
  forallb plainData (List.map Events.toJSON evs) = true /\
  forallb resultIsTyped evs = true.
Proof.
  induction evs as [|e evs IH]; intros H; [split; reflexivity|].
  cbn [forallb] in H. apply andb_true_iff in H. destruct H as [He Hevs].
  unfold plainEvent in He. apply andb_true_iff in He. destruct He as [Hp Ht].
  destruct (IH Hevs) as [IH1 IH2].
  cbn [List.map forallb]. rewrite Hp, Ht, IH1, IH2. split; reflexivity.
Qed.

(** Whether a rational is an integer does not depend on how it is
    written. *)
Lemma integral_Qeq p q :
  (p == q)%Q -> Qnum p mod Z.pos (Qden p) = 0 -> Qnum q mod Z.pos (Qden q) = 0.
Proof.
  unfold Qeq. intros Heq E.
  assert (Hc : Qnum p = Qnum p / Z.pos (Qden p) * Z.pos (Qden p)).
  { pose proof (Z.div_mod (Qnum p) (Z.pos (Qden p))). lia. }
  assert (Hn : Qnum q = Qnum p / Z.pos (Qden p) * Z.pos (Qden q)).
  { apply (Z.mul_reg_r _ _ (Z.pos (Qden p))); [lia|].
    rewrite <- Heq. rewrite Hc at 1. lia. }
  rewrite Hn. apply Z.mod_mul. lia.
Qed.

Lemma Qred_Qred q : Qred (Qred q) = Qred q.
Proof. apply Qred_complete, Qred_correct. Qed.

Lemma plainData_ofQ q : hasNumeral q = true -> plainData (JS.ofQ q) = true.
Proof.
  intros Hq. unfold JS.ofQ.
  destruct (Qnum q mod Z.pos (Qden q) =? 0) eqn:E; [reflexivity|].
  apply Z.eqb_neq in E.
  cbn [plainData]. unfold isFraction, hasNumeral. rewrite !Qred_Qred.
  rewrite !Z.eqb_refl. cbn [andb].
  unfold hasNumeral in Hq. rewrite Hq, andb_true_r.
  apply negb_true_iff, Z.eqb_neq. intros H. apply E.
  apply (integral_Qeq (Qred q) q (Qred_correct q) H).
Qed.

Lemma asNumber_ofQ q :
  exists q', JS.asNumber (JS.ofQ q) = Some q' /\ (q' == q)%Q.
Proof.
  unfold JS.ofQ. destruct (Qnum q mod Z.pos (Qden q) =? 0) eqn:E.
  - apply Z.eqb_eq in E. eexists. split; [reflexivity|].
    unfold Qeq, inject_Z. cbn [Qnum Qden].
    pose proof (Z.div_mod (Qnum q) (Z.pos (Qden q))). lia.
  - eexists. split; [reflexivity | apply Qred_correct].
Qed.

Lemma deserialize_serialize s now suffix :
  plainSession s = true ->
  exists average,
    (average == Session.SessionStatistics.averageResponseTimeMs (Session.statistics s))%Q /\
    Session.deserialize now suffix (Session.serialize s)
    = Session.Returned
        (Session.mk
           (Session.metadata s) (Session.events s)
           (Session.SessionStatistics.set_averageResponseTimeMs
              average (Session.statistics s))
           (Session.compactionConfig s)).
Proof.
  intros Hs. unfold plainSession in Hs. apply andb_true_iff in Hs.
  destruct Hs as [Hevs Havg].
  destruct (plainEvents_split _ Hevs) as [Hplain Htyped].
  destruct (asNumber_ofQ
              (Session.SessionStatistics.averageResponseTimeMs (Session.statistics s)))
    as (average & Hnum & Heq).
  exists average. split; [exact Heq|].
  unfold Session.deserialize, Session.serialize.
  rewrite JSON_parse_stringify.
  - destruct s as [[sid created updated agent] evs [n1 n2 n3 n4 n5 n6 avg n8]
                   [enabled threshold window overlap strategy]].
    cbn [Session.metadata Session.events Session.statistics Session.compactionConfig
         Session.SessionStatistics.averageResponseTimeMs] in *.
    unfold Session.load.
    destruct strategy.
    all: cbn; rewrite Hnum; cbn; rewrite (allOfJSON_toJSON evs Htyped); reflexivity.
  - cbn [plainData List.map fst snd forallb distinct existsb].
    cbn [Session.metadataToJSON Session.statisticsToJSON Session.compactionConfigToJSON
         plainData List.map fst snd forallb distinct].
    rewrite Hplain, (plainData_ofQ _ Havg). reflexivity.
Qed.

(** C2. For a session of plain data, whatever clock value and random
    suffix the constructor call inside [deserialize] draws,
    [deserialize(serialize(s))] returns a session with the metadata of
    [s] ([sessionId], [agentId], [createdAt], [updatedAt]), the events
    of [s] in the same order and with the same ids, its statistics and
    its compaction configuration.  Plain data is what a JSON text
    carries: [null], booleans, finite numbers, strings, arrays and
    objects of these. *)
Theorem deserialize_serialize_roundtrip (s : Session.t) (now : Z) (suffix : string) :
  plainSession s = true ->
  exists restored,
    Session.deserialize now suffix (Session.serialize s) = Session.Returned restored /\
    Session.metadata restored = Session.metadata s /\
    Session.events restored = Session.events s /\
    List.map Events.id (Session.events restored) = List.map Events.id (Session.events s) /\
    sameStatistics (Session.statistics restored) (Session.statistics s) /\
    Session.compactionConfig restored = Session.compactionConfig s.
Proof.
  intros Hs. destruct (deserialize_serialize s now suffix Hs) as (average & Heq & Hd).
  eexists. split; [exact Hd|].
  cbn [Session.metadata Session.events Session.statistics Session.compactionConfig].
  repeat split; try reflexivity.
  destruct (Session.statistics s); exact Heq.
Qed.

Lemma deserialize_serialize_witness :
  plainSession plainExample = true /\
  exists restored,
    Session.deserialize 99 "zzzz" (Session.serialize plainExample)
      = Session.Returned restored /\
    Session.metadata restored = Session.metadata plainExample /\
    Session.events restored = Session.events plainExample /\
    List.map Events.id (Session.events restored)
      = List.map Events.id (Session.events plainExample) /\
    sameStatistics (Session.statistics restored) (Session.statistics plainExample) /\
    Session.compactionConfig restored = Session.compactionConfig plainExample.
Proof.
  split; [vm_compute; reflexivity|].
  apply (deserialize_serialize_roundtrip plainExample 99 "zzzz").
  vm_compute. reflexivity.
Defined.

(** Values that a JSON text does not carry come back changed: [NaN] and
    [Infinity] as [null], a [Date] as the string of its time.  The
    restored session is a session, and its first event no longer holds
    what the first event of the serialized one holds. *)
Lemma deserialize_serialize_lossy :
  Session.deserialize 99 "zzzz" (Session.serialize (sessionHolding JS.JNaN))
    = Session.Returned (sessionHolding JS.JNull) /\
  firstMetadata (sessionHolding JS.JNaN) = Some [("ratio", JS.JNaN)] /\
  firstMetadata (sessionHolding JS.JNull) = Some [("ratio", JS.JNull)] /\
  Session.deserialize 99 "zzzz" (Session.serialize (sessionHolding (JS.JInfinity false)))
    = Session.Returned (sessionHolding JS.JNull) /\
  Session.deserialize 99 "zzzz"
    (Session.serialize (sessionHolding (JS.JDate "2024-05-01T10:00:00.000Z")))
    = Session.Returned (sessionHolding (JS.JStr "2024-05-01T10:00:00.000Z")) /\
  plainSession (sessionHolding JS.JNaN) = false.
Proof. vm_compute. repeat split. Qed.

(** The stored text is JSON, with numbers in the notation of
    [Number::toString]. *)
Example JSON_text_examples :
  JS.JSON_stringify
    (JS.JArr [JS.JNum 1700000000000; JS.JFrac (5 # 2); JS.JFrac (-1 # 8);
              JS.JFrac (1 # 10000000); JS.JBool true; JS.JNull; JS.JNaN;
              JS.JInfinity true])
    = "[1700000000000,2.5,-0.125,1e-7,true,null,null,null]" /\
  JS.JSON_parse " [1, 2.5e1, -0.5, 1E-2 ] "
    = Some (JS.JArr [JS.JNum 1; JS.JNum 25; JS.JFrac (-1 # 2); JS.JFrac (1 # 100)]) /\
  JS.JSON_parse "[1,]" = None /\
  JS.JSON_parse "01" = None /\
  JS.JSON_parse "nul" = None.
Proof. vm_compute. repeat split. Qed.

(** What [deserialize] does with other texts.  It throws on a text that
    is no JSON, on [null], and on an object without [metadata] or
    without [events].  From an object that has only the [agentId] and an
    empty list of events it returns the session the constructor made.
    An event that lacks its declared properties is pushed as it is: the
    result is not a session of the declared types. *)
Example deserialize_examples :
  let text v := JS.JSON_stringify v in
  let metadata := ("metadata", JS.JObj [("agentId", JS.JStr "a")]) in
  Session.deserialize 7 "x" "{" = Session.Threw /\
  Session.deserialize 7 "x" "null" = Session.Threw /\
  Session.deserialize 7 "x" "{}" = Session.Threw /\
  Session.deserialize 7 "x" (text (JS.JObj [metadata])) = Session.Threw /\
  Session.deserialize 7 "x" (text (JS.JObj [metadata; ("events", JS.JArr [])]))
    = Session.Returned (Session.new "a" 7 "x") /\
  Session.deserialize 7 "x"
    (text (JS.JObj [metadata; ("events", JS.JArr [JS.JObj [("id", JS.JNum 5)]])]))
    = Session.Untyped.
Proof. vm_compute. repeat split. Qed.

(** ** getConversationTurns *)

Lemma turnStep_user st u :
  Session.turnStep st (UserMessage u) = (Session.flushTurn st, Some (openedBy u)).
Proof. destruct st as [turns [cur|]]; reflexivity. Qed.

Lemma turnStep_idle turns e :
  action e <> USER_MESSAGE ->
  Session.turnStep (turns, None) e = (turns, None).
Proof. destruct e; cbn; congruence. Qed.

Lemma scan_without_user pre turns :
  fold_left Session.turnStep (withoutUserMessages pre) (turns, None) = (turns, None).
Proof.
  unfold withoutUserMessages.
  induction pre as [|e pre IH]; [reflexivity|].
  cbn [List.filter]. case_bool_decide as E; cbn [negb]; [assumption|].
  cbn [fold_left]. rewrite turnStep_idle by assumption. assumption.
Qed.

Lemma flushTurn_step_length st e :
  length (Session.flushTurn (Session.turnStep st e))
  = (length (Session.flushTurn st)
     + Z.to_nat (indicator (bool_decide (action e = USER_MESSAGE))))%nat.
Proof.
  unfold indicator.
  destruct st as [turns [cur|]]; destruct e; cbn [action];
    case_bool_decide; try congruence;
    unfold Session.flushTurn; cbn; rewrite ?length_app; cbn; lia.
Qed.

Lemma flushTurn_scan_length evs : forall st,
  Z.of_nat (length (Session.flushTurn (fold_left Session.turnStep evs st)))
  = Z.of_nat (length (Session.flushTurn st)) + countAction USER_MESSAGE evs.
Proof.
  induction evs as [|e evs IH]; intros st.
  - cbn. unfold countAction. cbn. lia.
  - cbn [fold_left]. rewrite IH, flushTurn_step_length, countAction_cons.
    settle_actions.
Qed.

(** C7. On [user(u1), agent(a1), toolCall(t1), toolResult(r1),
    user(u2)] the scan returns exactly two turns: [u1] with agent [a1]
    and tools [t1, r1] in that order, then [u2] with no agent and no
    tools.  In general the events before the first user message leave no
    trace in the result; a user message at the end of the log yields a
    final turn of its own, so the turn in progress is flushed when the
    scan ends; and there are as many turns as user messages. *)
Theorem getConversationTurns_spec (s : Session.t) :
  (forall u1 a1 t1 r1 u2,
     Session.getConversationTurns
       (sessionWith s [UserMessage u1; AgentMessage a1; ToolCall t1;
                       ToolResultEv r1; UserMessage u2])
     = [Session.ConversationTurn.mk u1 (Some a1)
          [Session.ToolCallOf t1; Session.ToolResultOf r1];
        Session.ConversationTurn.mk u2 None []]) /\
  (forall pre rest,
     Session.getConversationTurns (sessionWith s (withoutUserMessages pre ++ rest))
     = Session.getConversationTurns (sessionWith s rest)) /\
  (forall evs u,
     Session.getConversationTurns (sessionWith s (evs ++ [UserMessage u]))
     = Session.getConversationTurns (sessionWith s evs) ++ [openedBy u]) /\
  Z.of_nat (length (Session.getConversationTurns s))
    = countAction USER_MESSAGE (Session.events s).
Proof.
  unfold Session.getConversationTurns, Session.turnsOf. cbn [sessionWith Processors.withEvents Session.events].
  split; [|split; [|split]].
  - reflexivity.
  - intros pre rest. rewrite fold_left_app, scan_without_user. reflexivity.
  - intros evs u. rewrite fold_left_app. cbn [fold_left].
    rewrite turnStep_user. reflexivity.
  - rewrite flushTurn_scan_length. reflexivity.
Qed.

(** An agent message and a tool call that precede the first user message
    belong to no turn. *)
Example getConversationTurns_leading_events :
  let b i := BaseEvent.mk i 0 None in
  let a := AgentMessage (AgentMessageEvent.mk (b "a0") "early" "agent" None None None None) in
  let t := ToolCall (ToolCallEvent.mk (b "t0") "search" [] "call0" None None) in
  let u := UserMessageEvent.mk (b "u1") "hi" None in
  Session.getConversationTurns (sessionWith (Session.new "agent" 0 "x") [a; t; UserMessage u])
  = [openedBy u].
Proof. reflexivity. Qed.

(** ** statisticsResponseProcessor *)

Lemma truthy_Q_false q : q == 0 -> Processors.truthy_Q q = false.
Proof.
  intros H. unfold Processors.truthy_Q.
  apply Qeq_bool_iff in H. rewrite H. reflexivity.
Qed.

Lemma truthy_Q_true q : ~ q == 0 -> Processors.truthy_Q q = true.
Proof.
  intros H. unfold Processors.truthy_Q.
  destruct (Qeq_bool q 0) eqn:E; [|reflexivity].
  apply Qeq_bool_iff in E. contradiction.
Qed.

(** C10. [statisticsResponseProcessor] returns the session unchanged
    when the response has no metadata, when the metadata has no
    [responseTimeMs], and when [responseTimeMs] is zero.  For a nonzero
    sample it changes [averageResponseTimeMs] alone, to
    [(oldAvg * totalAgentMessages + sample) / (totalAgentMessages + 1)]. *)
Theorem statisticsResponseProcessor_spec (s : Session.t) (context : WorkingContext.t) :
  Processors.statisticsResponseProcessor s (Processors.Response.mk None) context = s /\
  Processors.statisticsResponseProcessor s
    (Processors.Response.mk (Some (Processors.ResponseMetadata.mk None))) context = s /\
  (forall sample, sample == 0 ->
     Processors.statisticsResponseProcessor s (responseWith sample) context = s) /\
  (forall sample, ~ sample == 0 ->
     Processors.statisticsResponseProcessor s (responseWith sample) context
     = Session.mk
         (Session.metadata s) (Session.events s)
         (Session.SessionStatistics.mk
            (totalEvents (Session.statistics s))
            (totalUserMessages (Session.statistics s))
            (totalAgentMessages (Session.statistics s))
            (totalToolCalls (Session.statistics s))
            (totalErrors (Session.statistics s))
            (totalCompactions (Session.statistics s))
            ((averageResponseTimeMs (Session.statistics s)
              * inject_Z (totalAgentMessages (Session.statistics s)) + sample)
             / (inject_Z (totalAgentMessages (Session.statistics s)) + 1))%Q
            (totalTokensUsed (Session.statistics s)))
         (Session.compactionConfig s)).
Proof.
  split; [reflexivity|]. split; [reflexivity|]. split.
  - intros sample H. unfold Processors.statisticsResponseProcessor, responseWith. cbn.
    rewrite (truthy_Q_false _ H). reflexivity.
  - intros sample H. unfold Processors.statisticsResponseProcessor, responseWith. cbn.
    rewrite (truthy_Q_true _ H). reflexivity.
Qed.

(** Two agent messages averaging 100 ms, then a 400 ms sample: the new
    average is 200 ms; a zero sample changes nothing. *)
Lemma statisticsResponseProcessor_witness :
  let st := Session.SessionStatistics.mk 5 2 2 1 0 0 100%Q 30 in
  let s := Session.mk (Session.SessionMetadata.mk "sid" 1 2 "agent") [] st
                      (Session.CompactionConfig.mk true 50 10 2 sliding_window) in
  let context := WorkingContext.new "sid" 3 in
  Processors.statisticsResponseProcessor s (responseWith 0%Q) context = s /\
  Session.SessionStatistics.averageResponseTimeMs
    (Session.statistics (Processors.statisticsResponseProcessor s (responseWith 400%Q) context))
  == 200%Q.
Proof.
  intros st s context. split.
  - apply (proj1 (proj2 (proj2 (statisticsResponseProcessor_spec s context)))).
    reflexivity.
  - rewrite (proj2 (proj2 (proj2 (statisticsResponseProcessor_spec s context))) 400%Q).
    + reflexivity.
    + intros H. discriminate H.
Defined.

(** ** toModelFormat *)

Lemma orElse_not_responses (format : option string) :
  format <> Some "responses" ->
  String.eqb (WorkingContext.orElse format "chat_completions") "responses" = false.
Proof.
  intros H. apply String.eqb_neq.
  destruct format as [f|]; cbn; [|discriminate].
  destruct f; cbn; [discriminate|]. congruence.
Qed.

(** C8. A [modelType] other than ["workers-ai"] makes [toModelFormat]
    throw: the call yields the error and no format at all.  With the
    supported model type (named or left out) and any [format] other than
    ["responses"], absent or ["native"] included, the result is the
    chat-style shape: the system message followed by one message per
    content. *)
Theorem toModelFormat_spec (c : WorkingContext.t)
    (options : option WorkingContext.FormatOptions.t) :
  (forall modelType, modelType <> "workers-ai" ->
     WorkingContext.toModelFormat (Some modelType) options c
     = inl (WorkingContext.ThrowError ("Unsupported model type: " +:+ modelType))) /\
  (requestedFormat options <> Some "responses" ->
     forall modelType, modelType = None \/ modelType = Some "workers-ai" ->
     isMessagesShape (WorkingContext.toModelFormat modelType options c) = true /\
     exists usesAssistantRole,
       WorkingContext.toModelFormat modelType options c
       = inr (WorkingContext.MessagesShape
                (WorkingContext.WorkersAIMessage.mk
                   "system" (WorkingContext.systemContent c) None None
                 :: List.map (WorkingContext.toMessage usesAssistantRole)
                             (WorkingContext.contents c)))).
Proof.
  split.
  - intros modelType H. unfold WorkingContext.toModelFormat.
    change (default "workers-ai" (Some modelType)) with modelType.
    apply String.eqb_neq in H. rewrite H. reflexivity.
  - intros H modelType Hm.
    assert (E : WorkingContext.toModelFormat modelType options c
                = inr (WorkingContext._toWorkersAIFormat
                         (WorkingContext.orElse (requestedFormat options) "chat_completions")
                         (options ≫= WorkingContext.FormatOptions.model) c)).
    { destruct Hm as [-> | ->]; reflexivity. }
    rewrite E. unfold WorkingContext._toWorkersAIFormat.
    rewrite (orElse_not_responses _ H). split; [reflexivity|].
    eexists. reflexivity.
Qed.

Lemma toModelFormat_witness :
  let c := WorkingContext.addContent
             (WorkingContext.Content.mk WorkingContext.user "hello" None None None)
             (WorkingContext.addSystemInstruction "Be brief." (WorkingContext.new "sid" 0)) in
  let native := Some (WorkingContext.FormatOptions.mk (Some "native") None) in
  WorkingContext.toModelFormat (Some "openai") native c
    = inl (WorkingContext.ThrowError "Unsupported model type: openai") /\
  isMessagesShape (WorkingContext.toModelFormat None native c) = true /\
  isMessagesShape (WorkingContext.toModelFormat (Some "workers-ai") None c) = true.
Proof.
  intros c native. split; [|split].
  - apply (proj1 (toModelFormat_spec c native) "openai"). discriminate.
  - apply (proj2 (toModelFormat_spec c native)); [discriminate | left; reflexivity].
  - apply (proj2 (toModelFormat_spec c None)); [discriminate | right; reflexivity].
Defined.

Example toModelFormat_examples :
  let c := WorkingContext.addContent
             (WorkingContext.Content.mk WorkingContext.tool "42" (Some "calc") (Some "call_1") None)
             (WorkingContext.addSystemInstruction "Be brief." (WorkingContext.new "sid" 0)) in
  WorkingContext.toModelFormat None None c
    = inr (WorkingContext.MessagesShape
             [WorkingContext.WorkersAIMessage.mk "system" "Be brief." None None;
              WorkingContext.WorkersAIMessage.mk "tool" "42" None (Some "call_1")]) /\
  WorkingContext.toModelFormat None
      (Some (WorkingContext.FormatOptions.mk (Some "responses") None)) c
    = inr (WorkingContext.ResponsesShape "Be brief."
             [WorkingContext.WorkersAIInput.mk (Some "function_call_output") (Some "call_1")
                                               (Some "42") None None None]
             (WorkingContext.Reasoning.mk "medium" "concise")) /\
  WorkingContext.toModelFormat None
      (Some (WorkingContext.FormatOptions.mk
               None (Some "@cf/mistralai/mistral-small-3.1-24b-instruct"))) c
    = inr (WorkingContext.MessagesShape
             [WorkingContext.WorkersAIMessage.mk "system" "Be brief." None None;
              WorkingContext.WorkersAIMessage.mk "assistant" "42" None None]).
Proof. vm_compute. repeat split. Qed.

(** ** truncateToFit *)

Lemma strlen_nonneg s : 0 <= JS.strlen s.
Proof. unfold JS.strlen. lia. Qed.

Lemma ceilQuarter_nonneg n : 0 <= n -> 0 <= WorkingContext.ceilQuarter n.
Proof. intros H. rewrite ceilQuarter_div. apply Z.div_pos; lia. Qed.

Lemma contentTokens_nonneg content : 0 <= WorkingContext.contentTokens content.
Proof. apply ceilQuarter_nonneg, strlen_nonneg. Qed.

Lemma cost_cons x cs : cost (x :: cs) = WorkingContext.contentTokens x + cost cs.
Proof. reflexivity. Qed.

Lemma cost_nil : cost [] = 0.
Proof. reflexivity. Qed.

Lemma cost_nonneg cs : 0 <= cost cs.
Proof.
  induction cs as [|x cs IH]; [rewrite cost_nil; lia|].
  rewrite cost_cons. pose proof (contentTokens_nonneg x). lia.
Qed.

Lemma cost_app cs1 cs2 : cost (cs1 ++ cs2) = cost cs1 + cost cs2.
Proof.
  induction cs1 as [|x cs1 IH]; [reflexivity|].
  cbn [app]. rewrite !cost_cons, IH. lia.
Qed.

Lemma cost_rev cs : cost (rev cs) = cost cs.
Proof.
  induction cs as [|x cs IH]; [reflexivity|].
  cbn [rev]. rewrite cost_app, IH, !cost_cons, cost_nil. lia.
Qed.

Section Walk.

(** The budget the walk runs against. *)
Variable budget : Q.

Lemma keepLoop_budgetPrefix pending : forall spent keep,
  WorkingContext.keepLoop budget pending spent keep
  = rev (budgetPrefix budget pending spent) ++ keep.
Proof.
  induction pending as [|x older IH]; intros spent keep; cbn; [reflexivity|].
  destruct (Qle_bool _ budget); [|reflexivity].
  rewrite IH. cbn. rewrite <- app_assoc. reflexivity.
Qed.

(** What the walk keeps is a prefix of what it visits; the total stays
    within the budget; and the first content not kept, if any, would
    have exceeded it. *)
Lemma budgetPrefix_spec pending : forall spent,
  exists rest,
    pending = budgetPrefix budget pending spent ++ rest /\
    (budgetPrefix budget pending spent = [] \/
     (inject_Z (spent + cost (budgetPrefix budget pending spent)) <= budget)%Q) /\
    match rest with
    | [] => True
    | x :: _ =>
        Qle_bool (inject_Z (spent + cost (budgetPrefix budget pending spent)
                            + WorkingContext.contentTokens x)) budget = false
    end.
Proof.
  induction pending as [|x older IH]; intros spent.
  - exists []. cbn. auto.
  - cbn [budgetPrefix].
    destruct (Qle_bool (inject_Z (spent + WorkingContext.contentTokens x)) budget) eqn:E.
    + destruct (IH (spent + WorkingContext.contentTokens x)) as (rest & Hp & Hb & Hr).
      exists rest. split; [cbn; f_equal; exact Hp|]. split.
      * right. rewrite cost_cons.
        destruct Hb as [Hb|Hb].
        -- rewrite Hb, cost_nil, Z.add_0_r. apply Qle_bool_iff in E. exact E.
        -- rewrite Z.add_assoc. exact Hb.
      * destruct rest as [|y rest']; [exact I|].
        rewrite cost_cons, Z.add_assoc. exact Hr.
    + exists (x :: older). split; [reflexivity|]. split; [left; reflexivity|].
      rewrite cost_nil, Z.add_0_r. exact E.
Qed.

Lemma budgetPrefix_idem pending : forall spent,
  budgetPrefix budget (budgetPrefix budget pending spent) spent
  = budgetPrefix budget pending spent.
Proof.
  induction pending as [|x older IH]; intros spent; [reflexivity|].
  cbn [budgetPrefix].
  destruct (Qle_bool (inject_Z (spent + WorkingContext.contentTokens x)) budget) eqn:E;
    [|reflexivity].
  cbn [budgetPrefix]. rewrite E, IH. reflexivity.
Qed.

Lemma withinBudget_false_mono x kept front :
  withinBudget budget (x :: kept) = false ->
  withinBudget budget (front ++ x :: kept) = false.
Proof.
  unfold withinBudget. intros H.
  destruct (front ++ x :: kept) as [|y l] eqn:E.
  - destruct front; discriminate E.
  - rewrite <- E. clear y l E.
    destruct (Qle_bool (inject_Z (cost (front ++ x :: kept))) budget) eqn:E2; [|reflexivity].
    apply Qle_bool_iff in E2.
    assert (Hle : (inject_Z (cost (x :: kept)) <= budget)%Q).
    { eapply Qle_trans; [|exact E2]. rewrite <- Zle_Qle, cost_app.
      pose proof (cost_nonneg front). lia. }
    apply Qle_bool_iff in Hle. congruence.
Qed.

End Walk.

Lemma truncateToFit_unfold config c :
  WorkingContext.truncateToFit config c
  = if WorkingContext.fitsWithinLimit config c then c
    else truncatedTo
           (rev (budgetPrefix (availableForContents config c)
                              (rev (WorkingContext.contents c)) 0))
           c.
Proof.
  unfold WorkingContext.truncateToFit, WorkingContext.fitsWithinLimit.
  destruct (Qle_bool _ _); [reflexivity|].
  rewrite keepLoop_budgetPrefix, app_nil_r. reflexivity.
Qed.

Lemma list_snoc_cases {A} (l : list A) :
  l = [] \/ exists front x, l = front ++ [x].
Proof.
  destruct l as [|y l] using rev_ind; [left; reflexivity|].
  right. exists l, y. reflexivity.
Qed.

(** A suffix of [dropped ++ kept] is a suffix of [kept], or it reaches
    into [dropped] and then contains its last element just before
    [kept]. *)
Lemma suffix_of_app_cases {A} (suf dropped kept : list A) :
  suf `suffix_of` (dropped ++ kept) ->
  suf `suffix_of` kept \/
  exists front x, suf = front ++ x :: kept /\ last dropped = Some x.
Proof.
  intros [k Hk].
  apply app_eq_app in Hk. destruct Hk as [l [[Hd Hs] | [Hk' Hs]]].
  - (* dropped = k ++ l and suf = l ++ kept *)
    destruct (list_snoc_cases l) as [-> | (front & x & ->)].
    + left. subst suf. reflexivity.
    + right. exists front, x. split.
      * subst suf. rewrite <- app_assoc. reflexivity.
      * subst dropped. rewrite app_assoc. apply last_snoc.
  - left. exists l. exact Hs.
Qed.

(** What the walk keeps, measured with the cost and the budget the code
    computes: when the estimate does not fit, the contents are replaced
    by a suffix [kept] that is within the budget, the content just
    before it would have exceeded the budget, and every suffix within
    the budget is a suffix of [kept]. *)
Lemma truncateToFit_walk (config : WorkingContext.ContextWindowConfig.t)
    (c : WorkingContext.t) :
  if WorkingContext.fitsWithinLimit config c
  then WorkingContext.truncateToFit config c = c
  else
    exists dropped kept,
      WorkingContext.contents c = dropped ++ kept /\
      WorkingContext.truncateToFit config c = truncatedTo kept c /\
      withinBudget (availableForContents config c) kept = true /\
      match last dropped with
      | Some x => withinBudget (availableForContents config c) (x :: kept) = false
      | None => True
      end /\
      (forall suf,
         suf `suffix_of` WorkingContext.contents c ->
         withinBudget (availableForContents config c) suf = true ->
         suf `suffix_of` kept).
Proof.
  rewrite truncateToFit_unfold.
  destruct (WorkingContext.fitsWithinLimit config c); [reflexivity|].
  set (budget := availableForContents config c).
  destruct (budgetPrefix_spec budget (rev (WorkingContext.contents c)) 0)
    as (rest & Hp & Hb & Hr).
  set (taken := budgetPrefix budget (rev (WorkingContext.contents c)) 0) in *.
  assert (Hc : WorkingContext.contents c = rev rest ++ rev taken).
  { rewrite <- rev_app_distr, <- Hp, rev_involutive. reflexivity. }
  assert (Hlast : match last (rev rest) with
                  | Some x => withinBudget budget (x :: rev taken) = false
                  | None => True
                  end).
  { destruct rest as [|x rest']; [exact I|].
    cbn [rev]. rewrite last_snoc. cbn [withinBudget].
    rewrite cost_cons, cost_rev, <- Hr. f_equal. f_equal. lia. }
  exists (rev rest), (rev taken).
  split; [exact Hc|]. split; [reflexivity|].
  split; [|split].
  - destruct Hb as [Hb|Hb]; [rewrite Hb; reflexivity|].
    unfold withinBudget. destruct (rev taken) eqn:E; [reflexivity|].
    rewrite <- E, cost_rev. apply Qle_bool_iff. exact Hb.
  - exact Hlast.
  - intros suf Hsuf Hfit. rewrite Hc in Hsuf.
    destruct (suffix_of_app_cases _ _ _ Hsuf) as [H | (front & x & -> & Hx)];
      [exact H|].
    rewrite Hx in Hlast.
    rewrite (withinBudget_false_mono budget _ _ front Hlast) in Hfit. discriminate Hfit.
Qed.

(** [quarterCeiling] is the ceiling of a quarter of the length: four
    times it reaches the length, and four times one less does not. *)
Lemma quarterCeiling_least text :
  Z.of_nat (String.length text) <= 4 * quarterCeiling text /\
  4 * (quarterCeiling text - 1) < Z.of_nat (String.length text).
Proof. unfold quarterCeiling. Z.div_mod_to_equations. lia. Qed.

(** The cost and the budget of the code are those of the
    specification. *)
Lemma cost_tokenCost cs : cost cs = tokenCost cs.
Proof.
  induction cs as [|k cs IH]; [reflexivity|].
  rewrite cost_cons. cbn [tokenCost fold_right]. fold (tokenCost cs). rewrite IH.
  unfold WorkingContext.contentTokens, quarterCeiling, JS.strlen.
  rewrite ceilQuarter_div. reflexivity.
Qed.

Lemma availableForContents_contentBudget config c :
  (availableForContents config c == contentBudget config c)%Q.
Proof.
  unfold availableForContents, contentBudget.
  apply Qplus_comp; [reflexivity|]. apply Qopp_comp.
  unfold WorkingContext.systemTokens, systemCost, WorkingContext.instructionChars,
    JS.strlen, JS.join, WorkingContext.nl, JS.chr.
  destruct (WorkingContext.agentIdentity c) as [identity|];
    unfold Qeq, Qdiv, Qmult, Qplus, Qinv, inject_Z; cbn [Qnum Qden]; lia.
Qed.

Lemma withinBudget_staysWithin config c suf :
  withinBudget (availableForContents config c) suf
  = staysWithin (contentBudget config c) suf.
Proof.
  unfold withinBudget, staysWithin. destruct suf as [|x suf']; [reflexivity|].
  rewrite cost_tokenCost.
  pose proof (availableForContents_contentBudget config c) as Hb.
  destruct (Qle_bool (inject_Z (tokenCost (x :: suf'))) (contentBudget config c)) eqn:E.
  - apply Qle_bool_iff. apply Qle_bool_iff in E. rewrite Hb. exact E.
  - destruct (Qle_bool (inject_Z (tokenCost (x :: suf'))) (availableForContents config c))
      eqn:E'; [|reflexivity].
    apply Qle_bool_iff in E'. rewrite Hb in E'. apply Qle_bool_iff in E'. congruence.
Qed.

(** C4. When the estimated token count is already at most
    [availableForHistory], [truncateToFit] returns the context as it is.
    Otherwise it replaces the contents by a suffix [kept] of them and
    records the length of [kept] as [metadata.windowSize], touching
    nothing else.  With each content costing ceiling(length / 4) and the
    budget being [availableForHistory] minus the cost of the system
    instructions plus the identity, [kept] is what the walk from the
    most recent content backward retains: its running total stays within
    the budget; the content just before it, if there is one, would have
    exceeded the budget; and every suffix of the contents whose total
    stays within the budget is a suffix of [kept], so [kept] is the
    longest one.  An older content beyond the stopping point is dropped
    whatever its size. *)
Theorem truncateToFit_spec (config : WorkingContext.ContextWindowConfig.t)
    (c : WorkingContext.t) :
  if Qle_bool (inject_Z (WorkingContext.estimateTokenCount c))
              (WorkingContext.ContextWindowConfig.availableForHistory config)
  then WorkingContext.truncateToFit config c = c
  else
    exists dropped kept,
      WorkingContext.contents c = dropped ++ kept /\
      WorkingContext.truncateToFit config c = truncatedTo kept c /\
      WorkingContext.WorkingContextMetadata.windowSize
        (WorkingContext.metadata (WorkingContext.truncateToFit config c))
      = Z.of_nat (length kept) /\
      staysWithin (contentBudget config c) kept = true /\
      match last dropped with
      | Some x => staysWithin (contentBudget config c) (x :: kept) = false
      | None => True
      end /\
      (forall suf,
         suf `suffix_of` WorkingContext.contents c ->
         staysWithin (contentBudget config c) suf = true ->
         suf `suffix_of` kept).
Proof.
  pose proof (truncateToFit_walk config c) as H.
  unfold WorkingContext.fitsWithinLimit in H.
  destruct (Qle_bool (inject_Z (WorkingContext.estimateTokenCount c))
                     (WorkingContext.ContextWindowConfig.availableForHistory config));
    [exact H|].
  destruct H as (dropped & kept & Hc & Ht & Hk & Hl & Hmax).
  exists dropped, kept.
  split; [exact Hc|]. split; [exact Ht|]. split; [rewrite Ht; reflexivity|].
  split; [rewrite <- withinBudget_staysWithin; exact Hk|]. split.
  - destruct (last dropped) as [x|]; [|exact I].
    rewrite <- withinBudget_staysWithin. exact Hl.
  - intros suf Hsuf Hfit. apply (Hmax suf Hsuf).
    rewrite withinBudget_staysWithin. exact Hfit.
Qed.

(** For a whole number of tokens as [availableForHistory], rounding the
    system cost up to a whole number of tokens changes nothing: the same
    suffixes stay within the budget. *)
Lemma staysWithin_rounded_systemCost (limit : Z) (systemCost' : Q)
    (suf : list WorkingContext.Content.t) :
  staysWithin (inject_Z limit - systemCost') suf
  = staysWithin (inject_Z limit - inject_Z (Qceiling systemCost')) suf.
Proof.
  unfold staysWithin. destruct suf as [|x suf']; [reflexivity|].
  set (total := tokenCost (x :: suf')).
  pose proof (Qle_ceiling systemCost') as Hup.
  pose proof (Qceiling_lt systemCost') as Hlow.
  destruct (Qle_bool (inject_Z total) (inject_Z limit - inject_Z (Qceiling systemCost')))
    eqn:E.
  - apply Qle_bool_iff. apply Qle_bool_iff in E. lra.
  - destruct (Qle_bool (inject_Z total) (inject_Z limit - systemCost')) eqn:E';
      [|reflexivity].
    apply Qle_bool_iff in E'.
    assert (Hlt : (inject_Z (Qceiling systemCost' - 1) < inject_Z (limit - total))%Q).
    { eapply Qlt_le_trans; [exact Hlow|].
      unfold Z.sub. rewrite inject_Z_plus, inject_Z_opp. lra. }
    rewrite <- Zlt_Qlt in Hlt.
    assert (Hz : Qceiling systemCost' <= limit - total) by lia.
    assert (Hq : (inject_Z total <= inject_Z limit - inject_Z (Qceiling systemCost'))%Q).
    { rewrite Zle_Qle in Hz. unfold Z.sub in Hz.
      rewrite inject_Z_plus, inject_Z_opp in Hz. lra. }
    apply Qle_bool_iff in Hq. congruence.
Qed.


(** Three contents of 4, 40 and 8 characters (1, 10 and 2 tokens) against
    a budget of 5 tokens: the walk keeps the most recent one, stops at
    the 10-token one, and so never reaches the oldest, which alone would
    have fit. *)
Example truncateToFit_contiguous_suffix :
  let text n := String.concat EmptyString (repeat "x" n) in
  let item n := WorkingContext.Content.mk WorkingContext.user (text n) None None None in
  let c := WorkingContext.addContents [item 4%nat; item 40%nat; item 8%nat]
                                      (WorkingContext.new "sid" 0) in
  let config := WorkingContext.ContextWindowConfig.mk 100 0 0 5 in
  WorkingContext.estimateTokenCount c = 13 /\
  WorkingContext.truncateToFit config c = truncatedTo [item 8%nat] c /\
  staysWithin (contentBudget config c) [item 4%nat; item 8%nat] = true.
Proof. vm_compute. repeat split. Qed.

(** The system cost comes off the budget.  With an instruction of 8
    characters (2 tokens) and [availableForHistory] of 5, the budget for
    contents is 3: of two contents of 2 tokens each only the most recent
    one is kept, although both together are within 5. *)
Example truncateToFit_system_cost :
  let item text := WorkingContext.Content.mk WorkingContext.user text None None None in
  let c := WorkingContext.addContents [item "aaaaaaaa"; item "bbbbbbbb"]
             (WorkingContext.addSystemInstruction "12345678" (WorkingContext.new "sid" 0)) in
  let config := WorkingContext.ContextWindowConfig.mk 100 0 0 5 in
  WorkingContext.estimateTokenCount c = 6 /\
  (contentBudget config c == 3)%Q /\
  tokenCost [item "aaaaaaaa"; item "bbbbbbbb"] = 4 /\
  WorkingContext.truncateToFit config c = truncatedTo [item "bbbbbbbb"] c.
Proof. vm_compute. repeat split. Qed.

(** A context that fits is returned as it is, window size included. *)
Example truncateToFit_within_budget :
  let item := WorkingContext.Content.mk WorkingContext.user "hello" None None None in
  let c := WorkingContext.addContent item
             (WorkingContext.addSystemInstruction "Be brief." (WorkingContext.new "sid" 0)) in
  let config := WorkingContext.ContextWindowConfig.mk 100 0 0 4 in
  WorkingContext.estimateTokenCount c = 4 /\
  WorkingContext.truncateToFit config c = c /\
  WorkingContext.WorkingContextMetadata.windowSize
    (WorkingContext.metadata (WorkingContext.truncateToFit config c)) = 0.
Proof. vm_compute. repeat split. Qed.

(** The estimate of a context holding one system instruction of 40
    characters is 10 tokens. *)
Example estimateTokenCount_forty_chars :
  WorkingContext.estimateTokenCount
    (WorkingContext.addSystemInstruction
       "You are a helpful and concise assistant."
       (WorkingContext.new "sid" 0)) = 10.
Proof. vm_compute. reflexivity. Qed.

(** ** truncateToFit is idempotent *)

Lemma availableForContents_truncatedTo config kept c :
  availableForContents config (truncatedTo kept c) = availableForContents config c.
Proof. reflexivity. Qed.

Lemma truncateToFit_idempotent config c :
  WorkingContext.truncateToFit config (WorkingContext.truncateToFit config c)
  = WorkingContext.truncateToFit config c.
Proof.
  rewrite (truncateToFit_unfold config c).
  destruct (WorkingContext.fitsWithinLimit config c) eqn:Fit.
  - rewrite truncateToFit_unfold, Fit. reflexivity.
  - set (budget := availableForContents config c).
    set (taken := budgetPrefix budget (rev (WorkingContext.contents c)) 0).
    rewrite truncateToFit_unfold.
    destruct (WorkingContext.fitsWithinLimit config (truncatedTo (rev taken) c));
      [reflexivity|].
    rewrite availableForContents_truncatedTo. fold budget.
    cbn [truncatedTo WorkingContext.contents].
    rewrite rev_involutive. unfold taken at 1. rewrite budgetPrefix_idem.
    reflexivity.
Qed.

(** C5. Applying [truncateToFit] twice with the same configuration gives
    the same contents as applying it once; the whole context is the
    same. *)
Theorem truncateToFit_twice (config : WorkingContext.ContextWindowConfig.t)
    (c : WorkingContext.t) :
  WorkingContext.contents
    (WorkingContext.truncateToFit config (WorkingContext.truncateToFit config c))
  = WorkingContext.contents (WorkingContext.truncateToFit config c) /\
  WorkingContext.truncateToFit config (WorkingContext.truncateToFit config c)
  = WorkingContext.truncateToFit config c.
Proof.
  rewrite truncateToFit_idempotent. split; reflexivity.
Qed.

(** Memory results are counted by the estimate but not by the walk: here
    the truncated context still exceeds the limit, the second call walks
    the contents again, and keeps them all. *)
Example truncateToFit_twice_over_budget :
  let text n := String.concat EmptyString (repeat "x" n) in
  let item n := WorkingContext.Content.mk WorkingContext.user (text n) None None None in
  let c := WorkingContext.addMemoryResults [text 80%nat]
             (WorkingContext.addContents [item 40%nat; item 8%nat]
                                         (WorkingContext.new "sid" 0)) in
  let config := WorkingContext.ContextWindowConfig.mk 100 0 0 5 in
  let once := WorkingContext.truncateToFit config c in
  WorkingContext.contents once = [item 8%nat] /\
  WorkingContext.fitsWithinLimit config once = false /\
  WorkingContext.truncateToFit config once = once.
Proof. vm_compute. repeat split. Qed.

(** ** compactionFilterRequestProcessor *)

Lemma collect_ids_fold (ids : list string) : forall acc : gset string,
  fold_left (fun acc id => acc ∪ {[ id ]}) ids acc = acc ∪ list_to_set ids.
Proof.
  induction ids as [|i ids IH]; intros acc; cbn [fold_left list_to_set].
  - rewrite (right_id_L ∅ (∪)). reflexivity.
  - rewrite IH, (assoc_L (∪)). reflexivity.
Qed.

Lemma collect_compactions_fold (cs : list CompactionEvent.t) : forall acc : gset string,
  fold_left
    (fun acc compaction =>
       fold_left (fun acc id => acc ∪ {[ id ]})
                 (CompactionEvent.compactedEventIds compaction) acc)
    cs acc
  = acc ∪ list_to_set (concat (List.map CompactionEvent.compactedEventIds cs)).
Proof.
  induction cs as [|c cs IH]; intros acc; cbn [fold_left List.map concat list_to_set].
  - rewrite (right_id_L ∅ (∪)). reflexivity.
  - rewrite IH, collect_ids_fold, list_to_set_app_L, (assoc_L (∪)). reflexivity.
Qed.

Lemma collectCompactedIds_list (cs : list CompactionEvent.t) :
  Processors.collectCompactedIds cs
  = list_to_set (concat (List.map CompactionEvent.compactedEventIds cs)).
Proof.
  unfold Processors.collectCompactedIds.
  rewrite collect_compactions_fold, (left_id_L ∅ (∪)). reflexivity.
Qed.

Lemma omap_asCompaction_filter (evs : list Event) :
  omap Processors.asCompaction
       (List.filter (fun e => bool_decide (action e = COMPACTION)) evs)
  = omap Processors.asCompaction evs.
Proof.
  induction evs as [|e evs IH]; [reflexivity|].
  cbn [List.filter]. case_bool_decide as E.
  - destruct e; try discriminate E. cbn. rewrite IH. reflexivity.
  - destruct e; try (exfalso; apply E; reflexivity); cbn; exact IH.
Qed.

Lemma size_list_to_set_distinct (ids : list string) :
  Z.of_nat (size (list_to_set ids : gset string)) = distinctCount ids.
Proof.
  unfold distinctCount.
  rewrite <- (size_list_to_set (C := gset string) (remove_dups ids))
    by apply NoDup_remove_dups.
  f_equal. f_equal. apply set_eq. intros x.
  rewrite !elem_of_list_to_set, elem_of_remove_dups. reflexivity.
Qed.

Lemma project_contents b (evs : list Event) : forall context,
  WorkingContext.contents (fold_left (Processors.projectStep b) evs context)
  = WorkingContext.contents context ++ omap (Processors.eventToContent b) evs.
Proof.
  induction evs as [|e evs IH]; intros context; cbn [fold_left omap list_omap].
  - rewrite app_nil_r. reflexivity.
  - rewrite IH. unfold Processors.projectStep.
    destruct (Processors.eventToContent b e) as [content|]; [|reflexivity].
    cbn. rewrite <- app_assoc. reflexivity.
Qed.

Lemma project_metadata b (evs : list Event) : forall context,
  WorkingContext.metadata (fold_left (Processors.projectStep b) evs context)
  = WorkingContext.metadata context.
Proof.
  induction evs as [|e evs IH]; intros context; cbn [fold_left]; [reflexivity|].
  rewrite IH. unfold Processors.projectStep.
  destruct (Processors.eventToContent b e); reflexivity.
Qed.

(** A projected content records the id of its event, and has the role
    ["system"] exactly when the event is a compaction. *)
Lemma eventToContent_origin b e content :
  Processors.eventToContent b e = Some content -> originId content = Some (id e).
Proof.
  destruct e; cbn; try destruct b; intros H; inversion H; reflexivity.
Qed.

Lemma eventToContent_system b e content :
  Processors.eventToContent b e = Some content ->
  WorkingContext.Content.role content = WorkingContext.system ->
  action e = COMPACTION.
Proof.
  destruct e; cbn; try destruct b; intros H; inversion H; cbn; congruence.
Qed.

Lemma compactedIds_elem (evs : list Event) (c : CompactionEvent.t) (i : string) :
  Compaction c ∈ evs -> i ∈ CompactionEvent.compactedEventIds c -> i ∈ compactedIds evs.
Proof.
  intros Hc Hi. unfold compactedIds.
  apply list_elem_of_In, in_concat.
  exists (CompactionEvent.compactedEventIds c). split.
  - apply in_map, list_elem_of_In, list_elem_of_omap. exists (Compaction c). auto.
  - apply list_elem_of_In. exact Hi.
Qed.

Lemma eventToContent_compaction b c content :
  Processors.eventToContent b (Compaction c) = Some content ->
  WorkingContext.Content.role content = WorkingContext.system /\
  WorkingContext.Content.content content
    = "[Conversation Summary]: " +:+ CompactionEvent.summary c.
Proof. cbn. intros H. inversion H. split; reflexivity. Qed.

Lemma append_empty_r (s : string) : s +:+ EmptyString = s.
Proof.
  induction s as [|ch s IH]; [reflexivity|].
  change (String ch (s +:+ EmptyString) = String ch s). f_equal. exact IH.
Qed.

(** The events the compaction filter keeps when summaries are kept. *)
Lemma compactionFilter_contents s context :
  WorkingContext.contents
    (Processors.compactionFilterRequestProcessor s context keepingSummaries)
  = WorkingContext.contents context
    ++ omap derivedContent
         (List.filter
            (fun e => negb (bool_decide (id e ∈ (list_to_set (compactedIds (Session.events s))
                                                 : gset string)))
                      || bool_decide (action e = COMPACTION))
            (Session.events s)).
Proof.
  unfold Processors.compactionFilterRequestProcessor, Processors.contentsRequestProcessor.
  cbn -[Processors.projectStep List.filter omap].
  rewrite project_contents, collectCompactedIds_list, omap_asCompaction_filter.
  reflexivity.
Qed.

Lemma compactionFilter_compactedEvents s context config :
  WorkingContext.WorkingContextMetadata.compactedEvents
    (WorkingContext.metadata
       (Processors.compactionFilterRequestProcessor s context config))
  = distinctCount (compactedIds (Session.events s)).
Proof.
  unfold Processors.compactionFilterRequestProcessor, Processors.contentsRequestProcessor.
  cbn -[Processors.projectStep List.filter omap].
  rewrite project_metadata. cbn -[List.filter omap].
  rewrite collectCompactedIds_list, omap_asCompaction_filter.
  apply size_list_to_set_distinct.
Qed.

(** C6 (amended). Let the log contain a compaction event [c] and run the
    compaction filter with [keepCompactionSummaries = true].  The
    processor appends its projection to the contents of the context it
    is given.  No projected content is the content of an event whose id
    is listed by [c], unless that event is itself a compaction event;
    some projected content has the role ["system"] and a text in which
    the summary of [c] occurs; and [metadata.compactedEvents] is the
    number of distinct ids listed by the compaction events of the log. *)
Theorem compactionFilter_spec (s : Session.t) (context : WorkingContext.t)
    (c : CompactionEvent.t) :
  Compaction c ∈ Session.events s ->
  exists projected,
    WorkingContext.contents
      (Processors.compactionFilterRequestProcessor s context keepingSummaries)
    = WorkingContext.contents context ++ projected /\
    (forall e content,
       id e ∈ CompactionEvent.compactedEventIds c ->
       action e <> COMPACTION ->
       derivedContent e = Some content ->
       content ∉ projected) /\
    (exists content,
       content ∈ projected /\
       WorkingContext.Content.role content = WorkingContext.system /\
       occursIn (CompactionEvent.summary c) (WorkingContext.Content.content content)) /\
    WorkingContext.WorkingContextMetadata.compactedEvents
      (WorkingContext.metadata
         (Processors.compactionFilterRequestProcessor s context keepingSummaries))
    = distinctCount (compactedIds (Session.events s)).
Proof.
  intros Hc. eexists. split; [apply compactionFilter_contents|].
  split; [|split; [|apply compactionFilter_compactedEvents]].
  - intros e content Hid Hact He Hin.
    apply list_elem_of_omap in Hin. destruct Hin as (e' & Hin & He').
    apply list_elem_of_In, filter_In in Hin. destruct Hin as [_ Hkeep].
    pose proof (eventToContent_origin true _ _ He) as O.
    pose proof (eventToContent_origin true _ _ He') as O'.
    assert (Heq : id e' = id e) by congruence.
    apply orb_true_iff in Hkeep. destruct Hkeep as [Hk|Hk].
    + apply negb_true_iff, bool_decide_eq_false in Hk. apply Hk.
      rewrite Heq, elem_of_list_to_set. eapply compactedIds_elem; eassumption.
    + apply bool_decide_eq_true in Hk.
      destruct e'; try discriminate Hk.
      destruct (eventToContent_compaction true _ _ He') as [Hrole _].
      apply Hact. exact (eventToContent_system true _ _ He Hrole).
  - destruct (derivedContent (Compaction c)) as [content|] eqn:E; [|discriminate E].
    exists content.
    destruct (eventToContent_compaction true _ _ E) as [Hrole Htext].
    split; [|split; [exact Hrole|]].
    + apply list_elem_of_omap. exists (Compaction c). split; [|exact E].
      apply list_elem_of_In, filter_In. split; [apply list_elem_of_In; exact Hc|].
      apply orb_true_iff. right. apply bool_decide_eq_true. reflexivity.
    + exists "[Conversation Summary]: ", EmptyString.
      rewrite Htext, append_empty_r. reflexivity.
Qed.

Lemma compactionFilter_witness :
  let s := sessionWith (Session.new "agent" 0 "x") compactedLog in
  let c := sampleCompaction "c" "the user asked two questions" ["e1"; "e3"] in
  Compaction c ∈ Session.events s /\
  exists projected,
    WorkingContext.contents
      (Processors.compactionFilterRequestProcessor s (WorkingContext.new "sid" 0)
         keepingSummaries)
    = WorkingContext.contents (WorkingContext.new "sid" 0) ++ projected /\
    (forall e content,
       id e ∈ CompactionEvent.compactedEventIds c ->
       action e <> COMPACTION ->
       derivedContent e = Some content ->
       content ∉ projected) /\
    (exists content,
       content ∈ projected /\
       WorkingContext.Content.role content = WorkingContext.system /\
       occursIn (CompactionEvent.summary c) (WorkingContext.Content.content content)) /\
    WorkingContext.WorkingContextMetadata.compactedEvents
      (WorkingContext.metadata
         (Processors.compactionFilterRequestProcessor s (WorkingContext.new "sid" 0)
            keepingSummaries))
    = distinctCount (compactedIds (Session.events s)).
Proof.
  intros s c.
  assert (Hc : Compaction c ∈ Session.events s).
  { apply list_elem_of_In. vm_compute. tauto. }
  split; [exact Hc|].
  exact (compactionFilter_spec s (WorkingContext.new "sid" 0) c Hc).
Defined.

(** On [compactedLog] the filter projects the agent message and the
    summary, and counts two compacted ids. *)
Example compactionFilter_compactedLog :
  let s := sessionWith (Session.new "agent" 0 "x") compactedLog in
  let result :=
    Processors.compactionFilterRequestProcessor s (WorkingContext.new "sid" 0)
      keepingSummaries in
  List.map (fun k => (WorkingContext.Content.role k, WorkingContext.Content.content k))
           (WorkingContext.contents result)
  = [(WorkingContext.assistant, "first answer");
     (WorkingContext.system, "[Conversation Summary]: the user asked two questions")] /\
  WorkingContext.WorkingContextMetadata.compactedEvents (WorkingContext.metadata result) = 2 /\
  WorkingContext.WorkingContextMetadata.windowSize (WorkingContext.metadata result) = 2.
Proof. vm_compute. repeat split. Qed.

(** C6 as stated fails on [recompactedLog]: the event [e1] is listed by
    the compaction event [c], yet the content derived from [e1] is the
    first projected content, because [e1] is itself a compaction event
    and summaries are kept. *)
Lemma compactionFilter_keeps_listed_compaction :
  let s := sessionWith (Session.new "agent" 0 "x") recompactedLog in
  let e1 := Compaction (sampleCompaction "e1" "an earlier summary" ["e0"]) in
  let c := sampleCompaction "c" "a later summary" ["e1"; "e3"] in
  let derived :=
    WorkingContext.Content.mk
      WorkingContext.system "[Conversation Summary]: an earlier summary" None None
      (Some [("eventId", JS.JStr "e1"); ("timestamp", JS.JNum 0);
             ("compactedEventIds", JS.JArr [JS.JStr "e0"])]) in
  Session.events s = [e1; sampleAgent "e2" "an answer"; sampleUser "e3" "a question";
                      Compaction c] /\
  CompactionEvent.compactedEventIds c = [id e1; id (sampleUser "e3" "a question")] /\
  derivedContent e1 = Some derived /\
  head (WorkingContext.contents
          (Processors.compactionFilterRequestProcessor s (WorkingContext.new "sid" 0)
             keepingSummaries))
    = Some derived.
Proof. vm_compute. repeat split. Qed.

(* ===================================================================== *)
(** * Further properties of the code *)
(* ===================================================================== *)

(** ** Session: appends, queries and configuration *)

Lemma addEvents_metadata calls : forall s,
  Session.SessionMetadata.sessionId (Session.metadata (Session.addEvents calls s))
    = Session.SessionMetadata.sessionId (Session.metadata s) /\
  Session.SessionMetadata.createdAt (Session.metadata (Session.addEvents calls s))
    = Session.SessionMetadata.createdAt (Session.metadata s) /\
  Session.SessionMetadata.agentId (Session.metadata (Session.addEvents calls s))
    = Session.SessionMetadata.agentId (Session.metadata s) /\
  Session.SessionMetadata.updatedAt (Session.metadata (Session.addEvents calls s))
    = lastClock calls (Session.SessionMetadata.updatedAt (Session.metadata s)) /\
  Session.compactionConfig (Session.addEvents calls s) = Session.compactionConfig s.
Proof.
  induction calls as [|[event now] calls IH]; intros s.
  - repeat split; reflexivity.
  - rewrite addEvents_cons. cbn [fst snd].
    destruct (IH (Session.addEvent event now s)) as (H1 & H2 & H3 & H4 & H5).
    rewrite H1, H2, H3, H4, H5. repeat split.
    unfold lastClock. destruct calls as [|call calls']; [reflexivity|].
    cbn [List.map snd last].
    destruct (last (call.2 :: List.map snd calls')) as [t|] eqn:E; [reflexivity|].
    apply last_None in E. discriminate E.
Qed.

(** X1. The log is append-only and the identity of a session is stable:
    after any run of [addEvent] calls the previous log is a prefix of the
    new one, [sessionId], [createdAt], [agentId] and the compaction
    configuration are what they were, and [updatedAt] is the clock value
    of the last call (unchanged by an empty run). *)
Theorem addEvents_append_only (calls : list (Event * Z)) (s : Session.t) :
  Session.events s `prefix_of` Session.events (Session.addEvents calls s) /\
  Session.SessionMetadata.sessionId (Session.metadata (Session.addEvents calls s))
    = Session.SessionMetadata.sessionId (Session.metadata s) /\
  Session.SessionMetadata.createdAt (Session.metadata (Session.addEvents calls s))
    = Session.SessionMetadata.createdAt (Session.metadata s) /\
  Session.SessionMetadata.agentId (Session.metadata (Session.addEvents calls s))
    = Session.SessionMetadata.agentId (Session.metadata s) /\
  Session.SessionMetadata.updatedAt (Session.metadata (Session.addEvents calls s))
    = lastClock calls (Session.SessionMetadata.updatedAt (Session.metadata s)) /\
  Session.compactionConfig (Session.addEvents calls s) = Session.compactionConfig s.
Proof.
  split; [|apply addEvents_metadata].
  destruct (addEvents_statistics calls s) as (Hev & _).
  rewrite Hev. exists (List.map fst calls). reflexivity.
Qed.

Lemma nonCompactionCount_app l1 l2 :
  nonCompactionCount (l1 ++ l2) = nonCompactionCount l1 + nonCompactionCount l2.
Proof.
  rewrite <- !withoutCompactions_length, withoutCompactions_app, length_app. lia.
Qed.

Lemma nonCompactionCount_nonneg l : 0 <= nonCompactionCount l.
Proof. rewrite <- withoutCompactions_length. lia. Qed.

(** X2. Appending never clears the need for compaction: once
    [needsCompaction()] is true it stays true after any run of
    [addEvent] calls, compaction events included. *)
Theorem needsCompaction_persists (calls : list (Event * Z)) (s : Session.t) :
  Session.needsCompaction s = true ->
  Session.needsCompaction (Session.addEvents calls s) = true.
Proof.
  rewrite !needsCompaction_eq, !andb_true_iff, !Z.leb_le.
  destruct (addEvents_statistics calls s) as (Hev & _).
  destruct (addEvents_metadata calls s) as (_ & _ & _ & _ & Hcfg).
  rewrite Hev, Hcfg, nonCompactionCount_app.
  pose proof (nonCompactionCount_nonneg (List.map fst calls)).
  intros [He Ht]. split; [exact He | lia].
Qed.

Lemma needsCompaction_persists_witness :
  let s := sessionWith (Session.new "agent" 0 "x") (repeat (sampleUser "u" "hi") 50) in
  let c := Compaction (sampleCompaction "c" "fifty greetings" ["u"]) in
  Session.needsCompaction s = true /\
  Session.needsCompaction (Session.addEvents [(c, 1)] s) = true.
Proof.
  intros s c.
  assert (H : Session.needsCompaction s = true) by (vm_compute; reflexivity).
  split; [exact H|].
  exact (needsCompaction_persists [(c, 1)] s H).
Defined.

(** X3. [getEventsByTimeRange] keeps, in log order, exactly the events
    whose timestamp lies between the two bounds, both included; a range
    whose end precedes its start selects nothing; and querying the
    result of a query selects the intersection of the two ranges. *)
Theorem getEventsByTimeRange_spec (s : Session.t) :
  (forall startTime endTime e,
     e ∈ Session.getEventsByTimeRange startTime endTime s <->
     e ∈ Session.events s /\ startTime <= timestamp e <= endTime) /\
  (forall startTime endTime,
     Session.getEventsByTimeRange startTime endTime s `sublist_of` Session.events s) /\
  (forall startTime (gap : positive),
     Session.getEventsByTimeRange startTime (startTime - Z.pos gap) s = []) /\
  (forall a b c d,
     Session.getEventsByTimeRange a b (sessionWith s (Session.getEventsByTimeRange c d s))
     = Session.getEventsByTimeRange (Z.max a c) (Z.min b d) s).
Proof.
  unfold Session.getEventsByTimeRange. cbn [sessionWith Processors.withEvents Session.events].
  split; [|split; [|split]].
  - intros a b e. rewrite !list_elem_of_In, filter_In, andb_true_iff, !Z.leb_le.
    reflexivity.
  - intros a b. induction (Session.events s) as [|e evs IH]; [constructor|].
    cbn [List.filter]. destruct (_ && _); [apply sublist_skip | apply sublist_cons]; exact IH.
  - intros a gap. induction (Session.events s) as [|e evs IH]; [reflexivity|].
    cbn [List.filter]. rewrite IH.
    destruct (a <=? timestamp e) eqn:E1; destruct (timestamp e <=? a - Z.pos gap) eqn:E2;
      try reflexivity.
    apply Z.leb_le in E1, E2. lia.
  - intros a b c d. induction (Session.events s) as [|e evs IH]; [reflexivity|].
    cbn [List.filter].
    destruct ((c <=? timestamp e) && (timestamp e <=? d)) eqn:E1;
      cbn [List.filter]; rewrite IH;
      destruct ((a <=? timestamp e) && (timestamp e <=? b)) eqn:E2;
      destruct ((Z.max a c <=? timestamp e) && (timestamp e <=? Z.min b d)) eqn:E3;
      try reflexivity;
      rewrite ?andb_true_iff, ?andb_false_iff, ?Z.leb_le, ?Z.leb_gt in E1, E2, E3; lia.
Qed.

Lemma getEventsByAction_length a s :
  Z.of_nat (length (Session.getEventsByAction a s)) = countAction a (Session.events s).
Proof. reflexivity. Qed.

Lemma countAction_sum evs :
  Z.of_nat (length evs)
  = countAction USER_MESSAGE evs + countAction AGENT_MESSAGE evs
    + countAction TOOL_CALL evs + countAction TOOL_RESULT evs
    + countAction ERROR evs + countAction CONTROL_SIGNAL evs
    + countAction COMPACTION evs + countAction AGENT_TRANSFER evs
    + countAction SYSTEM_INSTRUCTION evs.
Proof.
  induction evs as [|e evs IH]; [reflexivity|].
  rewrite !countAction_cons. cbn [length]. rewrite Nat2Z.inj_succ.
  destruct e; cbn [action]; settle_actions.
Qed.

(** X4. [getEventsByAction] and [addEvent] agree: the appended event
    joins the end of the answer for its own action and of no other.  The
    nine answers partition the log: every returned event has the action
    asked for, and the nine lengths add up to the length of the log. *)
Theorem getEventsByAction_spec (s : Session.t) :
  (forall a e now,
     Session.getEventsByAction a (Session.addEvent e now s)
     = Session.getEventsByAction a s ++ (if bool_decide (action e = a) then [e] else [])) /\
  (forall a, Forall (fun e => action e = a) (Session.getEventsByAction a s)) /\
  Z.of_nat (length (Session.events s))
  = Z.of_nat (length (Session.getEventsByAction USER_MESSAGE s))
    + Z.of_nat (length (Session.getEventsByAction AGENT_MESSAGE s))
    + Z.of_nat (length (Session.getEventsByAction TOOL_CALL s))
    + Z.of_nat (length (Session.getEventsByAction TOOL_RESULT s))
    + Z.of_nat (length (Session.getEventsByAction ERROR s))
    + Z.of_nat (length (Session.getEventsByAction CONTROL_SIGNAL s))
    + Z.of_nat (length (Session.getEventsByAction COMPACTION s))
    + Z.of_nat (length (Session.getEventsByAction AGENT_TRANSFER s))
    + Z.of_nat (length (Session.getEventsByAction SYSTEM_INSTRUCTION s)).
Proof.
  split; [|split].
  - intros a e now. unfold Session.getEventsByAction.
    cbn [Session.addEvent Session.events]. rewrite List.filter_app. reflexivity.
  - intros a. unfold Session.getEventsByAction. apply List.Forall_forall.
    intros e He. apply filter_In in He. destruct He as [_ He].
    apply bool_decide_eq_true in He. exact He.
  - rewrite !getEventsByAction_length. apply countAction_sum.
Qed.

Lemma assignCompactionConfig_merge c u1 u2 :
  Session.assignCompactionConfig (Session.assignCompactionConfig c u1) u2
  = Session.assignCompactionConfig c (mergePartial u1 u2).
Proof. destruct u1 as [[?|] [?|] [?|] [?|] [?|]], u2 as [[?|] [?|] [?|] [?|] [?|]]; reflexivity. Qed.

(** X5. [updateCompactionConfig] touches the configuration alone; the
    empty update changes nothing; two updates in a row are one update
    with the later fields winning; and after [{ enabled: false }] the
    session never needs compaction, whatever its log. *)
Theorem updateCompactionConfig_spec (s : Session.t) :
  (forall updates,
     Session.metadata (Session.updateCompactionConfig updates s) = Session.metadata s /\
     Session.events (Session.updateCompactionConfig updates s) = Session.events s /\
     Session.statistics (Session.updateCompactionConfig updates s) = Session.statistics s) /\
  Session.updateCompactionConfig noUpdate s = s /\
  (forall u1 u2,
     Session.updateCompactionConfig u2 (Session.updateCompactionConfig u1 s)
     = Session.updateCompactionConfig (mergePartial u1 u2) s) /\
  (forall calls,
     Session.needsCompaction
       (Session.addEvents calls (Session.updateCompactionConfig disabling s)) = false).
Proof.
  split; [|split; [|split]].
  - intros updates. repeat split; reflexivity.
  - destruct s as [m evs st [en th w o str]]. reflexivity.
  - intros u1 u2. unfold Session.updateCompactionConfig. cbn.
    rewrite assignCompactionConfig_merge. reflexivity.
  - intros calls. rewrite needsCompaction_eq.
    destruct (addEvents_metadata calls (Session.updateCompactionConfig disabling s))
      as (_ & _ & _ & _ & Hcfg).
    rewrite Hcfg. reflexivity.
Qed.

(** X6. [toObject(fromObject(obj))] gives back [obj]: rebuilding a
    session from a plain object and exporting it again loses nothing and
    adds nothing, whatever the constructor drew for the fresh session. *)
Theorem toObject_fromObject (obj : Session.Snapshot.t) (now : Z) (suffix : string) :
  Session.toObject (Session.fromObject now suffix obj) = obj.
Proof.
  destruct obj as [[sid ca ua ag] evs [te tu ta tt ter tc av tk] [en th w o str]].
  reflexivity.
Qed.

(** X7. A negative argument makes [getLastNEvents] drop from the front:
    [getLastNEvents(-k)] is the log without its first [k] events, since
    the slice then starts at index [k]. *)
Theorem getLastNEvents_negative (s : Session.t) (k : positive) :
  Session.getLastNEvents (Z.neg k) s = drop (Pos.to_nat k) (Session.events s) /\
  length (Session.getLastNEvents (Z.neg k) s)
  = (length (Session.events s) - Pos.to_nat k)%nat.
Proof.
  assert (E : Session.getLastNEvents (Z.neg k) s = drop (Pos.to_nat k) (Session.events s)).
  { unfold Session.getLastNEvents, JS.slice. change (- Z.neg k) with (Z.pos k).
    cbn [Z.ltb Z.compare]. cbv iota.
    destruct (Z.le_ge_cases (Z.pos k) (Z.of_nat (length (Session.events s)))) as [H|H].
    - rewrite Z.min_l by exact H. f_equal; lia.
    - rewrite Z.min_r by exact H. rewrite Nat2Z.id.
      rewrite !drop_ge by lia. reflexivity. }
  split; [exact E|]. rewrite E. apply length_drop.
Qed.

Lemma updateLast_snoc {A} (f : A -> A) (l : list A) (x : A) :
  updateLast f (l ++ [x]) = l ++ [f x].
Proof.
  induction l as [|y l IH]; [reflexivity|].
  cbn [app updateLast]. rewrite IH.
  destruct (l ++ [x]) eqn:E; [destruct l; discriminate E | reflexivity].
Qed.

Lemma map_updateLast {A B} (g : A -> B) (f : A -> A) (l : list A) :
  (forall x, g (f x) = g x) -> List.map g (updateLast f l) = List.map g l.
Proof.
  intros H. induction l as [|y l IH]; [reflexivity|].
  destruct l as [|z l]; [cbn; rewrite H; reflexivity|].
  change (updateLast f (y :: z :: l)) with (y :: updateLast f (z :: l)).
  cbn [List.map]. f_equal. exact IH.
Qed.

(** The scan is either still waiting for a first user message, with no
    turn recorded, or has a turn in progress. *)
Lemma scan_cases evs :
  fold_left Session.turnStep evs ([], None) = ([], None) \/
  exists turns cur, fold_left Session.turnStep evs ([], None) = (turns, Some cur).
Proof.
  induction evs as [|e evs IH] using rev_ind; [left; reflexivity|].
  rewrite fold_left_app. cbn [fold_left].
  destruct IH as [-> | (turns & cur & ->)].
  - destruct e; cbn; eauto.
  - right. destruct e; cbn; eauto.
Qed.

Lemma turnsOf_snoc_update evs e f :
  (forall turns cur, Session.turnStep (turns, Some cur) e = (turns, Some (f cur))) ->
  Session.turnStep ([], None) e = ([], None) ->
  Session.turnsOf (evs ++ [e]) = updateLast f (Session.turnsOf evs).
Proof.
  intros Hbusy Hidle. unfold Session.turnsOf.
  rewrite fold_left_app. cbn [fold_left].
  destruct (scan_cases evs) as [-> | (turns & cur & ->)].
  - rewrite Hidle. reflexivity.
  - rewrite Hbusy. unfold Session.flushTurn. cbn [fst snd].
    rewrite updateLast_snoc. reflexivity.
Qed.

Lemma turnsOf_snoc_ignored evs e :
  (forall st, Session.turnStep st e = st) ->
  Session.turnsOf (evs ++ [e]) = Session.turnsOf evs.
Proof.
  intros H. unfold Session.turnsOf. rewrite fold_left_app. cbn [fold_left].
  rewrite H. reflexivity.
Qed.

Lemma turnsOf_snoc_user evs u :
  Session.turnsOf (evs ++ [UserMessage u]) = Session.turnsOf evs ++ [openedBy u].
Proof.
  unfold Session.turnsOf. rewrite fold_left_app. cbn [fold_left].
  rewrite turnStep_user. reflexivity.
Qed.

Lemma turnsOf_users evs :
  List.map Session.ConversationTurn.user (Session.turnsOf evs) = omap asUserMessage evs.
Proof.
  induction evs as [|e evs IH] using rev_ind; [reflexivity|].
  rewrite omap_app. cbn [omap list_omap].
  destruct e as [u|a|t|r|x|x|x|x|x]; cbn [asUserMessage].
  - rewrite turnsOf_snoc_user, map_app, IH. reflexivity.
  - rewrite (turnsOf_snoc_update evs _ (withAgent a)), map_updateLast, IH, app_nil_r;
      reflexivity.
  - rewrite (turnsOf_snoc_update evs _ (withTool (Session.ToolCallOf t))),
      map_updateLast, IH, app_nil_r; reflexivity.
  - rewrite (turnsOf_snoc_update evs _ (withTool (Session.ToolResultOf r))),
      map_updateLast, IH, app_nil_r; reflexivity.
  - rewrite turnsOf_snoc_ignored, IH, app_nil_r; [reflexivity | intros [? [?|]]; reflexivity].
  - rewrite turnsOf_snoc_ignored, IH, app_nil_r; [reflexivity | intros [? [?|]]; reflexivity].
  - rewrite turnsOf_snoc_ignored, IH, app_nil_r; [reflexivity | intros [? [?|]]; reflexivity].
  - rewrite turnsOf_snoc_ignored, IH, app_nil_r; [reflexivity | intros [? [?|]]; reflexivity].
  - rewrite turnsOf_snoc_ignored, IH, app_nil_r; [reflexivity | intros [? [?|]]; reflexivity].
Qed.

(** X8. How the turns follow the log.  The users of the turns are the
    user messages of the log, in order.  An agent message appended to
    the log replaces the agent of the last turn (the last one wins); a
    tool call or tool result joins the end of the tools of the last
    turn; with no turn open yet each of them is dropped.  Errors, control
    signals, compactions, transfers and system instructions never change
    the turns. *)
Theorem getConversationTurns_follow_log (s : Session.t) (evs : list Event) :
  List.map Session.ConversationTurn.user (Session.getConversationTurns (sessionWith s evs))
    = omap asUserMessage evs /\
  (forall a,
     Session.getConversationTurns (sessionWith s (evs ++ [AgentMessage a]))
     = updateLast (withAgent a) (Session.getConversationTurns (sessionWith s evs))) /\
  (forall t,
     Session.getConversationTurns (sessionWith s (evs ++ [ToolCall t]))
     = updateLast (withTool (Session.ToolCallOf t))
                  (Session.getConversationTurns (sessionWith s evs))) /\
  (forall r,
     Session.getConversationTurns (sessionWith s (evs ++ [ToolResultEv r]))
     = updateLast (withTool (Session.ToolResultOf r))
                  (Session.getConversationTurns (sessionWith s evs))) /\
  (forall x,
     Session.getConversationTurns (sessionWith s (evs ++ [Error x]))
     = Session.getConversationTurns (sessionWith s evs)) /\
  (forall x,
     Session.getConversationTurns (sessionWith s (evs ++ [ControlSignal x]))
     = Session.getConversationTurns (sessionWith s evs)) /\
  (forall x,
     Session.getConversationTurns (sessionWith s (evs ++ [Compaction x]))
     = Session.getConversationTurns (sessionWith s evs)) /\
  (forall x,
     Session.getConversationTurns (sessionWith s (evs ++ [AgentTransfer x]))
     = Session.getConversationTurns (sessionWith s evs)) /\
  (forall x,
     Session.getConversationTurns (sessionWith s (evs ++ [SystemInstruction x]))
     = Session.getConversationTurns (sessionWith s evs)).
Proof.
  unfold Session.getConversationTurns.
  cbn [sessionWith Processors.withEvents Session.events].
  split; [apply turnsOf_users|].
  split; [intros a; apply turnsOf_snoc_update; reflexivity|].
  split; [intros t; apply turnsOf_snoc_update; reflexivity|].
  split; [intros r; apply turnsOf_snoc_update; reflexivity|].
  repeat split; intros x; apply turnsOf_snoc_ignored; intros [? [?|]]; reflexivity.
Qed.

(** ** WorkingContext: the estimate, truncation and the two formats *)

#[local] Existing Instance WorkingContext.ContentRole_eq_dec.

Lemma contentChars_fold cs : forall init,
  fold_left (fun acc content => acc + JS.strlen (WorkingContext.Content.content content))
            cs init
  = init + contentChars cs.
Proof.
  induction cs as [|k cs IH]; intros init; cbn [fold_left contentChars fold_right].
  - lia.
  - rewrite IH. fold (contentChars cs). lia.
Qed.

Lemma contentChars_app cs1 cs2 :
  contentChars (cs1 ++ cs2) = contentChars cs1 + contentChars cs2.
Proof.
  induction cs1 as [|k cs1 IH]; [reflexivity|].
  cbn [app contentChars fold_right]. fold (contentChars (cs1 ++ cs2)).
  fold (contentChars cs1). rewrite IH. lia.
Qed.

Lemma contentChars_nonneg cs : 0 <= contentChars cs.
Proof.
  induction cs as [|k cs IH]; cbn [contentChars fold_right]; [lia|].
  fold (contentChars cs). pose proof (strlen_nonneg (WorkingContext.Content.content k)). lia.
Qed.

(** Four times the cost of a run of contents covers its characters. *)
Lemma contentChars_cost cs : contentChars cs <= 4 * cost cs.
Proof.
  induction cs as [|k cs IH]; [reflexivity|].
  rewrite cost_cons. cbn [contentChars fold_right]. fold (contentChars cs).
  unfold WorkingContext.contentTokens. rewrite ceilQuarter_div.
  Z.div_mod_to_equations. lia.
Qed.

Lemma estimateTokenCount_totalChars c :
  WorkingContext.estimateTokenCount c = WorkingContext.ceilQuarter (totalChars c).
Proof.
  unfold WorkingContext.estimateTokenCount, totalChars, memoryChars, artifactChars.
  rewrite contentChars_fold.
  destruct (WorkingContext.memoryResults c), (WorkingContext.artifactReferences c);
    cbn [length Nat.ltb Nat.leb]; f_equal; lia.
Qed.

Lemma totalChars_nonneg c : 0 <= totalChars c.
Proof.
  unfold totalChars, memoryChars, artifactChars,
         WorkingContext.instructionChars, WorkingContext.identityChars.
  pose proof (contentChars_nonneg (WorkingContext.contents c)).
  destruct (WorkingContext.agentIdentity c), (WorkingContext.memoryResults c),
           (WorkingContext.artifactReferences c);
    repeat match goal with |- context [JS.strlen ?s] =>
             pose proof (strlen_nonneg s); generalize dependent (JS.strlen s); intros
           end; lia.
Qed.

(** X9. Adding contents never lowers the estimate and raises it by at
    most the cost of what is added; an empty context estimates to 0. *)
Theorem estimateTokenCount_addContents (cs : list WorkingContext.Content.t)
    (c : WorkingContext.t) :
  WorkingContext.estimateTokenCount c
    <= WorkingContext.estimateTokenCount (WorkingContext.addContents cs c) /\
  WorkingContext.estimateTokenCount (WorkingContext.addContents cs c)
    <= WorkingContext.estimateTokenCount c + cost cs /\
  0 <= WorkingContext.estimateTokenCount c /\
  (forall sessionId now,
     WorkingContext.estimateTokenCount (WorkingContext.new sessionId now) = 0).
Proof.
  rewrite !estimateTokenCount_totalChars, !ceilQuarter_div.
  assert (E : totalChars (WorkingContext.addContents cs c) = totalChars c + contentChars cs).
  { unfold totalChars, memoryChars, artifactChars,
           WorkingContext.instructionChars, WorkingContext.identityChars,
           WorkingContext.addContents, WorkingContext.set_contents.
    cbn [WorkingContext.contents WorkingContext.systemInstructions
         WorkingContext.agentIdentity WorkingContext.memoryResults
         WorkingContext.artifactReferences].
    rewrite contentChars_app. lia. }
  rewrite E.
  pose proof (contentChars_nonneg cs). pose proof (contentChars_cost cs).
  pose proof (totalChars_nonneg c).
  split; [|split; [|split]]; try (Z.div_mod_to_equations; lia).
  intros sessionId now. reflexivity.
Qed.

Lemma systemTokens_quarters c :
  WorkingContext.systemTokens c
  == inject_Z (WorkingContext.instructionChars c + WorkingContext.identityChars c) * (1 # 4).
Proof.
  unfold WorkingContext.systemTokens, WorkingContext.identityChars.
  destruct (WorkingContext.agentIdentity c) as [i|].
  - rewrite inject_Z_plus. field.
  - rewrite Z.add_0_r. field.
Qed.

(** What [truncateToFit] keeps when it has to truncate: the contents are
    [dropped ++ kept], and [kept] is empty or costs no more than the
    budget. *)
Lemma truncateToFit_kept config c :
  WorkingContext.fitsWithinLimit config c = false ->
  exists dropped kept,
    WorkingContext.contents c = dropped ++ kept /\
    WorkingContext.truncateToFit config c = truncatedTo kept c /\
    (kept = [] \/ inject_Z (cost kept) <= availableForContents config c)%Q.
Proof.
  intros Fit. rewrite truncateToFit_unfold, Fit.
  destruct (budgetPrefix_spec (availableForContents config c)
                              (rev (WorkingContext.contents c)) 0)
    as (rest & Hp & Hb & _).
  exists (rev rest), (rev (budgetPrefix (availableForContents config c)
                                       (rev (WorkingContext.contents c)) 0)).
  split; [|split; [reflexivity|]].
  - rewrite <- rev_app_distr, <- Hp, rev_involutive. reflexivity.
  - destruct Hb as [Hb|Hb]; [left; rewrite Hb; reflexivity|].
    right. rewrite cost_rev. exact Hb.
Qed.

(** X10. When the context has no memory results and no artifact
    references and [availableForHistory] is a whole number,
    [truncateToFit] reaches its goal unless it had to drop everything:
    the result fits within the limit, or its contents are empty. *)
Theorem truncateToFit_fits (config : WorkingContext.ContextWindowConfig.t)
    (c : WorkingContext.t) (limit : Z) :
  WorkingContext.memoryResults c = [] ->
  WorkingContext.artifactReferences c = [] ->
  WorkingContext.ContextWindowConfig.availableForHistory config == inject_Z limit ->
  WorkingContext.fitsWithinLimit config (WorkingContext.truncateToFit config c) = true \/
  WorkingContext.contents (WorkingContext.truncateToFit config c) = [].
Proof.
  intros Hmem Hart Hlimit.
  destruct (WorkingContext.fitsWithinLimit config c) eqn:Fit.
  - left. rewrite truncateToFit_unfold, Fit. exact Fit.
  - destruct (truncateToFit_kept config c Fit) as (dropped & kept & Hc & -> & Hk).
    destruct Hk as [-> | Hk]; [right; reflexivity|].
    left. unfold WorkingContext.fitsWithinLimit.
    apply Qle_bool_iff. rewrite Hlimit, <- Zle_Qle.
    rewrite estimateTokenCount_totalChars, ceilQuarter_div.
    unfold availableForContents in Hk.
    rewrite Hlimit, systemTokens_quarters in Hk.
    assert (Hz : 4 * cost kept
                 + (WorkingContext.instructionChars c + WorkingContext.identityChars c)
                 <= 4 * limit).
    { rewrite Zle_Qle, inject_Z_plus, !inject_Z_mult.
      change (inject_Z 4) with 4%Q.
      revert Hk.
      generalize (inject_Z (cost kept)), (inject_Z limit),
        (inject_Z (WorkingContext.instructionChars c + WorkingContext.identityChars c)).
      intros a l q Hk. lra. }
    pose proof (contentChars_cost kept) as Hcost.
    assert (Ht : totalChars (truncatedTo kept c)
                 = WorkingContext.instructionChars c + WorkingContext.identityChars c
                   + contentChars kept).
    { unfold totalChars, memoryChars, artifactChars,
             WorkingContext.instructionChars, WorkingContext.identityChars.
      cbn [truncatedTo WorkingContext.contents WorkingContext.systemInstructions
           WorkingContext.agentIdentity WorkingContext.memoryResults
           WorkingContext.artifactReferences].
      rewrite Hmem, Hart. lia. }
    rewrite Ht. Z.div_mod_to_equations. lia.
Qed.

Lemma truncateToFit_fits_witness :
  let text n := String.concat EmptyString (repeat "x" n) in
  let item n := WorkingContext.Content.mk WorkingContext.user (text n) None None None in
  let c := WorkingContext.addContents [item 4%nat; item 40%nat; item 8%nat]
             (WorkingContext.addSystemInstruction "Be brief." (WorkingContext.new "sid" 0)) in
  let config := WorkingContext.ContextWindowConfig.mk 100 0 0 6 in
  WorkingContext.fitsWithinLimit config c = false /\
  (WorkingContext.fitsWithinLimit config (WorkingContext.truncateToFit config c) = true \/
   WorkingContext.contents (WorkingContext.truncateToFit config c) = []).
Proof.
  intros text item c config. split; [vm_compute; reflexivity|].
  apply (truncateToFit_fits config c 6); reflexivity.
Defined.

(** Memory results are outside the walk: with them the truncated context
    can keep contents and still exceed the limit. *)
Example truncateToFit_memory_overflow :
  let text n := String.concat EmptyString (repeat "x" n) in
  let item n := WorkingContext.Content.mk WorkingContext.user (text n) None None None in
  let c := WorkingContext.addMemoryResults [text 80%nat]
             (WorkingContext.addContents [item 40%nat; item 8%nat]
                                         (WorkingContext.new "sid" 0)) in
  let config := WorkingContext.ContextWindowConfig.mk 100 0 0 5 in
  WorkingContext.contents (WorkingContext.truncateToFit config c) = [item 8%nat] /\
  WorkingContext.fitsWithinLimit config (WorkingContext.truncateToFit config c) = false.
Proof. vm_compute. repeat split. Qed.

(** X11. [truncateToFit] only ever removes: the estimate of the result
    is at most the estimate of the context, the result has at most as
    many contents, and its instructions, identity, memory results and
    artifact references are those of the context. *)
Theorem truncateToFit_shrinks (config : WorkingContext.ContextWindowConfig.t)
    (c : WorkingContext.t) :
  WorkingContext.estimateTokenCount (WorkingContext.truncateToFit config c)
    <= WorkingContext.estimateTokenCount c /\
  (length (WorkingContext.contents (WorkingContext.truncateToFit config c))
   <= length (WorkingContext.contents c))%nat /\
  WorkingContext.systemInstructions (WorkingContext.truncateToFit config c)
    = WorkingContext.systemInstructions c /\
  WorkingContext.agentIdentity (WorkingContext.truncateToFit config c)
    = WorkingContext.agentIdentity c /\
  WorkingContext.memoryResults (WorkingContext.truncateToFit config c)
    = WorkingContext.memoryResults c /\
  WorkingContext.artifactReferences (WorkingContext.truncateToFit config c)
    = WorkingContext.artifactReferences c.
Proof.
  destruct (WorkingContext.fitsWithinLimit config c) eqn:Fit.
  - rewrite truncateToFit_unfold, Fit. repeat split; lia.
  - destruct (truncateToFit_kept config c Fit) as (dropped & kept & Hc & -> & _).
    split; [|split; [|repeat split]].
    + rewrite !estimateTokenCount_totalChars, !ceilQuarter_div.
      assert (Ht : totalChars c = totalChars (truncatedTo kept c) + contentChars dropped).
      { unfold totalChars, memoryChars, artifactChars,
               WorkingContext.instructionChars, WorkingContext.identityChars.
        cbn [truncatedTo WorkingContext.contents WorkingContext.systemInstructions
             WorkingContext.agentIdentity WorkingContext.memoryResults
             WorkingContext.artifactReferences].
        rewrite Hc, contentChars_app. lia. }
      rewrite Ht. pose proof (contentChars_nonneg dropped).
      Z.div_mod_to_equations. lia.
    + cbn [truncatedTo WorkingContext.contents]. rewrite Hc, length_app. lia.
Qed.

Lemma toMessage_content b k :
  WorkingContext.WorkersAIMessage.content (WorkingContext.toMessage b k)
  = WorkingContext.Content.content k.
Proof.
  unfold WorkingContext.toMessage. case_bool_decide; [destruct b|]; reflexivity.
Qed.

Lemma toInput_text k :
  inputText (WorkingContext.toInput k) = Some (WorkingContext.Content.content k).
Proof. unfold WorkingContext.toInput. case_bool_decide; reflexivity. Qed.

(** X12. Neither format loses, reorders or rewrites text: whatever
    [format] and [model] are asked for, the result carries the
    synthesized system text first and then the text of each content, in
    the order of the contents. *)
Theorem toModelFormat_keeps_texts (c : WorkingContext.t)
    (options : option WorkingContext.FormatOptions.t) :
  formatTexts (WorkingContext.toModelFormat None options c)
    = Some (WorkingContext.systemContent c)
      :: List.map (fun k => Some (WorkingContext.Content.content k))
                  (WorkingContext.contents c) /\
  formatTexts (WorkingContext.toModelFormat (Some "workers-ai") options c)
    = formatTexts (WorkingContext.toModelFormat None options c).
Proof.
  split; [|reflexivity].
  unfold WorkingContext.toModelFormat. cbn [default]. 
  change (String.eqb "workers-ai" "workers-ai") with true. cbv iota.
  unfold WorkingContext._toWorkersAIFormat.
  destruct (String.eqb _ "responses"); cbn [formatTexts List.map]; f_equal.
  - rewrite map_map. apply map_ext. intros k. apply toInput_text.
  - rewrite map_map. apply map_ext. intros k. rewrite toMessage_content. reflexivity.
Qed.

Lemma chat_messages c model :
  WorkingContext.toModelFormat None (chatOptions model) c
  = inr (WorkingContext.MessagesShape
           (WorkingContext.WorkersAIMessage.mk "system" (WorkingContext.systemContent c)
                                               None None
            :: List.map
                 (WorkingContext.toMessage
                    (match model with
                     | Some m => if JS.truthy_string m
                                 then bool_decide (m ∈ WorkingContext.MODELS_USING_ASSISTANT_ROLE)
                                 else false
                     | None => false
                     end))
                 (WorkingContext.contents c))).
Proof. reflexivity. Qed.

Lemma uses_assistant_role_iff model :
  (match model with
   | Some m => if JS.truthy_string m
               then bool_decide (m ∈ WorkingContext.MODELS_USING_ASSISTANT_ROLE)
               else false
   | None => false
   end) = bool_decide (model = Some mistralSmall).
Proof.
  destruct model as [m|]; [|reflexivity].
  unfold WorkingContext.MODELS_USING_ASSISTANT_ROLE.
  destruct (JS.truthy_string m) eqn:T.
  - apply bool_decide_ext. rewrite elem_of_singleton. unfold mistralSmall.
    split; congruence.
  - destruct m; [|discriminate T]. reflexivity.
Qed.

(** X13. In the chat-style shape the first message has role ["system"]
    and every content keeps its own role, except that for the one model
    listed as using the assistant role a ["tool"] content is sent as
    ["assistant"], so that no message has role ["tool"] for it. *)
Theorem chat_roles (c : WorkingContext.t) (model : option string) :
  (model <> Some mistralSmall ->
   messageRoles (WorkingContext.toModelFormat None (chatOptions model) c)
   = "system" :: List.map (fun k => WorkingContext.ContentRole_value
                                      (WorkingContext.Content.role k))
                          (WorkingContext.contents c)) /\
  (model = Some mistralSmall ->
   messageRoles (WorkingContext.toModelFormat None (chatOptions model) c)
   = "system" :: List.map (fun k =>
                             if bool_decide (WorkingContext.Content.role k = WorkingContext.tool)
                             then "assistant"
                             else WorkingContext.ContentRole_value
                                    (WorkingContext.Content.role k))
                          (WorkingContext.contents c) /\
   Forall (fun role => role <> "tool")
          (messageRoles (WorkingContext.toModelFormat None (chatOptions model) c))).
Proof.
  rewrite chat_messages, uses_assistant_role_iff.
  cbn [messageRoles List.map WorkingContext.WorkersAIMessage.role].
  split; intros H.
  - rewrite bool_decide_eq_false_2 by exact H.
    f_equal. rewrite map_map. apply map_ext. intros k.
    unfold WorkingContext.toMessage. case_bool_decide as E; [rewrite E|]; reflexivity.
  - rewrite bool_decide_eq_true_2 by exact H.
    assert (E : List.map WorkingContext.WorkersAIMessage.role
                  (List.map (WorkingContext.toMessage true) (WorkingContext.contents c))
                = List.map (fun k =>
                     if bool_decide (WorkingContext.Content.role k = WorkingContext.tool)
                     then "assistant"
                     else WorkingContext.ContentRole_value (WorkingContext.Content.role k))
                    (WorkingContext.contents c)).
    { rewrite map_map. apply map_ext. intros k.
      unfold WorkingContext.toMessage. case_bool_decide; reflexivity. }
    rewrite E. split; [reflexivity|].
    constructor; [discriminate|].
    apply List.Forall_forall. intros role Hin. apply in_map_iff in Hin.
    destruct Hin as (k & <- & _).
    case_bool_decide as Hk; [discriminate|].
    destruct (WorkingContext.Content.role k); try discriminate. congruence.
Qed.

Lemma chat_roles_witness :
  let c := WorkingContext.addContents
             [WorkingContext.Content.mk WorkingContext.user "add 2 and 2" None None None;
              WorkingContext.Content.mk WorkingContext.tool "4" (Some "calc") (Some "call_1") None]
             (WorkingContext.new "sid" 0) in
  messageRoles (WorkingContext.toModelFormat None (chatOptions (Some "@cf/meta/llama")) c)
    = ["system"; "user"; "tool"] /\
  messageRoles (WorkingContext.toModelFormat None (chatOptions (Some mistralSmall)) c)
    = ["system"; "user"; "assistant"].
Proof.
  intros c. split.
  - apply (proj1 (chat_roles c (Some "@cf/meta/llama"))). discriminate.
  - apply (proj1 (proj2 (chat_roles c (Some mistralSmall)) eq_refl)).
Defined.

(** ** Processors: the projection and the history-shaping strategies *)

Lemma contentsRequestProcessor_contents s context config :
  WorkingContext.contents (Processors.contentsRequestProcessor s context config)
  = WorkingContext.contents context
    ++ omap (Processors.eventToContent (includesToolCalls config))
            (selectedEvents config (Session.events s)).
Proof.
  unfold Processors.contentsRequestProcessor, selectedEvents, includesToolCalls.
  cbn [WorkingContext.set_metadata WorkingContext.contents].
  rewrite project_contents.
  destruct (default [] (config ≫= Processors.ContentsProcessorConfig.filterActions));
    reflexivity.
Qed.

Lemma added_app before after extra :
  WorkingContext.contents after = WorkingContext.contents before ++ extra ->
  added before after = extra.
Proof.
  intros H. unfold added. rewrite H, drop_app_length. reflexivity.
Qed.

Lemma contentsRequestProcessor_added s context config :
  added context (Processors.contentsRequestProcessor s context config)
  = omap (Processors.eventToContent (includesToolCalls config))
         (selectedEvents config (Session.events s)).
Proof. apply added_app, contentsRequestProcessor_contents. Qed.

Lemma project_fields b (evs : list Event) : forall context,
  WorkingContext.systemInstructions (fold_left (Processors.projectStep b) evs context)
    = WorkingContext.systemInstructions context /\
  WorkingContext.agentIdentity (fold_left (Processors.projectStep b) evs context)
    = WorkingContext.agentIdentity context /\
  WorkingContext.memoryResults (fold_left (Processors.projectStep b) evs context)
    = WorkingContext.memoryResults context /\
  WorkingContext.artifactReferences (fold_left (Processors.projectStep b) evs context)
    = WorkingContext.artifactReferences context.
Proof.
  induction evs as [|e evs IH]; intros context; cbn [fold_left]; [repeat split|].
  destruct (IH (Processors.projectStep b context e)) as (H1 & H2 & H3 & H4).
  rewrite H1, H2, H3, H4. unfold Processors.projectStep.
  destruct (Processors.eventToContent b e); repeat split.
Qed.

(** X14. The contents processor only appends: the contents the context
    already had stay in front, its instructions, identity, memory
    results and artifact references are untouched, and
    [metadata.windowSize] becomes the number of all contents, earlier
    ones included.  So running it a second time on its own result
    appends the same projection once more. *)
Theorem contentsRequestProcessor_appends (s : Session.t) (context : WorkingContext.t)
    (config : option Processors.ContentsProcessorConfig.t) :
  WorkingContext.contents (Processors.contentsRequestProcessor s context config)
    = WorkingContext.contents context
      ++ added context (Processors.contentsRequestProcessor s context config) /\
  WorkingContext.WorkingContextMetadata.windowSize
    (WorkingContext.metadata (Processors.contentsRequestProcessor s context config))
    = Z.of_nat (length (WorkingContext.contents
                          (Processors.contentsRequestProcessor s context config))) /\
  WorkingContext.systemInstructions (Processors.contentsRequestProcessor s context config)
    = WorkingContext.systemInstructions context /\
  WorkingContext.agentIdentity (Processors.contentsRequestProcessor s context config)
    = WorkingContext.agentIdentity context /\
  WorkingContext.memoryResults (Processors.contentsRequestProcessor s context config)
    = WorkingContext.memoryResults context /\
  WorkingContext.artifactReferences (Processors.contentsRequestProcessor s context config)
    = WorkingContext.artifactReferences context /\
  WorkingContext.contents
    (Processors.contentsRequestProcessor s
       (Processors.contentsRequestProcessor s context config) config)
    = WorkingContext.contents context
      ++ added context (Processors.contentsRequestProcessor s context config)
      ++ added context (Processors.contentsRequestProcessor s context config).
Proof.
  rewrite contentsRequestProcessor_added.
  split; [apply contentsRequestProcessor_contents|].
  split; [reflexivity|].
  split; [|split; [|split; [|split]]].
  5: { rewrite !contentsRequestProcessor_contents, <- app_assoc. reflexivity. }
  all: unfold Processors.contentsRequestProcessor;
    cbn [WorkingContext.set_metadata WorkingContext.systemInstructions
         WorkingContext.agentIdentity WorkingContext.memoryResults
         WorkingContext.artifactReferences];
    apply project_fields.
Qed.

Lemma omap_length_le {A B} (f : A -> option B) (l : list A) :
  (length (omap f l) <= length l)%nat.
Proof.
  induction l as [|x l IH]; [reflexivity|].
  cbn [omap list_omap]. destruct (f x); cbn [length]; lia.
Qed.

Lemma filter_length_le {A} (p : A -> bool) (l : list A) :
  (length (List.filter p l) <= length l)%nat.
Proof. induction l as [|x l IH]; cbn; [lia|]. destruct (p x); cbn; lia. Qed.

Lemma selectedEvents_length config evs :
  (length (selectedEvents config evs) <= length evs)%nat.
Proof.
  unfold selectedEvents.
  assert (W : (length (match config ≫= Processors.ContentsProcessorConfig.windowSize with
                       | Some w => if JS.truthy_Z w && (0 <? w)%Z
                                   then JS.slice (- w)%Z evs else evs
                       | None => evs
                       end) <= length evs)%nat).
  { destruct (config ≫= _) as [w|]; [|lia].
    destruct (JS.truthy_Z w && (0 <? w)); [|lia].
    unfold JS.slice. rewrite length_drop. lia. }
  destruct (default [] _); [exact W|].
  etransitivity; [apply filter_length_le | exact W].
Qed.

(** X15. The window of the contents processor.  A [windowSize] of zero
    or below is no window at all: the result is the one obtained with
    [windowSize] left out.  A positive [windowSize] bounds what is
    added: at most that many contents, and never more than there are
    events. *)
Theorem contentsRequestProcessor_window (s : Session.t) (context : WorkingContext.t)
    (includeToolCalls : option bool) (filterActions : option (list EventAction)) :
  Processors.contentsRequestProcessor s context
    (contentsConfig (Some 0) includeToolCalls filterActions)
  = Processors.contentsRequestProcessor s context
      (contentsConfig None includeToolCalls filterActions) /\
  (forall w : positive,
     Processors.contentsRequestProcessor s context
       (contentsConfig (Some (Z.neg w)) includeToolCalls filterActions)
     = Processors.contentsRequestProcessor s context
         (contentsConfig None includeToolCalls filterActions)) /\
  (forall w : positive,
     (length (added context
                (Processors.contentsRequestProcessor s context
                   (contentsConfig (Some (Z.pos w)) includeToolCalls filterActions)))
      <= Nat.min (Pos.to_nat w) (length (Session.events s)))%nat).
Proof.
  split; [reflexivity|]. split; [reflexivity|].
  intros w. rewrite contentsRequestProcessor_added.
  etransitivity; [apply omap_length_le|].
  unfold selectedEvents, contentsConfig. cbn [mbind option_bind Processors.ContentsProcessorConfig.windowSize].
  change (JS.truthy_Z (Z.pos w) && (0 <? Z.pos w)) with true. cbv iota.
  change (- Z.pos w) with (Z.neg w). rewrite slice_neg.
  assert (L : (length (lastN (Z.to_nat (Z.min (Z.pos w) (Z.of_nat (length (Session.events s)))))
                             (Session.events s))
               <= Nat.min (Pos.to_nat w) (length (Session.events s)))%nat).
  { rewrite lastN_length. lia. }
  destruct (default [] _); [exact L|].
  etransitivity; [apply filter_length_le | exact L].
Qed.

(** The projection never confuses event kinds: a content determines the
    action of the event it was derived from. *)
Lemma content_action b b' e e' k :
  Processors.eventToContent b e = Some k ->
  Processors.eventToContent b' e' = Some k ->
  action e = action e'.
Proof.
  intros H H'.
  destruct e as [u|[? ? ? [?|] ? [?|] ?]|t|r|x|x|x|x|x],
           e' as [u'|[? ? ? [?|] ? [?|] ?]|t'|r'|x'|x'|x'|x'|x'];
    cbn in H, H'; try destruct b; try destruct b';
    try discriminate H; try discriminate H'; try reflexivity;
    exfalso; rewrite <- H in H'; inversion H'.
Qed.

Lemma eventToContent_tool_role b e k :
  Processors.eventToContent b e = Some k ->
  (WorkingContext.Content.role k = WorkingContext.tool <-> action e = TOOL_RESULT).
Proof.
  destruct e; cbn; try destruct b; intros H; inversion H; cbn; split; congruence.
Qed.

Lemma eventToContent_without_tools e k :
  Processors.eventToContent false e = Some k ->
  action e <> TOOL_CALL /\ action e <> TOOL_RESULT.
Proof. destruct e; cbn; intros H; try discriminate H; split; discriminate. Qed.

(** X16. With [includeToolCalls: false] nothing of a tool call or tool
    result reaches the context: no added content has the role ["tool"],
    and none is the content that a tool-call or tool-result event would
    yield. *)
Theorem contentsRequestProcessor_without_tools (s : Session.t) (context : WorkingContext.t)
    (windowSize : option Z) (filterActions : option (list EventAction)) :
  Forall
    (fun k =>
       WorkingContext.Content.role k <> WorkingContext.tool /\
       forall e, derivedContent e = Some k ->
                 action e <> TOOL_CALL /\ action e <> TOOL_RESULT)
    (added context
       (Processors.contentsRequestProcessor s context
          (contentsConfig windowSize (Some false) filterActions))).
Proof.
  rewrite contentsRequestProcessor_added. apply List.Forall_forall.
  intros k Hk. apply list_elem_of_In, list_elem_of_omap in Hk.
  destruct Hk as (e' & _ & He').
  change (includesToolCalls (contentsConfig windowSize (Some false) filterActions))
    with false in He'.
  destruct (eventToContent_without_tools _ _ He') as [Hcall Hres].
  split.
  - intros Hrole. apply Hres. apply (eventToContent_tool_role false e' k He'). exact Hrole.
  - intros e He. rewrite (content_action true false e e' k He He'). split; assumption.
Qed.

(** X17. [filterActions] drops the listed kinds entirely: no added
    content is one that an event with a listed action would yield, with
    or without tool calls included. *)
Theorem contentsRequestProcessor_filter (s : Session.t) (context : WorkingContext.t)
    (windowSize : option Z) (includeToolCalls : option bool)
    (filterActions : list EventAction) :
  Forall
    (fun k => forall b e, Processors.eventToContent b e = Some k ->
                          action e ∉ filterActions)
    (added context
       (Processors.contentsRequestProcessor s context
          (contentsConfig windowSize includeToolCalls (Some filterActions)))).
Proof.
  rewrite contentsRequestProcessor_added. apply List.Forall_forall.
  intros k Hk b e He. apply list_elem_of_In, list_elem_of_omap in Hk.
  destruct Hk as (e' & Hsel & He').
  rewrite (content_action _ _ e e' k He He').
  unfold selectedEvents, contentsConfig in Hsel.
  cbn [mbind option_bind Processors.ContentsProcessorConfig.filterActions default] in Hsel.
  destruct filterActions as [|a actions]; [apply not_elem_of_nil|].
  apply list_elem_of_In, filter_In in Hsel. destruct Hsel as [_ Hsel].
  apply negb_true_iff, bool_decide_eq_false in Hsel. exact Hsel.
Qed.

Lemma addSystemInstructions_fold instructions : forall context,
  WorkingContext.systemInstructions
    (fold_left (fun ctx i => WorkingContext.addSystemInstruction i ctx) instructions context)
    = WorkingContext.systemInstructions context ++ instructions /\
  WorkingContext.contents
    (fold_left (fun ctx i => WorkingContext.addSystemInstruction i ctx) instructions context)
    = WorkingContext.contents context /\
  WorkingContext.metadata
    (fold_left (fun ctx i => WorkingContext.addSystemInstruction i ctx) instructions context)
    = WorkingContext.metadata context.
Proof.
  induction instructions as [|i instructions IH]; intros context; cbn [fold_left].
  - rewrite app_nil_r. repeat split.
  - destruct (IH (WorkingContext.addSystemInstruction i context)) as (H1 & H2 & H3).
    rewrite H1, H2, H3. cbn. rewrite <- app_assoc. repeat split.
Qed.

(** X18. The instructions processor appends, after the instructions the
    context already has, first the configured ones and then the
    [instruction] of every system-instruction event of the log flagged
    [isStatic], in log order; system instructions that are not static
    are left out, and contents and metadata are untouched. *)
Theorem instructionsRequestProcessor_spec (s : Session.t) (context : WorkingContext.t)
    (config : option Processors.InstructionsProcessorConfig.t) :
  WorkingContext.systemInstructions
    (Processors.instructionsRequestProcessor s context config)
    = WorkingContext.systemInstructions context
      ++ default [] (config ≫= Processors.InstructionsProcessorConfig.instructions)
      ++ omap Processors.staticInstruction (Session.events s) /\
  (forall before i after,
     SystemInstructionEvent.isStatic i = false ->
     WorkingContext.systemInstructions
       (Processors.instructionsRequestProcessor
          (sessionWith s (before ++ SystemInstruction i :: after)) context config)
     = WorkingContext.systemInstructions
         (Processors.instructionsRequestProcessor
            (sessionWith s (before ++ after)) context config)) /\
  WorkingContext.contents (Processors.instructionsRequestProcessor s context config)
    = WorkingContext.contents context /\
  WorkingContext.metadata (Processors.instructionsRequestProcessor s context config)
    = WorkingContext.metadata context.
Proof.
  assert (E : forall s',
            WorkingContext.systemInstructions
              (Processors.instructionsRequestProcessor s' context config)
            = WorkingContext.systemInstructions context
              ++ default [] (config ≫= Processors.InstructionsProcessorConfig.instructions)
              ++ omap Processors.staticInstruction (Session.events s')).
  { intros s'. unfold Processors.instructionsRequestProcessor.
    destruct (addSystemInstructions_fold
                (omap Processors.staticInstruction (Session.events s'))
                (match config ≫= Processors.InstructionsProcessorConfig.instructions with
                 | Some instructions =>
                     fold_left (fun ctx i => WorkingContext.addSystemInstruction i ctx)
                               instructions context
                 | None => context
                 end)) as (H1 & _).
    rewrite H1. destruct (config ≫= _) as [instructions|]; cbn [default].
    - destruct (addSystemInstructions_fold instructions context) as (H & _).
      rewrite H, <- app_assoc. reflexivity.
    - reflexivity. }
  split; [apply E|]. split; [|split].
  - intros before i after Hi. rewrite !E.
    cbn [sessionWith Processors.withEvents Session.events].
    rewrite !omap_app. cbn [omap list_omap Processors.staticInstruction]. rewrite Hi.
    reflexivity.
  - unfold Processors.instructionsRequestProcessor.
    destruct (addSystemInstructions_fold
                (omap Processors.staticInstruction (Session.events s))
                (match config ≫= Processors.InstructionsProcessorConfig.instructions with
                 | Some instructions =>
                     fold_left (fun ctx i => WorkingContext.addSystemInstruction i ctx)
                               instructions context
                 | None => context
                 end)) as (_ & H2 & _).
    rewrite H2. destruct (config ≫= _) as [instructions|]; [|reflexivity].
    apply addSystemInstructions_fold.
  - unfold Processors.instructionsRequestProcessor.
    destruct (addSystemInstructions_fold
                (omap Processors.staticInstruction (Session.events s))
                (match config ≫= Processors.InstructionsProcessorConfig.instructions with
                 | Some instructions =>
                     fold_left (fun ctx i => WorkingContext.addSystemInstruction i ctx)
                               instructions context
                 | None => context
                 end)) as (_ & _ & H3).
    rewrite H3. destruct (config ≫= _) as [instructions|]; [|reflexivity].
    apply addSystemInstructions_fold.
Qed.

Lemma instructionsRequestProcessor_witness :
  let b := BaseEvent.mk "i" 0 None in
  let fixed := SystemInstructionEvent.mk b "Answer in French." true None in
  let dynamic := SystemInstructionEvent.mk b "Today is Monday." false None in
  let s := Session.new "agent" 0 "x" in
  let context := WorkingContext.addSystemInstruction "Be brief." (WorkingContext.new "sid" 0) in
  let config := Some (Processors.InstructionsProcessorConfig.mk (Some ["Be kind."])) in
  SystemInstructionEvent.isStatic dynamic = false /\
  WorkingContext.systemInstructions
    (Processors.instructionsRequestProcessor
       (sessionWith s ([] ++ SystemInstruction dynamic :: [SystemInstruction fixed]))
       context config)
  = WorkingContext.systemInstructions
      (Processors.instructionsRequestProcessor
         (sessionWith s ([] ++ [SystemInstruction fixed])) context config).
Proof.
  intros b fixed dynamic s context config. split; [reflexivity|].
  apply (proj1 (proj2 (instructionsRequestProcessor_spec s context config))).
  reflexivity.
Defined.

Example instructionsRequestProcessor_example :
  let b := BaseEvent.mk "i" 0 None in
  let fixed := SystemInstruction (SystemInstructionEvent.mk b "Answer in French." true None) in
  let dynamic := SystemInstruction (SystemInstructionEvent.mk b "Today is Monday." false None) in
  WorkingContext.systemInstructions
    (Processors.instructionsRequestProcessor
       (sessionWith (Session.new "agent" 0 "x") [dynamic; fixed])
       (WorkingContext.addSystemInstruction "Be brief." (WorkingContext.new "sid" 0))
       (Some (Processors.InstructionsProcessorConfig.mk (Some ["Be kind."]))))
  = ["Be brief."; "Be kind."; "Answer in French."].
Proof. reflexivity. Qed.

Lemma filter_nil_of_count a evs :
  countAction a evs = 0 ->
  List.filter (fun e => bool_decide (action e = a)) evs = [].
Proof.
  unfold countAction. intros H.
  destruct (List.filter _ evs); [reflexivity | cbn [length] in H; lia].
Qed.

(** X19. Edges of the sliding window.  On a log without any user message
    the processor returns the context as it is, for every configuration:
    nothing is projected, compaction summaries included.  And [turns: 0]
    is read as no [turns] at all, that is as the default 3. *)
Theorem slidingWindowRequestProcessor_edges (s : Session.t) (context : WorkingContext.t) :
  (countAction USER_MESSAGE (Session.events s) = 0 ->
   forall config, Processors.slidingWindowRequestProcessor s context config = context) /\
  Processors.slidingWindowRequestProcessor s context (slidingTurns (Some 0))
    = Processors.slidingWindowRequestProcessor s context (slidingTurns (Some 3)) /\
  Processors.slidingWindowRequestProcessor s context (slidingTurns None)
    = Processors.slidingWindowRequestProcessor s context (slidingTurns (Some 3)) /\
  Processors.slidingWindowRequestProcessor s context None
    = Processors.slidingWindowRequestProcessor s context (slidingTurns (Some 3)).
Proof.
  split; [|repeat split].
  intros H config. unfold Processors.slidingWindowRequestProcessor.
  rewrite (filter_nil_of_count _ _ H). unfold JS.slice. rewrite drop_nil. reflexivity.
Qed.

Lemma slidingWindowRequestProcessor_edges_witness :
  let s := sessionWith (Session.new "agent" 0 "x")
             [sampleAgent "a1" "hello";
              Compaction (sampleCompaction "c" "a greeting" ["a1"])] in
  let context := WorkingContext.new "sid" 0 in
  countAction USER_MESSAGE (Session.events s) = 0 /\
  Processors.slidingWindowRequestProcessor s context (slidingTurns (Some 5)) = context.
Proof.
  intros s context. split; [reflexivity|].
  apply (proj1 (slidingWindowRequestProcessor_edges s context)). reflexivity.
Defined.

Lemma lastN_nonempty {A} (k : nat) (l : list A) :
  (0 < k)%nat -> l <> [] -> exists x rest, lastN k l = x :: rest.
Proof.
  intros Hk Hl. pose proof (lastN_length k l) as H.
  destruct (lastN k l) as [|x rest]; [|eauto].
  destruct l; [congruence|]. cbn [length] in H. lia.
Qed.

(** X20. The sliding window never loses a summary: when the log has a
    user message and [turns] is left out or positive, every compaction
    event of the log, however old, is projected as a ["system"] content
    carrying its summary. *)
Theorem slidingWindowRequestProcessor_keeps_summaries (s : Session.t)
    (context : WorkingContext.t) (turns : option positive)
    (u : UserMessageEvent.t) (c : CompactionEvent.t) :
  UserMessage u ∈ Session.events s ->
  Compaction c ∈ Session.events s ->
  exists k,
    k ∈ added context
          (Processors.slidingWindowRequestProcessor s context (slidingTurns (Z.pos <$> turns))) /\
    WorkingContext.Content.role k = WorkingContext.system /\
    WorkingContext.Content.content k = summaryText c.
Proof.
  intros Hu Hc. unfold Processors.slidingWindowRequestProcessor.
  set (q := default 3%positive turns).
  assert (Et : match slidingTurns (Z.pos <$> turns) ≫= Processors.SlidingWindowProcessorConfig.turns with
               | Some n => if JS.truthy_Z n then n else 3
               | None => 3
               end = Z.pos q).
  { destruct turns; reflexivity. }
  rewrite Et. change (- Z.pos q) with (Z.neg q). rewrite slice_neg.
  set (users := List.filter (fun e => bool_decide (action e = USER_MESSAGE)) (Session.events s)).
  assert (Hne : users <> []).
  { intros E. assert (Hin : In (UserMessage u) users).
    { apply filter_In. split; [apply list_elem_of_In; exact Hu|].
      apply bool_decide_eq_true. reflexivity. }
    rewrite E in Hin. exact Hin. }
  destruct (lastN_nonempty (Z.to_nat (Z.min (Z.pos q) (Z.of_nat (length users)))) users)
    as (oldest & rest & ->); [|exact Hne|].
  { destruct users; [congruence|]. cbn [length]. lia. }
  rewrite contentsRequestProcessor_added.
  exists (WorkingContext.Content.mk
            WorkingContext.system (summaryText c) None None
            (Some (Processors.originProps (Compaction c)
                   ++ [("compactedEventIds",
                        JS.JArr (List.map JS.JStr (CompactionEvent.compactedEventIds c)))]))).
  split; [|split; reflexivity].
  apply list_elem_of_omap. exists (Compaction c). split; [|reflexivity].
  cbn [selectedEvents Processors.withEvents Session.events mbind option_bind
       Processors.ContentsProcessorConfig.windowSize
       Processors.ContentsProcessorConfig.filterActions default].
  apply list_elem_of_In, filter_In. split; [apply list_elem_of_In; exact Hc|].
  apply orb_true_iff. right. apply bool_decide_eq_true. reflexivity.
Qed.

Lemma slidingWindowRequestProcessor_keeps_summaries_witness :
  let old := sampleCompaction "c0" "what came before" ["e0"] in
  let recent := UserMessageEvent.mk (BaseEvent.mk "u9" 900 None) "and now?" None in
  let s := sessionWith (Session.new "agent" 0 "x") [Compaction old; UserMessage recent] in
  exists k,
    k ∈ added (WorkingContext.new "sid" 0)
          (Processors.slidingWindowRequestProcessor s (WorkingContext.new "sid" 0)
             (slidingTurns (Z.pos <$> Some 1%positive))) /\
    WorkingContext.Content.role k = WorkingContext.system /\
    WorkingContext.Content.content k = summaryText old.
Proof.
  intros old recent s.
  apply (slidingWindowRequestProcessor_keeps_summaries
           s (WorkingContext.new "sid" 0) (Some 1%positive) recent old).
  - apply list_elem_of_In. right. left. reflexivity.
  - apply list_elem_of_In. left. reflexivity.
Defined.

(** The events the compaction filter keeps, for any configuration. *)
Lemma compactionFilter_added s context config :
  added context (Processors.compactionFilterRequestProcessor s context config)
  = omap derivedContent
      (List.filter
         (fun e =>
            negb (bool_decide (id e ∈ (list_to_set (compactedIds (Session.events s))
                                       : gset string)))
            || (default true
                  (config ≫= Processors.CompactionFilterProcessorConfig.keepCompactionSummaries)
                && bool_decide (action e = COMPACTION)))
         (Session.events s)).
Proof.
  apply added_app.
  unfold Processors.compactionFilterRequestProcessor, Processors.contentsRequestProcessor.
  cbn -[Processors.projectStep List.filter omap].
  rewrite project_contents, collectCompactedIds_list, omap_asCompaction_filter.
  reflexivity.
Qed.

(** X21. With [keepCompactionSummaries: false] every listed id is out:
    no added content comes from an event whose id some compaction event
    lists, compaction events included.  But the option removes nothing
    else: a compaction event whose own id is not listed is still
    projected as a summary. *)
Theorem compactionFilter_dropping_summaries (s : Session.t) (context : WorkingContext.t) :
  Forall
    (fun k => forall i, originId k = Some i -> i ∉ compactedIds (Session.events s))
    (added context (Processors.compactionFilterRequestProcessor s context droppingSummaries)) /\
  (forall c,
     Compaction c ∈ Session.events s ->
     id (Compaction c) ∉ compactedIds (Session.events s) ->
     exists k,
       k ∈ added context
             (Processors.compactionFilterRequestProcessor s context droppingSummaries) /\
       WorkingContext.Content.role k = WorkingContext.system /\
       WorkingContext.Content.content k = summaryText c).
Proof.
  rewrite compactionFilter_added.
  cbn [droppingSummaries mbind option_bind default andb
       Processors.CompactionFilterProcessorConfig.keepCompactionSummaries].
  split.
  - apply List.Forall_forall. intros k Hk i Hi.
    apply list_elem_of_In, list_elem_of_omap in Hk. destruct Hk as (e & He & Hd).
    apply list_elem_of_In, filter_In in He. destruct He as [_ He].
    rewrite orb_false_r in He. apply negb_true_iff, bool_decide_eq_false in He.
    rewrite elem_of_list_to_set in He.
    pose proof (eventToContent_origin true e k Hd) as O.
    assert (i = id e) by congruence. subst i. exact He.
  - intros c Hc Hid.
    exists (WorkingContext.Content.mk
              WorkingContext.system (summaryText c) None None
              (Some (Processors.originProps (Compaction c)
                     ++ [("compactedEventIds",
                          JS.JArr (List.map JS.JStr (CompactionEvent.compactedEventIds c)))]))).
    split; [|split; reflexivity].
    apply list_elem_of_omap. exists (Compaction c). split; [|reflexivity].
    apply list_elem_of_In, filter_In. split; [apply list_elem_of_In; exact Hc|].
    rewrite orb_false_r. apply negb_true_iff, bool_decide_eq_false.
    rewrite elem_of_list_to_set. exact Hid.
Qed.

Lemma compactionFilter_dropping_summaries_witness :
  let s := sessionWith (Session.new "agent" 0 "x") compactedLog in
  let c := sampleCompaction "c" "the user asked two questions" ["e1"; "e3"] in
  Compaction c ∈ Session.events s /\
  (id (Compaction c) ∉ compactedIds (Session.events s)) /\
  exists k,
    k ∈ added (WorkingContext.new "sid" 0)
          (Processors.compactionFilterRequestProcessor s (WorkingContext.new "sid" 0)
             droppingSummaries) /\
    WorkingContext.Content.role k = WorkingContext.system /\
    WorkingContext.Content.content k = summaryText c.
Proof.
  intros s c.
  assert (Hc : Compaction c ∈ Session.events s).
  { apply list_elem_of_In. vm_compute. tauto. }
  assert (Hid : id (Compaction c) ∉ compactedIds (Session.events s)).
  { intros H. apply list_elem_of_In in H. vm_compute in H.
    destruct H as [H|[H|H]]; [discriminate H | discriminate H | exact H]. }
  split; [exact Hc|]. split; [exact Hid|].
  exact (proj2 (compactionFilter_dropping_summaries s (WorkingContext.new "sid" 0)) c Hc Hid).
Defined.

Lemma compactedIds_without_compactions evs :
  countAction COMPACTION evs = 0 -> compactedIds evs = [].
Proof.
  intros H. unfold compactedIds.
  rewrite <- omap_asCompaction_filter, (filter_nil_of_count _ _ H). reflexivity.
Qed.

Lemma filter_all {A} (p : A -> bool) (l : list A) :
  (forall x, In x l -> p x = true) -> List.filter p l = l.
Proof.
  induction l as [|x l IH]; intros H; [reflexivity|].
  cbn [List.filter]. rewrite (H x (or_introl eq_refl)).
  f_equal. apply IH. intros y Hy. apply H. right. exact Hy.
Qed.

(** X22. On a log without compaction events the compaction filter is the
    plain projection: whatever its configuration, it adds what the
    contents processor adds with no configuration, and it records zero
    compacted events. *)
Theorem compactionFilter_without_compactions (s : Session.t) (context : WorkingContext.t)
    (config : option Processors.CompactionFilterProcessorConfig.t) :
  countAction COMPACTION (Session.events s) = 0 ->
  WorkingContext.contents (Processors.compactionFilterRequestProcessor s context config)
    = WorkingContext.contents (Processors.contentsRequestProcessor s context None) /\
  added context (Processors.compactionFilterRequestProcessor s context config)
    = omap derivedContent (Session.events s) /\
  WorkingContext.WorkingContextMetadata.compactedEvents
    (WorkingContext.metadata (Processors.compactionFilterRequestProcessor s context config))
    = 0.
Proof.
  intros H.
  assert (E : added context (Processors.compactionFilterRequestProcessor s context config)
              = omap derivedContent (Session.events s)).
  { rewrite compactionFilter_added, (compactedIds_without_compactions _ H).
    rewrite filter_all; [reflexivity|]. intros e _.
    apply orb_true_iff. left. apply negb_true_iff, bool_decide_eq_false.
    apply not_elem_of_empty. }
  split; [|split; [exact E|]].
  - rewrite contentsRequestProcessor_contents.
    change (omap (Processors.eventToContent (includesToolCalls None))
                 (selectedEvents None (Session.events s)))
      with (omap derivedContent (Session.events s)).
    rewrite <- E. unfold added.
    assert (P : WorkingContext.contents context
                `prefix_of` WorkingContext.contents
                              (Processors.compactionFilterRequestProcessor s context config)).
    { unfold Processors.compactionFilterRequestProcessor.
      rewrite contentsRequestProcessor_contents. eexists. reflexivity. }
    destruct P as [extra ->]. rewrite drop_app_length. reflexivity.
  - rewrite compactionFilter_compactedEvents, (compactedIds_without_compactions _ H).
    reflexivity.
Qed.

Lemma compactionFilter_without_compactions_witness :
  let s := sessionWith (Session.new "agent" 0 "x")
             [sampleUser "e1" "hi"; sampleAgent "e2" "hello"] in
  let context := WorkingContext.new "sid" 0 in
  countAction COMPACTION (Session.events s) = 0 /\
  WorkingContext.contents (Processors.compactionFilterRequestProcessor s context None)
    = WorkingContext.contents (Processors.contentsRequestProcessor s context None).
Proof.
  intros s context. split; [reflexivity|].
  apply (compactionFilter_without_compactions s context None). reflexivity.
Defined.

(** ** The pipeline and the default factory *)

Lemma requestStep_enabledOnly s (entries : list Pipeline.RequestEntry.t) : forall context,
  fold_left (Pipeline.requestStep s) entries context
  = fold_left (Pipeline.requestStep s)
      (List.filter (fun e => negb (Pipeline.isDisabled (Pipeline.RequestEntry.enabled e)))
                   entries)
      context.
Proof.
  induction entries as [|e entries IH]; intros context; [reflexivity|].
  cbn [fold_left List.filter].
  destruct (Pipeline.isDisabled (Pipeline.RequestEntry.enabled e)) eqn:E; cbn [negb].
  - replace (Pipeline.requestStep s context e) with context
      by (unfold Pipeline.requestStep; rewrite E; reflexivity).
    apply IH.
  - cbn [fold_left]. apply IH.
Qed.

Lemma execute_add {TConfig} s now name (processor : Pipeline.RequestProcessor TConfig)
    config p :
  Pipeline.executeRequestPipeline s now (Pipeline.addRequestProcessor name processor config p)
  = processor s (Pipeline.executeRequestPipeline s now p) config.
Proof.
  unfold Pipeline.executeRequestPipeline, Pipeline.addRequestProcessor.
  cbn [Pipeline.requestProcessors]. rewrite fold_left_app. reflexivity.
Qed.

(** X24. Running the request pipeline.  A pipeline without processors
    returns the fresh context of the session.  Entries whose [enabled]
    is [false] are skipped: the result is that of the pipeline without
    them.  A processor added with [addRequestProcessor] runs last, on
    the result of the processors before it and with its own
    configuration. *)
Theorem executeRequestPipeline_spec (s : Session.t) (now : Z) (p : Pipeline.t) :
  Pipeline.executeRequestPipeline s now (Pipeline.new None) = freshContext s now /\
  Pipeline.executeRequestPipeline s now p
    = Pipeline.executeRequestPipeline s now (enabledOnly p) /\
  (forall (TConfig : Type) name (processor : Pipeline.RequestProcessor TConfig) config,
     Pipeline.executeRequestPipeline s now
       (Pipeline.addRequestProcessor name processor config p)
     = processor s (Pipeline.executeRequestPipeline s now p) config).
Proof.
  split; [reflexivity|]. split.
  - unfold Pipeline.executeRequestPipeline, enabledOnly. cbn [Pipeline.requestProcessors].
    apply requestStep_enabledOnly.
  - intros TConfig name processor config. apply execute_add.
Qed.

Lemma filter_filter_same {A} (p : A -> bool) (l : list A) :
  List.filter p (List.filter p l) = List.filter p l.
Proof.
  induction l as [|x l IH]; [reflexivity|].
  cbn [List.filter]. destruct (p x) eqn:E; [|exact IH].
  cbn [List.filter]. rewrite E, IH. reflexivity.
Qed.

Lemma requestNames_remove name p :
  requestNames (Pipeline.removeRequestProcessor name p)
  = List.filter (fun n => negb (String.eqb n name)) (requestNames p).
Proof.
  unfold requestNames, Pipeline.removeRequestProcessor. cbn [Pipeline.requestProcessors].
  induction (Pipeline.requestProcessors p) as [|e entries IH]; [reflexivity|].
  cbn [List.filter List.map]. destruct (String.eqb (Pipeline.RequestEntry.name e) name);
    cbn [negb List.map]; rewrite IH; reflexivity.
Qed.

Lemma remove_absent name p :
  name ∉ requestNames p -> Pipeline.removeRequestProcessor name p = p.
Proof.
  intros H. destruct p as [requests responses].
  unfold Pipeline.removeRequestProcessor. cbn [Pipeline.requestProcessors Pipeline.responseProcessors].
  f_equal. apply filter_all. intros e He.
  apply negb_true_iff, String.eqb_neq. intros E. apply H.
  unfold requestNames. cbn [Pipeline.requestProcessors].
  apply list_elem_of_In, in_map_iff. exists e. split; assumption.
Qed.

(** X25. [removeRequestProcessor] removes every entry with the given
    name and nothing else: the other entries keep their order, the name
    no longer occurs, the response processors are untouched, removing
    again changes nothing, and removing a name that does not occur
    leaves the pipeline as it is. *)
Theorem removeRequestProcessor_spec (name : string) (p : Pipeline.t) :
  requestNames (Pipeline.removeRequestProcessor name p)
    = List.filter (fun n => negb (String.eqb n name)) (requestNames p) /\
  (name ∉ requestNames (Pipeline.removeRequestProcessor name p)) /\
  Pipeline.responseProcessors (Pipeline.removeRequestProcessor name p)
    = Pipeline.responseProcessors p /\
  Pipeline.removeRequestProcessor name (Pipeline.removeRequestProcessor name p)
    = Pipeline.removeRequestProcessor name p /\
  (name ∉ requestNames p -> Pipeline.removeRequestProcessor name p = p).
Proof.
  split; [apply requestNames_remove|]. split; [|split; [reflexivity|split]].
  - rewrite requestNames_remove. intros H.
    apply list_elem_of_In, filter_In in H. destruct H as [_ H].
    rewrite String.eqb_refl in H. discriminate H.
  - unfold Pipeline.removeRequestProcessor at 1 2.
    cbn [Pipeline.requestProcessors Pipeline.responseProcessors].
    unfold Pipeline.removeRequestProcessor. rewrite filter_filter_same. reflexivity.
  - apply remove_absent.
Qed.

Lemma removeRequestProcessor_witness :
  let p := Pipeline.createDefaultPipeline Pipeline.DefaultPipelineOptions.empty in
  ("token-limit" ∉ requestNames p) /\
  Pipeline.removeRequestProcessor "token-limit" p = p.
Proof.
  intros p.
  assert (H : "token-limit" ∉ requestNames p).
  { intros H. apply list_elem_of_In in H. vm_compute in H.
    destruct H as [H|[H|[H|H]]]; [discriminate H..|exact H]. }
  split; [exact H|].
  exact (proj2 (proj2 (proj2 (proj2 (removeRequestProcessor_spec "token-limit" p)))) H).
Defined.

Lemma spliceInsert_end {A} (index : Z) (item : A) (a : list A) :
  Z.of_nat (length a) <= index -> Pipeline.spliceInsert index item a = a ++ [item].
Proof.
  intros H. unfold Pipeline.spliceInsert.
  assert (E : (index <? 0) = false) by (apply Z.ltb_ge; lia). rewrite E.
  rewrite Z.min_r by exact H. rewrite Nat2Z.id, firstn_all, drop_all. reflexivity.
Qed.

Lemma spliceInsert_front {A} (index : Z) (item : A) (a : list A) :
  index <= - Z.of_nat (length a) -> Pipeline.spliceInsert index item a = item :: a.
Proof.
  intros H. unfold Pipeline.spliceInsert.
  destruct (index <? 0) eqn:E.
  - rewrite Z.max_r by lia. reflexivity.
  - apply Z.ltb_ge in E. assert (length a = 0%nat) by lia.
    destruct a; [|discriminate]. replace index with 0 by (cbn in H; lia). reflexivity.
Qed.

Lemma spliceInsert_split {A} (index : Z) (item : A) (a : list A) :
  exists front back,
    a = front ++ back /\ Pipeline.spliceInsert index item a = front ++ item :: back.
Proof.
  unfold Pipeline.spliceInsert. eexists. eexists. split; [|reflexivity].
  symmetry. apply take_drop.
Qed.

(** X26. [insertRequestProcessor] places the new entry without
    disturbing the others: an index at or past the end appends, as
    [addRequestProcessor] does; an index at or before minus the length
    puts it first; and for any index, removing a freshly inserted name
    gives the pipeline back. *)
Theorem insertRequestProcessor_spec (TConfig : Type) (index : Z) (name : string)
    (processor : Pipeline.RequestProcessor TConfig) (config : option TConfig)
    (p : Pipeline.t) :
  (Z.of_nat (length (Pipeline.requestProcessors p)) <= index ->
   Pipeline.insertRequestProcessor index name processor config p
   = Pipeline.addRequestProcessor name processor config p) /\
  (index <= - Z.of_nat (length (Pipeline.requestProcessors p)) ->
   requestNames (Pipeline.insertRequestProcessor index name processor config p)
   = name :: requestNames p) /\
  length (requestNames (Pipeline.insertRequestProcessor index name processor config p))
    = S (length (requestNames p)) /\
  (name ∉ requestNames p ->
   Pipeline.removeRequestProcessor name
     (Pipeline.insertRequestProcessor index name processor config p) = p).
Proof.
  split; [|split; [|split]].
  - intros H. unfold Pipeline.insertRequestProcessor, Pipeline.addRequestProcessor.
    rewrite spliceInsert_end by exact H. reflexivity.
  - intros H. unfold requestNames, Pipeline.insertRequestProcessor.
    cbn [Pipeline.requestProcessors]. rewrite spliceInsert_front by exact H. reflexivity.
  - unfold requestNames, Pipeline.insertRequestProcessor. cbn [Pipeline.requestProcessors].
    destruct (spliceInsert_split index
                (Pipeline.RequestEntry.mk TConfig name processor config None)
                (Pipeline.requestProcessors p)) as (front & back & Hp & ->).
    rewrite Hp, !length_map, !length_app. cbn [length]. lia.
  - intros H. destruct p as [requests responses].
    unfold Pipeline.removeRequestProcessor, Pipeline.insertRequestProcessor.
    cbn [Pipeline.requestProcessors Pipeline.responseProcessors].
    f_equal.
    destruct (spliceInsert_split index
                (Pipeline.RequestEntry.mk TConfig name processor config None)
                requests) as (front & back & Hp & ->).
    assert (Hall : forall e, In e requests ->
                     negb (String.eqb (Pipeline.RequestEntry.name e) name) = true).
    { intros e He. apply negb_true_iff, String.eqb_neq. intros E. apply H.
      unfold requestNames. cbn [Pipeline.requestProcessors].
      apply list_elem_of_In, in_map_iff. exists e. split; assumption. }
    rewrite List.filter_app. cbn [List.filter Pipeline.RequestEntry.name].
    rewrite String.eqb_refl. cbn [negb].
    rewrite <- List.filter_app, <- Hp. apply filter_all. exact Hall.
Qed.

Lemma insertRequestProcessor_witness :
  let p := Pipeline.createDefaultPipeline Pipeline.DefaultPipelineOptions.empty in
  requestNames
    (Pipeline.insertRequestProcessor 99 "audit" Pipeline.basicRequestProcessor None p)
    = ["basic"; "instructions"; "compaction-filter"; "audit"] /\
  requestNames
    (Pipeline.insertRequestProcessor (-99) "audit" Pipeline.basicRequestProcessor None p)
    = ["audit"; "basic"; "instructions"; "compaction-filter"] /\
  Pipeline.removeRequestProcessor "audit"
    (Pipeline.insertRequestProcessor (-1) "audit" Pipeline.basicRequestProcessor None p) = p.
Proof.
  intros p. split; [|split].
  - rewrite (proj1 (insertRequestProcessor_spec
                      unit 99 "audit" Pipeline.basicRequestProcessor None p));
      [reflexivity | vm_compute; discriminate].
  - apply (proj1 (proj2 (insertRequestProcessor_spec
                           unit (-99) "audit" Pipeline.basicRequestProcessor None p))).
    vm_compute. discriminate.
  - apply (proj2 (proj2 (proj2 (insertRequestProcessor_spec
                                  unit (-1) "audit" Pipeline.basicRequestProcessor None p)))).
    intros H. apply list_elem_of_In in H. vm_compute in H.
    destruct H as [H|[H|[H|H]]]; [discriminate H..|exact H].
Defined.

Lemma execute_addResponse {TConfig} s now name
    (processor : Pipeline.ResponseProcessor TConfig) config p :
  Pipeline.executeRequestPipeline s now (Pipeline.addResponseProcessor name processor config p)
  = Pipeline.executeRequestPipeline s now p.
Proof. reflexivity. Qed.

(** X27. What the factory assembles.  The request side is [basic],
    [instructions], [identity] when an identity is given, exactly one
    history-shaping processor, [context-cache] when caching is enabled
    and [token-limit] when a window configuration is given, in this
    order.  The history-shaping processor is the compaction filter
    unless [useCompactionFilter] is [false]: [useSlidingWindow] alone
    does not select the sliding window.  The response side runs the
    statistics processor and nothing else. *)
Theorem createDefaultPipeline_shape (o : Pipeline.DefaultPipelineOptions.t) :
  requestNames (Pipeline.createDefaultPipeline o)
    = ["basic"; "instructions"]
      ++ match Pipeline.DefaultPipelineOptions.agentIdentity o with
         | Some _ => ["identity"]
         | None => []
         end
      ++ [historyProcessor o]
      ++ (if Pipeline.truthy_opt_bool (Pipeline.DefaultPipelineOptions.enableCaching o)
          then ["context-cache"] else [])
      ++ match Pipeline.DefaultPipelineOptions.contextWindowConfig o with
         | Some _ => ["token-limit"]
         | None => []
         end /\
  List.filter (fun n => bool_decide (n ∈ historyNames))
              (requestNames (Pipeline.createDefaultPipeline o))
    = [historyProcessor o] /\
  (forall s response context,
     Pipeline.executeResponsePipeline s response context (Pipeline.createDefaultPipeline o)
     = Processors.statisticsResponseProcessor s response (Pipeline.Context.declared context)).
Proof.
  destruct o as [instructions [identity|] window [limit|] [[|]|] [[|]|] [[|]|]];
    (split; [reflexivity|split; [vm_compute; reflexivity|intros; reflexivity]]).
Qed.

(** Asking for the sliding window without switching the compaction
    filter off still yields the compaction filter. *)
Example createDefaultPipeline_sliding_ignored :
  requestNames
    (Pipeline.createDefaultPipeline
       (Pipeline.DefaultPipelineOptions.mk None None (Some 2) None None None (Some true)))
  = ["basic"; "instructions"; "compaction-filter"] /\
  requestNames
    (Pipeline.createDefaultPipeline
       (Pipeline.DefaultPipelineOptions.mk None None (Some 2) None None (Some false) (Some true)))
  = ["basic"; "instructions"; "sliding-window"].
Proof. split; reflexivity. Qed.

(** X28. The token limit is the last transformation of the default
    pipeline: with a window configuration the result is [truncateToFit]
    applied to the result the same options give without it. *)
Theorem createDefaultPipeline_token_limit (o : Pipeline.DefaultPipelineOptions.t)
    (config : WorkingContext.ContextWindowConfig.t) (s : Session.t) (now : Z) :
  Pipeline.executeRequestPipeline s now
    (Pipeline.createDefaultPipeline (withWindowConfig (Some config) o))
  = Pipeline.onDeclared (WorkingContext.truncateToFit config)
      (Pipeline.executeRequestPipeline s now
         (Pipeline.createDefaultPipeline (withWindowConfig None o))).
Proof.
  destruct o as [instructions identity window limit caching filter sliding].
  unfold Pipeline.createDefaultPipeline, withWindowConfig.
  cbn [Pipeline.DefaultPipelineOptions.systemInstructions
       Pipeline.DefaultPipelineOptions.agentIdentity
       Pipeline.DefaultPipelineOptions.windowSize
       Pipeline.DefaultPipelineOptions.contextWindowConfig
       Pipeline.DefaultPipelineOptions.enableCaching
       Pipeline.DefaultPipelineOptions.useCompactionFilter
       Pipeline.DefaultPipelineOptions.useSlidingWindow].
  rewrite !execute_addResponse, execute_add. reflexivity.
Qed.

Lemma project_fold_eq b (evs : list Event) : forall context,
  fold_left (Processors.projectStep b) evs context
  = WorkingContext.set_contents
      (WorkingContext.contents context ++ omap (Processors.eventToContent b) evs) context.
Proof.
  induction evs as [|e evs IH]; intros context; cbn [fold_left omap list_omap].
  - rewrite app_nil_r. destruct context; reflexivity.
  - rewrite IH. unfold Processors.projectStep.
    destruct (Processors.eventToContent b e) as [k|]; [|reflexivity].
    unfold WorkingContext.addContent, WorkingContext.set_contents.
    cbn [WorkingContext.contents WorkingContext.systemInstructions
         WorkingContext.agentIdentity WorkingContext.memoryResults
         WorkingContext.artifactReferences WorkingContext.metadata].
    rewrite <- app_assoc. reflexivity.
Qed.

Lemma addSystemInstructions_fold_eq instructions : forall context,
  fold_left (fun ctx i => WorkingContext.addSystemInstruction i ctx) instructions context
  = WorkingContext.mk
      (WorkingContext.systemInstructions context ++ instructions)
      (WorkingContext.agentIdentity context) (WorkingContext.contents context)
      (WorkingContext.memoryResults context) (WorkingContext.artifactReferences context)
      (WorkingContext.metadata context).
Proof.
  induction instructions as [|i instructions IH]; intros context; cbn [fold_left].
  - rewrite app_nil_r. destruct context; reflexivity.
  - rewrite IH. cbn. rewrite <- app_assoc. reflexivity.
Qed.

Lemma instructionsRequestProcessor_eq s context instructions :
  Processors.instructionsRequestProcessor s context
    (Some (Processors.InstructionsProcessorConfig.mk (Some instructions)))
  = WorkingContext.mk
      (WorkingContext.systemInstructions context ++ instructions
       ++ omap Processors.staticInstruction (Session.events s))
      (WorkingContext.agentIdentity context) (WorkingContext.contents context)
      (WorkingContext.memoryResults context) (WorkingContext.artifactReferences context)
      (WorkingContext.metadata context).
Proof.
  unfold Processors.instructionsRequestProcessor. cbn [mbind option_bind
    Processors.InstructionsProcessorConfig.instructions].
  rewrite !addSystemInstructions_fold_eq. cbn. rewrite <- app_assoc. reflexivity.
Qed.

(** On a log without compaction events the compaction filter projects
    every event and counts zero compacted ids. *)
Lemma compactionFilter_plain s context config :
  countAction COMPACTION (Session.events s) = 0 ->
  Processors.compactionFilterRequestProcessor s context config
  = WorkingContext.mk
      (WorkingContext.systemInstructions context) (WorkingContext.agentIdentity context)
      (WorkingContext.contents context ++ omap derivedContent (Session.events s))
      (WorkingContext.memoryResults context) (WorkingContext.artifactReferences context)
      (WorkingContext.WorkingContextMetadata.mk
         (WorkingContext.WorkingContextMetadata.sessionId (WorkingContext.metadata context))
         (WorkingContext.WorkingContextMetadata.totalEvents (WorkingContext.metadata context))
         0
         (Z.of_nat (length (WorkingContext.contents context
                            ++ omap derivedContent (Session.events s))))
         (WorkingContext.WorkingContextMetadata.createdAt (WorkingContext.metadata context))).
Proof.
  intros H.
  unfold Processors.compactionFilterRequestProcessor, Processors.contentsRequestProcessor.
  cbn -[Processors.projectStep List.filter omap Processors.collectCompactedIds].
  rewrite project_fold_eq, collectCompactedIds_list, omap_asCompaction_filter.
  fold (compactedIds (Session.events s)).
  rewrite (compactedIds_without_compactions _ H).
  rewrite filter_all.
  - reflexivity.
  - intros e _. apply orb_true_iff. left. apply negb_true_iff, bool_decide_eq_false.
    apply not_elem_of_empty.
Qed.

Lemma derivedContent_messages evs :
  forallb isMessage evs = true -> length (omap derivedContent evs) = length evs.
Proof.
  induction evs as [|e evs IH]; intros H; [reflexivity|].
  cbn [forallb] in H. apply andb_true_iff in H. destruct H as [He H].
  specialize (IH H). cbn [omap list_omap] in *.
  destruct e; try discriminate He; cbn [derivedContent Processors.eventToContent length];
    f_equal; exact IH.
Qed.

(** X29. The default pipeline on a log without compaction events.  With
    the compaction filter left on and no window configuration, the
    context built for a session is completely determined: the configured
    instructions followed by the static ones of the log, the configured
    identity, one content per projectable event in log order, no memory
    results or artifacts, and metadata recording the session id, the
    number of events, zero compacted events and the number of contents.
    On a log of user and agent messages only there are as many contents
    as events, two per turn. *)
Theorem createDefaultPipeline_plain_log (o : Pipeline.DefaultPipelineOptions.t)
    (s : Session.t) (now : Z) :
  Pipeline.DefaultPipelineOptions.useCompactionFilter o <> Some false ->
  Pipeline.DefaultPipelineOptions.contextWindowConfig o = None ->
  countAction COMPACTION (Session.events s) = 0 ->
  Pipeline.Context.declared
    (Pipeline.executeRequestPipeline s now (Pipeline.createDefaultPipeline o))
  = WorkingContext.mk
      (default [] (Pipeline.DefaultPipelineOptions.systemInstructions o)
       ++ omap Processors.staticInstruction (Session.events s))
      (Pipeline.DefaultPipelineOptions.agentIdentity o)
      (omap derivedContent (Session.events s))
      [] []
      (WorkingContext.WorkingContextMetadata.mk
         (Session.SessionMetadata.sessionId (Session.metadata s))
         (Z.of_nat (length (Session.events s)))
         0
         (Z.of_nat (length (omap derivedContent (Session.events s))))
         now) /\
  (forallb isMessage (Session.events s) = true ->
   length (WorkingContext.contents
             (Pipeline.Context.declared
                (Pipeline.executeRequestPipeline s now (Pipeline.createDefaultPipeline o))))
   = length (Session.events s)).
Proof.
  intros Hfilter Hlimit Hlog.
  assert (E : Pipeline.Context.declared
                (Pipeline.executeRequestPipeline s now (Pipeline.createDefaultPipeline o))
              = WorkingContext.mk
                  (default [] (Pipeline.DefaultPipelineOptions.systemInstructions o)
                   ++ omap Processors.staticInstruction (Session.events s))
                  (Pipeline.DefaultPipelineOptions.agentIdentity o)
                  (omap derivedContent (Session.events s))
                  [] []
                  (WorkingContext.WorkingContextMetadata.mk
                     (Session.SessionMetadata.sessionId (Session.metadata s))
                     (Z.of_nat (length (Session.events s)))
                     0
                     (Z.of_nat (length (omap derivedContent (Session.events s))))
                     now)).
  { destruct o as [instructions identity window limit caching filter sliding].
    cbn in Hfilter, Hlimit. subst limit.
    assert (Hf : Pipeline.isDisabled filter = false).
    { destruct filter as [[|]|]; [reflexivity | congruence | reflexivity]. }
    unfold Pipeline.createDefaultPipeline.
    cbn [Pipeline.DefaultPipelineOptions.systemInstructions
         Pipeline.DefaultPipelineOptions.agentIdentity
         Pipeline.DefaultPipelineOptions.windowSize
         Pipeline.DefaultPipelineOptions.contextWindowConfig
         Pipeline.DefaultPipelineOptions.enableCaching
         Pipeline.DefaultPipelineOptions.useCompactionFilter
         Pipeline.DefaultPipelineOptions.useSlidingWindow].
    rewrite Hf. cbn [negb].
    rewrite execute_addResponse.
    destruct (Pipeline.truthy_opt_bool caching); destruct identity as [identity|];
      rewrite !execute_add;
      cbn [Pipeline.contextCacheRequestProcessor mbind option_bind
           Pipeline.ContextCacheProcessorConfig.enableCaching
           Pipeline.Context.declared Pipeline.compactionFilterRequestProcessor
           Pipeline.onDeclared];
      rewrite (compactionFilter_plain _ _ _ Hlog);
      cbn [Pipeline.identityRequestProcessor Pipeline.instructionsRequestProcessor
           Pipeline.onDeclared Pipeline.Context.declared
           Processors.identityRequestProcessor];
      rewrite instructionsRequestProcessor_eq; reflexivity. }
  split; [exact E|].
  intros Hm. rewrite E. cbn [WorkingContext.contents]. apply derivedContent_messages, Hm.
Qed.

Lemma createDefaultPipeline_plain_log_witness :
  let s := sessionWith (Session.new "agent" 0 "x")
             [sampleUser "u1" "one"; sampleAgent "a1" "uno";
              sampleUser "u2" "two"; sampleAgent "a2" "dos";
              sampleUser "u3" "three"; sampleAgent "a3" "tres"] in
  length (WorkingContext.contents
            (Pipeline.Context.declared
               (Pipeline.executeRequestPipeline s 7
                  (Pipeline.createDefaultPipeline Pipeline.DefaultPipelineOptions.empty))))
  = 6%nat.
Proof.
  intros s.
  apply (proj2 (createDefaultPipeline_plain_log
                  Pipeline.DefaultPipelineOptions.empty s 7
                  ltac:(discriminate) eq_refl eq_refl)).
  reflexivity.
Defined.

Lemma truncateToFit_systemInstructions config c :
  WorkingContext.systemInstructions (WorkingContext.truncateToFit config c)
  = WorkingContext.systemInstructions c.
Proof.
  rewrite truncateToFit_unfold.
  destruct (WorkingContext.fitsWithinLimit config c); reflexivity.
Qed.

(** X30. The cache processor marks and never edits.  It leaves every
    declared field of the context as it is and does nothing unless
    [enableCaching] is [true].  In the default pipeline with caching
    enabled the final context is marked cacheable with a prefix equal to
    its number of system instructions, whichever history strategy and
    token limit are configured; without caching no mark is set. *)
Theorem contextCache_marks (o : Pipeline.DefaultPipelineOptions.t) (s : Session.t)
    (now : Z) :
  (forall context config,
     Pipeline.Context.declared (Pipeline.contextCacheRequestProcessor s context config)
     = Pipeline.Context.declared context) /\
  (forall context,
     Pipeline.contextCacheRequestProcessor s context None = context /\
     Pipeline.contextCacheRequestProcessor s context
       (Some (Pipeline.ContextCacheProcessorConfig.mk None)) = context /\
     Pipeline.contextCacheRequestProcessor s context
       (Some (Pipeline.ContextCacheProcessorConfig.mk (Some false))) = context) /\
  Pipeline.Context.marks
    (Pipeline.executeRequestPipeline s now (Pipeline.createDefaultPipeline o))
  = if Pipeline.truthy_opt_bool (Pipeline.DefaultPipelineOptions.enableCaching o)
    then Pipeline.CacheMarks.mk
           (Some true)
           (Some (Z.of_nat
                    (length (WorkingContext.systemInstructions
                               (Pipeline.Context.declared
                                  (Pipeline.executeRequestPipeline s now
                                     (Pipeline.createDefaultPipeline o)))))))
    else Pipeline.CacheMarks.mk None None.
Proof.
  split; [|split].
  - intros context [[[[|]|]]|]; reflexivity.
  - intros context. repeat split.
  - destruct o as [instructions identity window limit caching filter sliding].
    unfold Pipeline.createDefaultPipeline.
    cbn [Pipeline.DefaultPipelineOptions.systemInstructions
         Pipeline.DefaultPipelineOptions.agentIdentity
         Pipeline.DefaultPipelineOptions.windowSize
         Pipeline.DefaultPipelineOptions.contextWindowConfig
         Pipeline.DefaultPipelineOptions.enableCaching
         Pipeline.DefaultPipelineOptions.useCompactionFilter
         Pipeline.DefaultPipelineOptions.useSlidingWindow].
    rewrite execute_addResponse.
    destruct limit as [limit|], (Pipeline.truthy_opt_bool caching),
             (Pipeline.isDisabled filter), (Pipeline.truthy_opt_bool sliding),
             identity as [identity|];
      cbn [negb]; rewrite !execute_add;
      cbn [Pipeline.tokenLimitRequestProcessor Pipeline.contextCacheRequestProcessor
           Pipeline.compactionFilterRequestProcessor Pipeline.slidingWindowRequestProcessor
           Pipeline.contentsRequestProcessor Pipeline.identityRequestProcessor
           Pipeline.instructionsRequestProcessor Pipeline.basicRequestProcessor
           Pipeline.onDeclared Pipeline.Context.marks Pipeline.Context.declared
           mbind option_bind Pipeline.ContextCacheProcessorConfig.enableCaching
           Processors.tokenLimitRequestProcessor];
      rewrite ?truncateToFit_systemInstructions; reflexivity.
Qed.
